(** * DietGenerator: the macro-planning solver core

    A shallow embedding of the target calculator
    ([src/utils/calculations.ts]) and of the validation, correction and
    retry code of [src/services/googleAiService.ts], with the properties
    the specification states about them.

    Numbers.  A JavaScript [number] is read as an exact rational ([Q]);
    [Math.round] is rounding half up, [floor (x + 1/2)], and yields an
    integer ([Z]).  From finite inputs the modelled code leaves the finite
    range only by dividing by zero.  In [validateDietPlanSpecifications]
    the divisor is the calorie total, and the quotient is kept explicit in
    the type [jsnum] (finite, +Infinity, -Infinity, NaN); in the greedy
    fallback and the calorie cap of [macroCorrectionLoop] a zero divisor
    ends the model ([None]).  Rounding error of IEEE doubles is outside
    the model. *)

From Stdlib Require Import ZArith QArith Qround Qabs Qminmax Lqa Lia Bool Ascii String.
From stdpp Require Import gmap strings list.

(** ** Numbers *)

Module Num.
Local Open Scope Q_scope.

(** [Math.round]: the nearest integer, ties towards +Infinity. *)
Definition Math_round (x : Q) : Z := Qfloor (x + (1 # 2)).

(** [Math.round(x * 10) / 10], the one-decimal rounding of the source. *)
Definition round1 (x : Q) : Q := inject_Z (Math_round (x * 10)) / 10.

(** [a > b] and [a <= b] on finite numbers, as booleans. *)
Definition Qgtb (a b : Q) : bool := negb (Qle_bool a b).
Definition Qltb (a b : Q) : bool := negb (Qle_bool b a).
Definition Qeqb (a b : Q) : bool := Qeq_bool a b.

(** A JavaScript number that may have left the finite range. *)
Inductive jsnum : Type :=
| JFin (q : Q)
| JPosInf
| JNegInf
| JNaN.

(** [a / b] for finite [a] and [b]: a zero divisor gives an infinity of
    the sign of [a], and [0 / 0] is NaN.  The divisors of the modelled
    code are sums started at [+0], so a zero divisor is [+0]. *)
Definition js_div (a b : Q) : jsnum :=
  if Qeqb b 0 then
    if Qltb 0 a then JPosInf
    else if Qltb a 0 then JNegInf
    else JNaN
  else JFin (a / b).

(** [x * c] for a finite [c > 0]. *)
Definition js_mul_pos (x : jsnum) (c : Q) : jsnum :=
  match x with
  | JFin q => JFin (q * c)
  | other => other
  end.

(** [Math.round] leaves infinities and NaN as they are. *)
Definition js_round (x : jsnum) : jsnum :=
  match x with
  | JFin q => JFin (inject_Z (Math_round q))
  | other => other
  end.

(** [x - c] for a finite [c]. *)
Definition js_sub (x : jsnum) (c : Q) : jsnum :=
  match x with
  | JFin q => JFin (q - c)
  | other => other
  end.

Definition js_abs (x : jsnum) : jsnum :=
  match x with
  | JFin q => JFin (Qabs q)
  | JPosInf | JNegInf => JPosInf
  | JNaN => JNaN
  end.

(** [x > c]: every comparison with NaN is false. *)
Definition js_gt (x : jsnum) (c : Q) : bool :=
  match x with
  | JFin q => Qgtb q c
  | JPosInf => true
  | JNegInf => false
  | JNaN => false
  end.

End Num.
Import Num.

(** ** Errors and results *)

(** The exceptions the modelled code throws.  The message of the source
    is a template string; the constructor keeps the interpolated values. *)
Inductive Error : Type :=
| MacroPercentError (totalPercent : Q)
    (* "Macro percentages must add up to 100%. Current total: ..%" *)
| AttemptsExhausted (maxAttempts : nat)
    (* "AI failed to generate a diet plan meeting exact specifications
        after .. attempts." *)
| QuotaError.
    (* an error with [isQuota] set, rethrown as it is *)

Inductive Result (A : Type) : Type :=
| Ok (a : A)
| Throw (e : Error).
Arguments Ok {A} a.
Arguments Throw {A} e.

(** ** Target calculator ([src/utils/calculations.ts]) *)

Module Calc.
Local Open Scope Q_scope.

Record ExactMacros : Type := {
  proteinGrams : Q;
  carbsGrams : Q;
  fatGrams : Q;
  proteinCalories : Z;
  carbsCalories : Z;
  fatCalories : Z;
  totalCalories : Z
}.

(** [Math.abs(total - 100) <= 0.1] *)
Definition validateMacroPercentages (proteinPercent carbsPercent fatPercent : Q) : bool :=
  let total := proteinPercent + carbsPercent + fatPercent in
  Qle_bool (Qabs (total - 100)) (1 # 10).

(** The numbers of this development are exact, so the guard below adds
    the three percentages exactly.  The source adds them in double
    precision, and for a sum at the very edge of the tolerance (33.3
    three times, 99.9 in decimals) the two can fall on different sides
    of 0.1.  What is proved of the targets is therefore proved of a
    returned result, whichever inputs the guard has let through. *)
Definition calculateExactMacros
    (targetCalories proteinPercent carbsPercent fatPercent : Q) : Result ExactMacros :=
  let totalPercent := proteinPercent + carbsPercent + fatPercent in
  if Qgtb (Qabs (totalPercent - 100)) (1 # 10) then
    Throw (MacroPercentError totalPercent)
  else
    let proteinCalories := Math_round (targetCalories * (proteinPercent / 100)) in
    let carbsCalories := Math_round (targetCalories * (carbsPercent / 100)) in
    let fatCalories := Math_round (targetCalories * (fatPercent / 100)) in
    let proteinGrams := round1 (inject_Z proteinCalories / 4) in
    let carbsGrams := round1 (inject_Z carbsCalories / 4) in
    let totalCalculatedCalories := (proteinCalories + carbsCalories + fatCalories)%Z in
    let calorieDiscrepancy := targetCalories - inject_Z totalCalculatedCalories in
    let adjustedFatCalories := inject_Z fatCalories + calorieDiscrepancy in
    let adjustedFatGrams := round1 (adjustedFatCalories / 9) in
    let finalProteinCalories := Math_round (proteinGrams * 4) in
    let finalCarbsCalories := Math_round (carbsGrams * 4) in
    let finalFatCalories := Math_round (adjustedFatGrams * 9) in
    let finalTotalCalories := (finalProteinCalories + finalCarbsCalories + finalFatCalories)%Z in
    Ok {| proteinGrams := proteinGrams;
          carbsGrams := carbsGrams;
          fatGrams := adjustedFatGrams;
          proteinCalories := finalProteinCalories;
          carbsCalories := finalCarbsCalories;
          fatCalories := finalFatCalories;
          totalCalories := finalTotalCalories |}.


Record MacroGrams : Type := {
  protein : Q;
  carbs : Q;
  fat : Q
}.

Definition calculateMacroGrams
    (totalCalories proteinPercent carbsPercent fatPercent : Q) : Result MacroGrams :=
  if negb (validateMacroPercentages proteinPercent carbsPercent fatPercent) then
    Throw (MacroPercentError (proteinPercent + carbsPercent + fatPercent))
  else
    Ok {| protein := round1 (totalCalories * (proteinPercent / 100) / 4);
          carbs := round1 (totalCalories * (carbsPercent / 100) / 4);
          fat := round1 (totalCalories * (fatPercent / 100) / 9) |}.

End Calc.

(** ** Data model *)

(** [FoodItem] of [calculations.ts].  The numeric [id] and the Arabic
    name play no part in the modelled code and are left out. *)
Record ServingInfo : Type := {
  serving_weight_grams : option Q;
  serving_qty : option Q;
  serving_unit : option string
}.

Record AltMeasure : Type := {
  serving_weight : Q;
  measure : string;
  seq : Z;
  qty : Q
}.

Record FoodItem : Type := {
  name_en : string;
  calories_per_100g : Q;
  protein_g_per_100g : Q;
  carbs_g_per_100g : Q;
  fat_g_per_100g : Q;
  servingInfo : option ServingInfo;
  altMeasures : option (list AltMeasure)
}.

(** [FoodEntry]: a portion of a meal.  [id] is the key into
    [selectedFoods]; an absent [isAlternative] is falsy, hence [false]. *)
Record FoodEntry : Type := {
  id : string;
  quantity : Q;
  unit : option string;
  isAlternative : bool;
  parentId : option string
}.

Record Meal : Type := {
  meal_id : string;
  name : string;
  foods : list FoodEntry
}.

(** [selectedFoods : { [key: string]: FoodItem }] *)
Abbreviation SelectedFoods := (gmap string FoodItem).

(** A number is falsy when it is zero ([!food.quantity]). *)
Definition falsy (q : Q) : bool := Qeqb q 0.

(** A meal without its alternative portions, and a meal with every
    portion turned into a main food; used to state how the totals treat
    the flag. *)
Definition mainFoods (meal : Meal) : Meal :=
  {| meal_id := meal_id meal; name := name meal;
     foods := List.filter (fun f => negb (isAlternative f)) (foods meal) |}.

Definition asMain (food : FoodEntry) : FoodEntry :=
  {| id := id food; quantity := quantity food; unit := unit food;
     isAlternative := false; parentId := parentId food |}.

Definition allMain (meal : Meal) : Meal :=
  {| meal_id := meal_id meal; name := name meal; foods := map asMain (foods meal) |}.

(** ** Validation engine ([validateDietPlanSpecifications]) *)

Module Validation.
Local Open Scope Q_scope.

Record Totals : Type := {
  totalCalories : Z;
  totalProtein : Q;
  totalCarbs : Q;
  totalFat : Q
}.

Definition zeroTotals : Totals :=
  {| totalCalories := 0; totalProtein := 0; totalCarbs := 0; totalFat := 0 |}.

(** The body of the inner loop: one portion added to the running totals.
    There is no test of [isAlternative] here. *)
Definition addFood (selectedFoods : SelectedFoods) (t : Totals) (food : FoodEntry) : Totals :=
  match selectedFoods !! id food with
  | Some selectedFood =>
      if falsy (quantity food) then t
      else
        let multiplier := quantity food / 100 in
        {| totalCalories :=
             (totalCalories t + Math_round (calories_per_100g selectedFood * multiplier))%Z;
           totalProtein :=
             totalProtein t + round1 (protein_g_per_100g selectedFood * multiplier);
           totalCarbs :=
             totalCarbs t + round1 (carbs_g_per_100g selectedFood * multiplier);
           totalFat :=
             totalFat t + round1 (fat_g_per_100g selectedFood * multiplier) |}
  | None => t
  end.

Definition addMeal (selectedFoods : SelectedFoods) (t : Totals) (meal : Meal) : Totals :=
  fold_left (addFood selectedFoods) (foods meal) t.

Definition sumMeals (meals : list Meal) (selectedFoods : SelectedFoods) : Totals :=
  fold_left (addMeal selectedFoods) meals zeroTotals.

(** The entries of [errors]; each constructor stands for one template
    string of the source and keeps the values it interpolates. *)
Inductive ValidationError : Type :=
| CalorieDeviationTooHigh (target : Q) (actual : Z) (deviation : Q)
| ProteinDeviationTooHigh (target actual deviation : Q)
| CarbsDeviationTooHigh (target actual deviation : Q)
| FatDeviationTooHigh (target actual deviation : Q)
| ProteinPercentageOff (target : Q) (actual : jsnum)
| CarbsPercentageOff (target : Q) (actual : jsnum)
| FatPercentageOff (target : Q) (actual : jsnum).

Definition isCalorieError (e : ValidationError) : bool :=
  match e with CalorieDeviationTooHigh _ _ _ => true | _ => false end.

Definition isPercentageError (e : ValidationError) : bool :=
  match e with
  | ProteinPercentageOff _ _ | CarbsPercentageOff _ _ | FatPercentageOff _ _ => true
  | _ => false
  end.

Record ActualTotals : Type := {
  calories : Z;
  protein : Q;
  carbs : Q;
  fat : Q;
  proteinPercent : jsnum;
  carbsPercent : jsnum;
  fatPercent : jsnum
}.

Record ValidationResult : Type := {
  isValid : bool;
  errors : list ValidationError;
  actualTotals : ActualTotals
}.

(** [Math.round((grams * kcalPerGram / totalCalories) * 100)] *)
Definition actualPercent (grams kcalPerGram : Q) (total : Z) : jsnum :=
  js_round (js_mul_pos (js_div (grams * kcalPerGram) (inject_Z total)) 100).

(** [Math.abs(actual - target) > 3] *)
Definition percentOff (actual : jsnum) (target : Q) : bool :=
  js_gt (js_abs (js_sub actual target)) 3.

(** [if (c) errors.push(e)] *)
Definition pushIf (c : bool) (e : ValidationError) (errors : list ValidationError) :=
  if c then errors ++ [e] else errors.

Definition validateDietPlanSpecifications
    (meals : list Meal) (selectedFoods : SelectedFoods)
    (targetCalories targetProtein targetCarbs targetFat : Q)
    (proteinPercent carbsPercent fatPercent : Q) : ValidationResult :=
  let t := sumMeals meals selectedFoods in
  let calorieDeviation := Qabs (inject_Z (totalCalories t) - targetCalories) in
  let proteinDeviation := Qabs (totalProtein t - targetProtein) in
  let carbsDeviation := Qabs (totalCarbs t - targetCarbs) in
  let fatDeviation := Qabs (totalFat t - targetFat) in
  let errors := [] in
  let errors :=
    pushIf (Qgtb calorieDeviation 150)
      (CalorieDeviationTooHigh targetCalories (totalCalories t) calorieDeviation) errors in
  let errors :=
    pushIf (Qgtb proteinDeviation 15)
      (ProteinDeviationTooHigh targetProtein (totalProtein t) proteinDeviation) errors in
  let errors :=
    pushIf (Qgtb carbsDeviation 15)
      (CarbsDeviationTooHigh targetCarbs (totalCarbs t) carbsDeviation) errors in
  let errors :=
    pushIf (Qgtb fatDeviation 15)
      (FatDeviationTooHigh targetFat (totalFat t) fatDeviation) errors in
  let actualProteinPercent := actualPercent (totalProtein t) 4 (totalCalories t) in
  let actualCarbsPercent := actualPercent (totalCarbs t) 4 (totalCalories t) in
  let actualFatPercent := actualPercent (totalFat t) 9 (totalCalories t) in
  let errors :=
    pushIf (percentOff actualProteinPercent proteinPercent)
      (ProteinPercentageOff proteinPercent actualProteinPercent) errors in
  let errors :=
    pushIf (percentOff actualCarbsPercent carbsPercent)
      (CarbsPercentageOff carbsPercent actualCarbsPercent) errors in
  let errors :=
    pushIf (percentOff actualFatPercent fatPercent)
      (FatPercentageOff fatPercent actualFatPercent) errors in
  {| isValid := Nat.eqb (length errors) 0;
     errors := errors;
     actualTotals :=
       {| calories := totalCalories t;
          protein := totalProtein t;
          carbs := totalCarbs t;
          fat := totalFat t;
          proteinPercent := actualProteinPercent;
          carbsPercent := actualCarbsPercent;
          fatPercent := actualFatPercent |} |}.

(** An actual percentage that is a finite number equal to its target. *)
Definition sameNumber (actual : jsnum) (target : Q) : Prop :=
  match actual with
  | JFin q => q == target
  | _ => False
  end.

End Validation.

(** ** Meal totals of the planner view ([calculateMealTotals]) *)

Module MealView.
Local Open Scope Q_scope.

Record Macros : Type := {
  calories : Z;
  protein : Q;
  carbs : Q;
  fat : Q
}.

(** [calculateFoodMacros] of [calculations.ts] *)
Definition calculateFoodMacros (food : FoodItem) (quantity : Q) : Macros :=
  let multiplier := quantity / 100 in
  {| calories := Math_round (calories_per_100g food * multiplier);
     protein := round1 (protein_g_per_100g food * multiplier);
     carbs := round1 (carbs_g_per_100g food * multiplier);
     fat := round1 (fat_g_per_100g food * multiplier) |}.

Section Totals.

(** [convertToGrams] of [unitConversions.ts] turns a quantity in some unit
    into grams.  The totals below hold for any such conversion, so it is a
    parameter here: quantity, unit, serving weight, serving quantity,
    serving unit and alternative measures. *)
Variable convertToGrams :
  Q -> string -> option Q -> option Q -> option string -> option (list AltMeasure) -> Q.

Variable selectedFoods : SelectedFoods.

(** [foodEntry.unit || 'g'] *)
Definition unitOrGrams (u : option string) : string :=
  match u with
  | Some s => if String.eqb s EmptyString then "g"%string else s
  | None => "g"%string
  end.

(** The callback given to [reduce]. *)
Definition addEntry (totals : Macros) (foodEntry : FoodEntry) : Macros :=
  if isAlternative foodEntry then totals
  else
    match selectedFoods !! id foodEntry with
    | Some food =>
        if falsy (quantity foodEntry) then totals
        else
          let quantityInGrams :=
            convertToGrams (quantity foodEntry) (unitOrGrams (unit foodEntry))
              (servingInfo food ≫= serving_weight_grams)
              (servingInfo food ≫= serving_qty)
              (servingInfo food ≫= serving_unit)
              (altMeasures food) in
          let macros := calculateFoodMacros food quantityInGrams in
          {| calories := (calories totals + calories macros)%Z;
             protein := protein totals + protein macros;
             carbs := carbs totals + carbs macros;
             fat := fat totals + fat macros |}
    | None => totals
    end.

Definition calculateMealTotals (meal : Meal) : Macros :=
  fold_left addEntry (foods meal)
    {| calories := 0; protein := 0; carbs := 0; fat := 0 |}.

End Totals.

End MealView.

(** ** NNLS solver ([nnlsSolve]) *)

Module NNLS.
Local Open Scope Q_scope.

(** [v[i]] and [M[i][j]].  Inside the bounds these are the array reads of
    the source; the properties below are stated for rectangular inputs,
    where every read is inside the bounds. *)
Definition at1 (v : list Q) (i : nat) : Q := default 0 (v !! i).
Definition at2 (M : list (list Q)) (i j : nat) : Q := default 0 (M !! i ≫= (.!! j)).

(** [A[0]?.length || 0] *)
Definition columns (A : list (list Q)) : nat :=
  match A with
  | [] => 0%nat
  | row :: _ => length row
  end.

(** [for (k = 0; k < m; k++) s += f(k)], from [s = init]. *)
Definition sumTo (m : nat) (init : Q) (f : nat -> Q) : Q :=
  fold_left (fun s k => s + f k) (List.seq 0 m) init.

Section Solve.

Variable A : list (list Q).
Variable b : list Q.

Definition m : nat := length A.
Definition n : nat := columns A.

(** [At[j][i] = A[i][j]] *)
Definition At (j i : nat) : Q := at2 A i j.

Definition AtA (i j : nat) : Q := sumTo m 0 (fun k => At i k * at2 A k j).
Definition Atb (i : nat) : Q := sumTo m 0 (fun k => At i k * at1 b k).

(** One coordinate update: the body of [for (i = 0; i < n; i++)]. *)
Definition update (st : list Q * Q) (i : nat) : list Q * Q :=
  let '(x, maxChange) := st in
  let g := sumTo n (- Atb i) (fun j => AtA i j * at1 x j) in
  let denom := if Qgtb (AtA i i) (1 # 1000000000) then AtA i i else 1 # 1000000000 in
  let step := - g / denom in
  let newVal := at1 x i + step in
  let newVal := if Qltb newVal 0 then 0 else newVal in
  let change := Qabs (newVal - at1 x i) in
  let maxChange := if Qgtb change maxChange then change else maxChange in
  (<[i := newVal]> x, maxChange).

(** One pass over all coordinates, from [maxChange = 0]. *)
Definition sweep (x : list Q) : list Q * Q :=
  fold_left update (List.seq 0 n) (x, 0).

(** [for (iter = 0; iter < maxIter; iter++) { ...; if (maxChange < 1e-4) break; }] *)
Fixpoint descend (maxIter : nat) (x : list Q) : list Q :=
  match maxIter with
  | O => x
  | S rest =>
      let '(x', maxChange) := sweep x in
      if Qltb maxChange (1 # 10000) then x' else descend rest x'
  end.

(** The iterate the loop ends with, from the zero vector. *)
Definition iterate (maxIter : nat) : list Q := descend maxIter (replicate n 0).

(** [x.reduce((s, v) => s + v, 0)] *)
Definition total (x : list Q) : Q := fold_left Qplus x 0.

(** [None] is the [null] of the source. *)
Definition nnlsSolve (maxIter : nat) : option (list Q) :=
  if Nat.eqb n 0 then Some []
  else
    let x := iterate maxIter in
    if Qle_bool (total x) 0 then None else Some x.

End Solve.

(** A matrix with rows of one length and a right-hand side of as many
    entries as there are rows. *)
Definition rectangular (A : list (list Q)) (b : list Q) : Prop :=
  Forall (fun row => length row = columns A) A /\ length b = length A.

Definition nonneg (x : list Q) : Prop := Forall (fun v => 0 <= v) x.

End NNLS.

(** ** Strings *)

Module Str.

(** [toLowerCase] on the ASCII letters. *)
Definition lowerAscii (c : ascii) : ascii :=
  let k := nat_of_ascii c in
  if ((65 <=? k) && (k <=? 90))%nat then ascii_of_nat (k + 32) else c.

Fixpoint toLowerCase (s : string) : string :=
  match s with
  | EmptyString => EmptyString
  | String c rest => String (lowerAscii c) (toLowerCase rest)
  end.

(** Space, tab, line feed, vertical tab, form feed, carriage return. *)
Definition isSpace (c : ascii) : bool :=
  let k := nat_of_ascii c in
  ((k =? 32) || ((9 <=? k) && (k <=? 13)))%nat.

Fixpoint trimStart (s : string) : string :=
  match s with
  | EmptyString => EmptyString
  | String c rest => if isSpace c then trimStart rest else s
  end.

Fixpoint trimEnd (s : string) : string :=
  match s with
  | EmptyString => EmptyString
  | String c rest =>
      match trimEnd rest with
      | EmptyString => if isSpace c then EmptyString else String c EmptyString
      | kept => String c kept
      end
  end.

Definition trim (s : string) : string := trimEnd (trimStart s).

(** [!s] for a string: the empty string is falsy. *)
Definition isEmpty (s : string) : bool := String.eqb s EmptyString.

End Str.

(** ** Portion totals of the correction routines *)

Module Portions.
Local Open Scope Q_scope.

(** The totals loop shared, as a copy each, by [macroCorrectionLoop] and
    by [computeTotals] of [redistributePortionsForMacros]: calories are
    rounded per portion, the macros are summed unrounded. *)
Record Raw : Type := {
  cals : Z;
  prot : Q;
  carb : Q;
  fats : Q
}.

Definition addPortion (selectedFoods : SelectedFoods) (t : Raw) (food : FoodEntry) : Raw :=
  match selectedFoods !! id food with
  | Some sf =>
      if falsy (quantity food) then t
      else
        let mult := quantity food / 100 in
        {| cals := (cals t + Math_round (calories_per_100g sf * mult))%Z;
           prot := prot t + protein_g_per_100g sf * mult;
           carb := carb t + carbs_g_per_100g sf * mult;
           fats := fats t + fat_g_per_100g sf * mult |}
  | None => t
  end.

Definition rawTotals (meals : list Meal) (selectedFoods : SelectedFoods) : Raw :=
  fold_left (fun t meal => fold_left (addPortion selectedFoods) (foods meal) t) meals
    {| cals := 0; prot := 0; carb := 0; fats := 0 |}.

(** [targets: { calories; protein; carbs; fat }] *)
Record Targets : Type := {
  calories : Q;
  protein : Q;
  carbs : Q;
  fat : Q
}.

Inductive MacroName : Type := Protein | Carbs | Fat.

End Portions.

(** ** Macro correction loop ([macroCorrectionLoop]) *)

Module Profile.
(** The nutrient profile of the cache and of [FALLBACK_PROFILES]. *)
Record t : Type := {
  calories_per_100g : Q;
  protein_g_per_100g : Q;
  carbs_g_per_100g : Q;
  fat_g_per_100g : Q
}.
End Profile.

Module Correction.
Local Open Scope Q_scope.
Import Portions.

Abbreviation Cache := (gmap string Profile.t).

Definition standardizeTable : list (string * string) :=
  [ ("chicken", "chicken breast, skinless");
    ("chicken breast", "chicken breast, skinless");
    ("brown rice", "brown rice, cooked");
    ("white rice", "rice, white, cooked");
    ("olive oil", "olive oil");
    ("egg white", "egg, white, raw");
    ("whey", "whey protein, isolate") ]%string.

(** What [standardizeFoodName] hands out as a name.  The table of the
    source is an object literal read with [map[s]], and such a read also
    answers what the literal inherits from [Object.prototype].  The key
    [s] is in lower case, and of the inherited names only [constructor]
    and [__proto__] are: they give the function [Object] and the object
    [Object.prototype], both truthy and neither of them a string. *)
Inductive Name : Type :=
| Text (s : string)
| Inherited (key : string).

Definition inheritedKey (s : string) : bool :=
  String.eqb s "constructor"%string || String.eqb s "__proto__"%string.

(** [map[s] || name] *)
Definition standardizeFoodName (name : string) : Name :=
  if Str.isEmpty name then Text name
  else
    let s := Str.toLowerCase (Str.trim name) in
    match (list_to_map standardizeTable : gmap string string) !! s with
    | Some v => Text v
    | None => if inheritedKey s then Inherited s else Text name
    end.

Definition PURE_MACRO_CANDIDATES : list (string * MacroName) :=
  [ ("whey protein, isolate", Protein);
    ("egg, white, raw", Protein);
    ("chicken breast, skinless", Protein);
    ("brown rice, cooked", Carbs);
    ("oats, rolled", Carbs);
    ("banana, raw", Carbs);
    ("olive oil", Fat);
    ("avocado, raw", Fat);
    ("butter", Fat) ]%string.

Definition profile (c p k f : Q) : Profile.t :=
  {| Profile.calories_per_100g := c; Profile.protein_g_per_100g := p;
     Profile.carbs_g_per_100g := k; Profile.fat_g_per_100g := f |}.

Definition FALLBACK_PROFILES : gmap string Profile.t :=
  list_to_map
    [ ("whey protein, isolate", profile 400 80 8 2);
      ("egg, white, raw", profile 52 11 (7 # 10) (2 # 10));
      ("chicken breast, skinless", profile 165 31 0 (36 # 10));
      ("brown rice, cooked", profile 123 (27 # 10) (256 # 10) 1);
      ("oats, rolled", profile 389 (169 # 10) (663 # 10) (69 # 10));
      ("banana, raw", profile 89 (11 # 10) (228 # 10) (3 # 10));
      ("olive oil", profile 884 0 0 100);
      ("avocado, raw", profile 160 2 9 15);
      ("butter", profile 717 (9 # 10) (1 # 10) 81) ]%string.

Definition cacheMacroProfile (cache : Cache) (key : string) (p : Profile.t) : Cache :=
  if Str.isEmpty key then cache else <[Str.toLowerCase key := p]> cache.

Definition getCachedProfile (cache : Cache) (key : string) : option Profile.t :=
  if Str.isEmpty key then None else cache !! Str.toLowerCase key.

Record Options : Type := {
  maxCandidates : option nat;
  maxCorrectionCalories : option Q
}.

Record CorrectionFood : Type := {
  cf_name : string;
  grams : Z;
  cf_profile : Profile.t
}.

Inductive Details : Type :=
| WithinTolerance                 (* reason: 'within tolerance' *)
| NoProfiles                      (* reason: 'no profiles' *)
| UnableToCompute                 (* reason: 'no correction needed or unable to compute' *)
| Corrected (correctionFoods : list CorrectionFood).

Record CorrectionResult : Type := {
  meals : list Meal;
  selectedFoods : SelectedFoods;
  correctionMealAdded : bool;
  details : Details
}.

Section Loop.

(** The lookup of a food name in the two external food databases, with
    the fields of the first hit; a failed lookup is caught and gives
    nothing. *)
Variable externalProfile : string -> option Profile.t.

(** [`correction-meal-${Date.now()}`] and, for the i-th correction food,
    [`correction-food-${Date.now()}-${Math.random()}`]. *)
Variable correctionMealId : string.
Variable pseudoId : nat -> string.

(** [None] when the call throws: [getCachedProfile] calls
    [key.toLowerCase()], which a name that is not a string does not
    have. *)
Definition fetchAndCacheProfile (cache : Cache) (foodName : string)
    : option (option Profile.t * Cache) :=
  match standardizeFoodName foodName with
  | Inherited _ => None
  | Text standardized =>
      Some
        match getCachedProfile cache standardized with
        | Some cached => (Some cached, cache)
        | None =>
            match FALLBACK_PROFILES !! Str.toLowerCase standardized with
            | Some fb => (Some fb, cacheMacroProfile cache standardized fb)
            | None =>
                match externalProfile standardized with
                | Some p => (Some p, cacheMacroProfile cache standardized p)
                | None => (None, cache)
                end
            end
        end
  end.

(** [for (const c of picked) { prof = await fetchAndCacheProfile(c.name);
    if (prof) profiles.push({ name, profile }) }] *)
Definition fetchOne (acc : option (list (string * Profile.t) * Cache))
    (c : string * MacroName) : option (list (string * Profile.t) * Cache) :=
  '(profiles, cache) ← acc;
  fetched ← fetchAndCacheProfile cache (fst c);
  match fetched with
  | (Some prof, cache') => Some (profiles ++ [(fst c, prof)], cache')
  | (None, cache') => Some (profiles, cache')
  end.

Definition fetchProfiles (cache : Cache) (picked : list (string * MacroName))
    : option (list (string * Profile.t) * Cache) :=
  fold_left fetchOne picked (Some ([], cache)).

Definition wanted (needProtein needCarbs needFat : bool) (c : string * MacroName) : bool :=
  match snd c with
  | Protein => needProtein
  | Carbs => needCarbs
  | Fat => needFat
  end.

(** The NNLS solution turned into correction foods: rounded grams, only
    the positive ones. *)
Definition fromSolution (solution : list Q) (profiles : list (string * Profile.t))
    : list CorrectionFood :=
  fold_left
    (fun acc '(v, (pname, prof)) =>
       let g := Z.max 0 (Math_round v) in
       if (0 <? g)%Z then acc ++ [{| cf_name := pname; grams := g; cf_profile := prof |}]
       else acc)
    (combine solution profiles) [].

(** [profiles.reduce((a, b) => (metric(b) > metric(a) ? b : a))] *)
Definition best (metric : Profile.t -> Q) (profiles : list (string * Profile.t))
    : option (string * Profile.t) :=
  match profiles with
  | [] => None
  | p :: rest =>
      Some (fold_left (fun a b => if Qgtb (metric (snd b)) (metric (snd a)) then b else a) rest p)
  end.

(** One greedy step: the grams of the best candidate that cover the
    deficit.  [None] when the best candidate has none of the macro: the
    quotient of the source is then not finite, which is outside this
    model. *)
Definition greedyStep (need : bool) (deficit : Q) (metric : Profile.t -> Q)
    (profiles : list (string * Profile.t)) (acc : list CorrectionFood)
    : option (list CorrectionFood) :=
  if need then
    match best metric profiles with
    | Some (bname, bprof) =>
        if Qeqb (metric bprof / 100) 0 then None
        else
          let g := Z.max 0 (Math_round (deficit / (metric bprof / 100))) in
          Some (if (0 <? g)%Z
                then acc ++ [{| cf_name := bname; grams := g; cf_profile := bprof |}]
                else acc)
    | None => None
    end
  else Some acc.

Definition correctionCaloriesOf (correctionFoods : list CorrectionFood) : Z :=
  fold_left
    (fun s cf =>
       (s + Math_round (Profile.calories_per_100g (cf_profile cf) * inject_Z (grams cf) / 100))%Z)
    correctionFoods 0%Z.

Definition toFoodItem (cf : CorrectionFood) : FoodItem :=
  {| name_en := cf_name cf;
     calories_per_100g := Profile.calories_per_100g (cf_profile cf);
     protein_g_per_100g := Profile.protein_g_per_100g (cf_profile cf);
     carbs_g_per_100g := Profile.carbs_g_per_100g (cf_profile cf);
     fat_g_per_100g := Profile.fat_g_per_100g (cf_profile cf);
     servingInfo := None;
     altMeasures := None |}.

(** The correction foods entered into [selectedFoods] and into the foods
    of the correction meal, in order. *)
Definition appendFoods (correctionFoods : list CorrectionFood) (sf : SelectedFoods)
    : SelectedFoods * list FoodEntry :=
  snd (fold_left
         (fun '(i, (sf, entries)) cf =>
            let pid := pseudoId i in
            (S i,
             (<[pid := toFoodItem cf]> sf,
              entries ++ [{| id := pid; quantity := inject_Z (grams cf); unit := Some "g"%string;
                             isAlternative := false; parentId := None |}])))
         correctionFoods (0%nat, (sf, []))).

(** [None] where the source does not return a result of the model: a
    quotient that is not finite, or a fetch that throws (which the names
    of [PURE_MACRO_CANDIDATES] never make it do). *)
Definition macroCorrectionLoop (cache : Cache)
    (meals : list Meal) (selectedFoods : SelectedFoods) (targets : Targets)
    (options : Options) : option (CorrectionResult * Cache) :=
  let t := rawTotals meals selectedFoods in
  let deficitCalories := calories targets - inject_Z (cals t) in
  let deficitProtein := round1 (protein targets - prot t) in
  let deficitCarbs := round1 (carbs targets - carb t) in
  let deficitFat := round1 (fat targets - fats t) in
  let needProtein := Qgtb deficitProtein 1 in
  let needCarbs := Qgtb deficitCarbs 1 in
  let needFat := Qgtb deficitFat 1 in
  let unchanged reason :=
    {| meals := meals; selectedFoods := selectedFoods;
       correctionMealAdded := false; details := reason |} in
  if negb needProtein && negb needCarbs && negb needFat
     && Qle_bool (Qabs deficitCalories) 50
  then Some (unchanged WithinTolerance, cache)
  else
    let candidates := List.filter (wanted needProtein needCarbs needFat) PURE_MACRO_CANDIDATES in
    let limit := match maxCandidates options with
                 | Some (S k) => S k
                 | _ => 3%nat
                 end in
    let picked := take limit candidates in
    '(profiles, cache) ← fetchProfiles cache picked;
    if Nat.eqb (length profiles) 0 then Some (unchanged NoProfiles, cache)
    else
      let A := [ map (fun p => Profile.protein_g_per_100g (snd p) / 100) profiles;
                 map (fun p => Profile.carbs_g_per_100g (snd p) / 100) profiles;
                 map (fun p => Profile.fat_g_per_100g (snd p) / 100) profiles ] in
      let B := [deficitProtein; deficitCarbs; deficitFat] in
      let solution := NNLS.nnlsSolve A B 500 in
      let correctionFoods :=
        match solution with
        | Some sol =>
            if Nat.eqb (length sol) (length profiles) then fromSolution sol profiles else []
        | None => []
        end in
      correctionFoods ←
        (if Nat.eqb (length correctionFoods) 0 then
           acc ← greedyStep needProtein deficitProtein Profile.protein_g_per_100g profiles [];
           acc ← greedyStep needCarbs deficitCarbs Profile.carbs_g_per_100g profiles acc;
           greedyStep needFat deficitFat Profile.fat_g_per_100g profiles acc
         else Some correctionFoods);
      if Nat.eqb (length correctionFoods) 0 then Some (unchanged UnableToCompute, cache)
      else
        let cap := match maxCorrectionCalories options with
                   | Some q => if falsy q then 800 else q
                   | None => 800
                   end in
        let correctionCalories := correctionCaloriesOf correctionFoods in
        correctionFoods ←
          (if Qgtb (inject_Z correctionCalories) cap then
             if (correctionCalories =? 0)%Z then None
             else
               let scale := cap / inject_Z correctionCalories in
               Some (map (fun cf =>
                            {| cf_name := cf_name cf;
                               grams := Z.max 1 (Math_round (inject_Z (grams cf) * scale));
                               cf_profile := cf_profile cf |})
                         correctionFoods)
           else Some correctionFoods);
        let '(selectedFoods', entries) := appendFoods correctionFoods selectedFoods in
        let correctionMeal :=
          {| meal_id := correctionMealId; name := "Macro correction"; foods := entries |} in
        Some ({| meals := meals ++ [correctionMeal];
                 selectedFoods := selectedFoods';
                 correctionMealAdded := true;
                 details := Corrected correctionFoods |}, cache).

End Loop.

End Correction.

(** ** Greedy redistribution ([redistributePortionsForMacros]) *)

Module Redistribute.
Local Open Scope Q_scope.
Import Portions.

Record Options : Type := {
  maxPercentChangePerFood : option Q;
  iterations : option nat
}.

(** The value of [computeTotals]: calories as summed, macros rounded to
    one decimal at the end. *)
Record Totals : Type := {
  t_calories : Z;
  t_protein : Q;
  t_carbs : Q;
  t_fat : Q
}.

Record Candidate : Type := {
  mealIdx : nat;
  foodIdx : nat;
  perCalProtein : Q;
  perCalCarbs : Q;
  perCalFat : Q;
  qty : Q
}.

Definition targetOf (macro : MacroName) (targets : Targets) : Q :=
  match macro with
  | Protein => protein targets
  | Carbs => carbs targets
  | Fat => fat targets
  end.

Definition totalOf (macro : MacroName) (totals : Totals) : Q :=
  match macro with
  | Protein => t_protein totals
  | Carbs => t_carbs totals
  | Fat => t_fat totals
  end.

Definition metric (macro : MacroName) (c : Candidate) : Q :=
  match macro with
  | Protein => perCalProtein c
  | Carbs => perCalCarbs c
  | Fat => perCalFat c
  end.

(** [candidates.sort((a, b) => metric(b) - metric(a))]: a stable sort,
    largest metric first. *)
Fixpoint insertDesc (macro : MacroName) (c : Candidate) (sorted : list Candidate)
    : list Candidate :=
  match sorted with
  | [] => [c]
  | d :: rest =>
      if Qgtb (metric macro d) (metric macro c) then d :: insertDesc macro c rest
      else c :: d :: rest
  end.

Definition sortDesc (macro : MacroName) (candidates : list Candidate) : list Candidate :=
  fold_right (insertDesc macro) [] candidates.

(** [newMeals[mi].foods[fi].quantity] and the assignment to it. *)
Definition getQuantity (meals : list Meal) (mi fi : nat) : Q :=
  default 0 (q ← (meal ← meals !! mi; foods meal !! fi); Some (quantity q)).

Definition setFoodQuantity (q : Q) (food : FoodEntry) : FoodEntry :=
  {| id := id food; quantity := q; unit := unit food;
     isAlternative := isAlternative food; parentId := parentId food |}.

Definition setQuantity (meals : list Meal) (mi fi : nat) (q : Q) : list Meal :=
  alter (fun meal =>
           {| meal_id := meal_id meal; name := name meal;
              foods := alter (setFoodQuantity q) fi (foods meal) |})
        mi meals.

Section Run.

Variable selectedFoods : SelectedFoods.
Variable targets : Targets.

Definition computeTotals (mMeals : list Meal) : Totals :=
  let r := rawTotals mMeals selectedFoods in
  {| t_calories := cals r;
     t_protein := round1 (prot r);
     t_carbs := round1 (carb r);
     t_fat := round1 (fats r) |}.

(** The candidates of one meal, then of all meals, in order. *)
Definition candidateOf (mi fi : nat) (food : FoodEntry) : list Candidate :=
  match selectedFoods !! id food with
  | Some sf =>
      if falsy (quantity food) then []
      else
        let calPerGram := calories_per_100g sf / 100 in
        if Qle_bool calPerGram 0 then []
        else
          [{| mealIdx := mi; foodIdx := fi;
              perCalProtein := protein_g_per_100g sf / 100 / calPerGram;
              perCalCarbs := carbs_g_per_100g sf / 100 / calPerGram;
              perCalFat := fat_g_per_100g sf / 100 / calPerGram;
              qty := quantity food |}]
  | None => []
  end.

Definition buildCandidates (newMeals : list Meal) : list Candidate :=
  concat (imap (fun mi meal => concat (imap (candidateOf mi) (foods meal))) newMeals).

(** The percentage step of [adjustFor]. *)
Definition pctOf (maxPercent diff : Q) (needIncrease : bool) : Q :=
  let sign := if needIncrease then 1 else -1 in
  let wanted := if Qgtb (Qabs diff) 50 then inject_Z (Math_round maxPercent) else 6 in
  sign * (Qmin maxPercent (Qmax 2 wanted) / 100).

(** [for (const c of candidates)]: change one portion, keep the change if
    the macro got closer to its target, otherwise revert and go on. *)
Fixpoint tryCandidates (macro : MacroName) (maxPercent diff : Q)
    (candidates : list Candidate) (newMeals : list Meal) : list Meal :=
  match candidates with
  | [] => newMeals
  | c :: rest =>
      let needIncrease := Qgtb diff 0 in
      let pct := pctOf maxPercent diff needIncrease in
      let currentQty := getQuantity newMeals (mealIdx c) (foodIdx c) in
      let newQty := Qmax 1 (inject_Z (Math_round (currentQty * (1 + pct)))) in
      let changed := setQuantity newMeals (mealIdx c) (foodIdx c) newQty in
      let totals := computeTotals changed in
      let newDiff := targetOf macro targets - totalOf macro totals in
      if Qltb (Qabs newDiff) (Qabs diff) then changed
      else tryCandidates macro maxPercent diff rest
             (setQuantity changed (mealIdx c) (foodIdx c) currentQty)
  end.

Definition adjustFor (macro : MacroName) (maxPercent diff : Q)
    (candidates : list Candidate) (newMeals : list Meal) : list Meal :=
  if Qltb (Qabs diff) 5 then newMeals
  else tryCandidates macro maxPercent diff (sortDesc macro candidates) newMeals.

(** [for (let it = 0; it < iterations; it++)] *)
Fixpoint rounds (maxPercent : Q) (iterations : nat) (newMeals : list Meal) : list Meal :=
  match iterations with
  | O => newMeals
  | S rest =>
      let totals := computeTotals newMeals in
      let protDiff := protein targets - t_protein totals in
      let carbDiff := carbs targets - t_carbs totals in
      let fatDiff := fat targets - t_fat totals in
      if Qle_bool (Qabs protDiff) 10 && Qle_bool (Qabs carbDiff) 10
         && Qle_bool (Qabs fatDiff) 8
      then newMeals
      else
        let candidates := buildCandidates newMeals in
        if Nat.eqb (length candidates) 0 then newMeals
        else
          let absProt := Qabs protDiff in
          let absCarb := Qabs carbDiff in
          let absFat := Qabs fatDiff in
          let adjusted :=
            if Qle_bool absCarb absProt && Qle_bool absFat absProt
            then adjustFor Protein maxPercent protDiff candidates newMeals
            else if Qle_bool absProt absCarb && Qle_bool absFat absCarb
            then adjustFor Carbs maxPercent carbDiff candidates newMeals
            else adjustFor Fat maxPercent fatDiff candidates newMeals in
          rounds maxPercent rest adjusted
  end.

(** The calories of the final sanity check. *)
Definition finalCalories (newMeals : list Meal) : Z :=
  cals (rawTotals newMeals selectedFoods).

(** [None] is the [null] of the source. *)
Definition redistributePortionsForMacros (meals : list Meal) (options : Options)
    : option (list Meal) :=
  let maxPercent := default 20 (maxPercentChangePerFood options) in
  let iterations := default 5%nat (iterations options) in
  let newMeals := meals in
  let totals := computeTotals newMeals in
  if Qgtb (Qabs (inject_Z (t_calories totals) - calories targets)) 200 then None
  else
    let newMeals := rounds maxPercent iterations newMeals in
    if Qgtb (Qabs (inject_Z (finalCalories newMeals) - calories targets)) 200 then None
    else Some newMeals.

End Run.

End Redistribute.

(** ** Generation and retry orchestrator ([generateDietPlan]) *)

Module Orchestrator.
Local Open Scope Q_scope.
Import Validation.

Record DietSettings : Type := {
  proteinPercent : Q;
  carbsPercent : Q;
  fatPercent : Q;
  calorieAdjustment : Q;
  mealCount : nat;
  dietType : string;
  restrictions : string;
  preferences : string;
  goals : string
}.

(** [typeof dietSettings === 'string' ? { ...defaults } : dietSettings] *)
Definition normalize (dietSettings : DietSettings + string) : DietSettings :=
  match dietSettings with
  | inl settings => settings
  | inr text =>
      {| proteinPercent := 25; carbsPercent := 45; fatPercent := 30;
         calorieAdjustment := 0; mealCount := 4; dietType := "balanced";
         restrictions := text; preferences := EmptyString; goals := "maintenance" |}
  end.

(** The values of the prologue ("Compute targets"). *)
Record ComputedTargets : Type := {
  adjustedTargetCalories : Q;
  proteinGrams : Q;
  carbsGrams : Q;
  adjustedFatGrams : Q;
  finalProteinCalories : Z;
  finalCarbsCalories : Z;
  finalFatCalories : Z;
  finalTotalCalories : Z
}.

(** The prologue of [generateDietPlan]; its guard is the one of
    [calculateExactMacros], with the same remark on the sum. *)
Definition computeTargets (targetCalories deficitSurplus : Q) (settings : DietSettings)
    : Result ComputedTargets :=
  let adjustedTargetCalories := targetCalories + deficitSurplus in
  let totalMacroPercent := proteinPercent settings + carbsPercent settings + fatPercent settings in
  if Qgtb (Qabs (totalMacroPercent - 100)) (1 # 10) then
    Throw (MacroPercentError totalMacroPercent)
  else
    let proteinCalories := Math_round (adjustedTargetCalories * (proteinPercent settings / 100)) in
    let carbsCalories := Math_round (adjustedTargetCalories * (carbsPercent settings / 100)) in
    let fatCalories := Math_round (adjustedTargetCalories * (fatPercent settings / 100)) in
    let proteinGrams := round1 (inject_Z proteinCalories / 4) in
    let carbsGrams := round1 (inject_Z carbsCalories / 4) in
    let totalCalculatedCalories := (proteinCalories + carbsCalories + fatCalories)%Z in
    let calorieDiscrepancy := adjustedTargetCalories - inject_Z totalCalculatedCalories in
    let adjustedFatCalories := inject_Z fatCalories + calorieDiscrepancy in
    let adjustedFatGrams := round1 (adjustedFatCalories / 9) in
    let finalProteinCalories := Math_round (proteinGrams * 4) in
    let finalCarbsCalories := Math_round (carbsGrams * 4) in
    let finalFatCalories := Math_round (adjustedFatGrams * 9) in
    Ok {| adjustedTargetCalories := adjustedTargetCalories;
          proteinGrams := proteinGrams;
          carbsGrams := carbsGrams;
          adjustedFatGrams := adjustedFatGrams;
          finalProteinCalories := finalProteinCalories;
          finalCarbsCalories := finalCarbsCalories;
          finalFatCalories := finalFatCalories;
          finalTotalCalories :=
            (finalProteinCalories + finalCarbsCalories + finalFatCalories)%Z |}.

(** What a proposer hands back, and what [generateDietPlan] returns. *)
Record PlanResult : Type := {
  meals : list Meal;
  selectedFoods : SelectedFoods;
  notes : string;
  reasoning : string
}.

Record AttemptRecord : Type := {
  attempt : nat;
  result : PlanResult;
  validation : ValidationResult
}.

(** What a call made in the [try] of the attempt loop, or the body of a
    proposer, does: it returns [null], throws (an error with [isQuota]
    set, or any other), or returns a candidate plan. *)
Inductive ProposerOutcome : Type :=
| NoResult
| Raised (isQuota : bool)
| Proposed (r : PlanResult).

(** [generateInitialDietPlan] and [intelligentlyAdjustDietPlan] are each
    one [try { ... } catch (error) { console.error(...); return null; }]
    around their whole body: whatever the body throws, the [QuotaError]
    of its quota check included, comes out of the proposer as [null]. *)
Definition caught (body : ProposerOutcome) : ProposerOutcome :=
  match body with
  | Raised _ => NoResult
  | NoResult => NoResult
  | Proposed r => Proposed r
  end.

Inductive Outcome : Type :=
| ReturnsNull
| ReturnsPlan (p : PlanResult)
| Throws (e : Error).

(** The outcome of a run, the number of proposer calls it made and the
    attempt history it ended with. *)
Record Run : Type := {
  outcome : Outcome;
  attemptsMade : nat;
  previousAttempts : list AttemptRecord
}.

Definition maxAttempts : nat := 10.

(** No attempt of the history passed the strict validation. *)
Definition noneValid (history : list AttemptRecord) : Prop :=
  Forall (fun a => isValid (validation a) = false) history.

Section Generate.

(** [isAIAvailable()] *)
Variable aiAvailable : bool.

(** The two calls of the loop.  [generateInitialDietPlan] is called on
    attempt 1; the call of [intelligentlyAdjustDietPlan] made on attempt
    [k] gets the current meals and the attempt history.  The loop is
    written for any outcome of a call, a throw included; the proposers of
    the source are [caught] bodies, which never throw. *)
Variable generateInitialDietPlan : ComputedTargets -> ProposerOutcome.
Variable intelligentlyAdjustDietPlan :
  nat -> ComputedTargets -> list Meal -> list AttemptRecord -> ProposerOutcome.

Definition validatePlan (settings : DietSettings) (targets : ComputedTargets)
    (r : PlanResult) : ValidationResult :=
  validateDietPlanSpecifications (meals r) (selectedFoods r)
    (adjustedTargetCalories targets) (proteinGrams targets) (carbsGrams targets)
    (adjustedFatGrams targets)
    (proteinPercent settings) (carbsPercent settings) (fatPercent settings).

(** [for (let attempt = 1; attempt <= maxAttempts; attempt++)], with
    [remaining = maxAttempts + 1 - attempt] turns left on entry; the
    statement after the loop throws. *)
Fixpoint attempts (settings : DietSettings) (targets : ComputedTargets)
    (currentMeals : list Meal) (remaining attempt made : nat)
    (previous : list AttemptRecord) : Run :=
  match remaining with
  | O => {| outcome := Throws (AttemptsExhausted maxAttempts);
            attemptsMade := made; previousAttempts := previous |}
  | S rest =>
      let proposed :=
        if Nat.eqb attempt 1 then generateInitialDietPlan targets
        else intelligentlyAdjustDietPlan attempt targets currentMeals previous in
      match proposed with
      | Raised true =>
          {| outcome := Throws QuotaError;
             attemptsMade := S made; previousAttempts := previous |}
      | Raised false | NoResult =>
          attempts settings targets currentMeals rest (S attempt) (S made) previous
      | Proposed r =>
          let v := validatePlan settings targets r in
          let previous := previous ++ [{| attempt := attempt; result := r; validation := v |}] in
          if isValid v then
            {| outcome := ReturnsPlan {| meals := meals r; selectedFoods := selectedFoods r;
                                         notes := notes r; reasoning := reasoning r |};
               attemptsMade := S made; previousAttempts := previous |}
          else if Nat.eqb attempt maxAttempts then
            {| outcome := Throws (AttemptsExhausted maxAttempts);
               attemptsMade := S made; previousAttempts := previous |}
          else attempts settings targets currentMeals rest (S attempt) (S made) previous
      end
  end.

Definition generateDietPlan (targetCalories : Q) (dietSettings : DietSettings + string)
    (currentMeals : list Meal) (deficitSurplus : Q) : Run :=
  if negb aiAvailable then
    {| outcome := ReturnsNull; attemptsMade := 0; previousAttempts := [] |}
  else
    let settings := normalize dietSettings in
    match computeTargets targetCalories deficitSurplus settings with
    | Throw e => {| outcome := Throws e; attemptsMade := 0; previousAttempts := [] |}
    | Ok targets => attempts settings targets currentMeals maxAttempts 1 0 []
    end.

End Generate.

End Orchestrator.

(** ** Uniform scaling ([programmaticAdjustPortions]) *)

Module Scaling.
Local Open Scope Q_scope.
Import Portions.

Record Options : Type := {
  maxScalePercentPerAttempt : option Q
}.

(** [options.maxScalePercentPerAttempt || 10] *)
Definition maxScaleOf (options : Options) : Q :=
  match maxScalePercentPerAttempt options with
  | Some q => if falsy q then 10 else q
  | None => 10
  end.

(** [1 + max(-maxScale/100, min(maxScale/100, calorieDiff / max(1, totalCalories)))] *)
Definition scaleFactorOf (maxScale calorieDiff : Q) (totalCalories : Z) : Q :=
  1 + Qmax (- maxScale / 100)
        (Qmin (maxScale / 100) (calorieDiff / Qmax 1 (inject_Z totalCalories))).

(** The body of the scaling loop: a portion without quantity is skipped,
    any other gets [max(1, round(quantity * scaleFactor))]. *)
Definition scaleFood (scaleFactor : Q) (food : FoodEntry) : FoodEntry :=
  if falsy (quantity food) then food
  else
    let newQty := inject_Z (Math_round (quantity food * scaleFactor)) in
    Redistribute.setFoodQuantity (Qmax 1 newQty) food.

Definition scaleMeal (scaleFactor : Q) (meal : Meal) : Meal :=
  {| meal_id := meal_id meal; name := name meal;
     foods := map (scaleFood scaleFactor) (foods meal) |}.

(** [None] is the [null] of the source. *)
Definition programmaticAdjustPortions (meals : list Meal) (selectedFoods : SelectedFoods)
    (targets : Targets) (options : Options) : option (list Meal) :=
  let maxScale := maxScaleOf options in
  let t := rawTotals meals selectedFoods in
  let calorieDiff := calories targets - inject_Z (cals t) in
  if Qltb (Qabs calorieDiff) 30 then None
  else
    let scaleFactor := scaleFactorOf maxScale calorieDiff (cals t) in
    Some (map (scaleMeal scaleFactor) meals).

End Scaling.

(** ** Exact NNLS redistribution ([exactScalingSolver]) *)

Module ExactScaling.
Local Open Scope Q_scope.
Import Portions.

Record Options : Type := {
  maxScalePerFoodPercent : option Q
}.

Record Flat : Type := {
  mealIdx : nat;
  foodIdx : nat;
  originalQty : Q;
  profile : FoodItem
}.

Definition flatOf (selectedFoods : SelectedFoods) (mi fi : nat) (food : FoodEntry)
    : list Flat :=
  match selectedFoods !! id food with
  | Some sf =>
      if falsy (quantity food) then []
      else [{| mealIdx := mi; foodIdx := fi; originalQty := quantity food; profile := sf |}]
  | None => []
  end.

(** The resolved portions, in the order of the plan. *)
Definition flatten (selectedFoods : SelectedFoods) (meals : list Meal) : list Flat :=
  concat (imap (fun mi meal => concat (imap (flatOf selectedFoods mi) (foods meal))) meals).

(** One turn of the loop that checks the factors and writes the grams;
    [None] once a portion has been refused. *)
Definition applyOne (maxFactor minFactor : Q) (acc : option (list Meal))
    (entry : Q * Flat) : option (list Meal) :=
  newMeals ← acc;
  let '(value, f) := entry in
  let grams := Z.max 0 (Math_round value) in
  let factor := inject_Z grams / originalQty f in
  if (grams <=? 0)%Z then None
  else if Qgtb factor maxFactor || Qltb factor minFactor then None
  else Some (Redistribute.setQuantity newMeals (mealIdx f) (foodIdx f) (inject_Z grams)).

Definition applySolution (maxFactor minFactor : Q) (solution : list Q) (flat : list Flat)
    (meals : list Meal) : option (list Meal) :=
  fold_left (applyOne maxFactor minFactor) (combine solution flat) (Some meals).

(** [Math.max(100, Math.round(targets.calories * 0.1))] *)
Definition calorieBand (targets : Targets) : Q :=
  Qmax 100 (inject_Z (Math_round (calories targets * (1 # 10)))).

Definition exactScalingSolver (meals : list Meal) (selectedFoods : SelectedFoods)
    (targets : Targets) (options : Options) : option (list Meal) :=
  let flat := flatten selectedFoods meals in
  if Nat.eqb (length flat) 0 then None
  else
    let A := [ map (fun f => protein_g_per_100g (profile f) / 100) flat;
               map (fun f => carbs_g_per_100g (profile f) / 100) flat;
               map (fun f => fat_g_per_100g (profile f) / 100) flat ] in
    let b := [protein targets; carbs targets; fat targets] in
    match NNLS.nnlsSolve A b 1000 with
    | None => None
    | Some solution =>
        if negb (Nat.eqb (length solution) (length flat)) then None
        else
          let maxScalePercent := default 200 (maxScalePerFoodPercent options) in
          let maxFactor := Qmax (1 # 10) (maxScalePercent / 100) in
          let minFactor := 1 # 100 in
          newMeals ← applySolution maxFactor minFactor solution flat meals;
          let totalCals := cals (rawTotals newMeals selectedFoods) in
          if Qgtb (Qabs (inject_Z totalCals - calories targets)) (calorieBand targets)
          then None
          else Some newMeals
    end.

End ExactScaling.

(** ** Relaxed acceptance ([checkRelaxedAcceptance]) *)

Module Relaxed.
Local Open Scope Q_scope.
Import Portions.

Definition calorieTolerance (progress : Q) : Q :=
  300 - inject_Z (Math_round (progress * 150)).

Definition macroTolerance (progress : Q) : Q :=
  45 - inject_Z (Math_round (progress * 30)).

(** [actualTotals] and [targets] are both [{ calories, protein, carbs,
    fat }].  With [maxAttempts = 0] the progress of the source is not a
    finite number; the model ends there ([None]). *)
Definition checkRelaxedAcceptance (actualTotals targets : Targets)
    (attempt maxAttempts : Q) : option bool :=
  if falsy maxAttempts then None
  else
    let progress := attempt / maxAttempts in
    let calDev := Qabs (calories actualTotals - calories targets) in
    let protDev := Qabs (protein actualTotals - protein targets) in
    let carbDev := Qabs (carbs actualTotals - carbs targets) in
    let fatDev := Qabs (fat actualTotals - fat targets) in
    Some (Qle_bool calDev (calorieTolerance progress)
          && Qle_bool protDev (macroTolerance progress)
          && Qle_bool carbDev (macroTolerance progress)
          && Qle_bool fatDev (macroTolerance progress)).

End Relaxed.

(** ** More strings *)

Module Text.

(** [s.includes(sub)] *)
Fixpoint includes (sub s : string) : bool :=
  String.prefix sub s
  || match s with
     | EmptyString => false
     | String _ rest => includes sub rest
     end.

(** [s.split(/[...]/)] for a set of separator characters: the pieces
    between the separators, empty pieces included. *)
Fixpoint splitOn (isSeparator : ascii -> bool) (s : string) : list string :=
  match s with
  | EmptyString => [EmptyString]
  | String c rest =>
      if isSeparator c then EmptyString :: splitOn isSeparator rest
      else
        match splitOn isSeparator rest with
        | piece :: pieces => String c piece :: pieces
        | [] => [String c EmptyString]
        end
  end.

End Text.

(** ** Preference lists ([parsePreferences]) *)

Module Preferences.

(** The characters of [/[,\n;]/]. *)
Definition isSeparator (c : ascii) : bool :=
  let k := nat_of_ascii c in
  ((k =? 44) || (k =? 10) || (k =? 59))%nat.

(** [None] is the [null] of the source, and the [undefined] or [null] it
    accepts as argument. *)
Definition parsePreferences (prefString : option string)
    : option (list Correction.Name) :=
  match prefString with
  | None => None
  | Some text =>
      if Str.isEmpty text then None
      else
        let parts :=
          List.filter (fun p => negb (Str.isEmpty p))
            (map Str.trim (Text.splitOn isSeparator text)) in
        if Nat.eqb (length parts) 0 then None
        else Some (map Correction.standardizeFoodName parts)
  end.

(** What [parsePreferences] may hand out for one part of the text: a
    non-empty string that a further [standardizeFoodName] leaves as it
    is, or, for a part [constructor] or [__proto__], what the table
    inherits under that name, which is not a string. *)
Definition standardEntry (n : Correction.Name) : Prop :=
  match n with
  | Correction.Text s => Str.isEmpty s = false /\ Correction.standardizeFoodName s = Correction.Text s
  | Correction.Inherited key => Correction.inheritedKey key = true
  end.

End Preferences.

(** ** Credentials and quota backoff ([isAIAvailable]) *)

Module Quota.

(** The module state: the key, whether the client object exists
    ([genAI !== null]) and the time in milliseconds until which calls are
    held back. *)
Record State : Type := {
  API_KEY : string;
  genAI : bool;
  quotaBackoffUntil : Z
}.

Definition setGoogleAICredentials (apiKey : string) (st : State) : State :=
  {| API_KEY := apiKey;
     genAI := negb (Str.isEmpty apiKey);
     quotaBackoffUntil := quotaBackoffUntil st |}.

(** [Date.now() < (quotaBackoffUntil || 0)] *)
Definition isQuotaBlocked (now : Z) (st : State) : bool :=
  (now <? quotaBackoffUntil st)%Z.

Definition isAIAvailable (now : Z) (st : State) : bool :=
  if isQuotaBlocked now st then false
  else genAI st && negb (Str.isEmpty (API_KEY st)).

(** What reading the error gives inside the [try]: [err.toString()] (or
    [JSON.stringify]) may itself throw; otherwise the text names a delay,
    the seconds captured by the first of the two patterns that matches,
    or none. *)
Inductive ErrorText : Type :=
| Unreadable
| Delay (seconds : Z)
| NoDelay.

(** The largest time value of a [Date], in milliseconds: beyond it
    [new Date(t).toISOString()] throws a [RangeError]. *)
Definition maxTime : Z := 8640000000000000.

(** [now] is the clock read in the [try], [later] the clock read in the
    [catch].  The [try] assigns the deadline and then formats it for the
    log line; when reading the error or formatting the date throws, the
    [catch] overwrites the deadline with one minute from then. *)
Definition setBackoffFromError (now later : Z) (text : ErrorText) (st : State) : State :=
  let backoff (deadline : Z) :=
    {| API_KEY := API_KEY st; genAI := genAI st; quotaBackoffUntil := deadline |} in
  let caught := backoff (later + 60 * 1000)%Z in
  let tried (seconds : Z) :=
    let deadline := (now + Z.max 10 seconds * 1000)%Z in
    if (Z.abs deadline <=? maxTime)%Z then backoff deadline else caught in
  match text with
  | Unreadable => caught
  | Delay seconds => tried seconds
  | NoDelay => tried 60%Z
  end.

End Quota.

(** ** Alternatives by alignment ([calculateAlignedQuantity]) *)

Module Alignment.
Local Open Scope Q_scope.
Import MealView.

Inductive AlignmentType : Type :=
| ByCalories
| ByProtein
| ByCarbs
| ByFat
| General.

(** [a / b]; a zero divisor leaves the finite numbers ([None]). *)
Definition quotient (a b : Q) : option Q :=
  if falsy b then None else Some (a / b).

Definition calculateAlignedQuantity (targetFood : FoodItem) (targetQuantity : Q)
    (alternativeFood : FoodItem) (alignmentType : AlignmentType) : option Z :=
  if falsy targetQuantity then Some 0%Z
  else
    let targetMacros := calculateFoodMacros targetFood targetQuantity in
    let calorieQuantity :=
      quotient (inject_Z (calories targetMacros) * 100) (calories_per_100g alternativeFood) in
    let proteinQuantity :=
      quotient (protein targetMacros * 100) (protein_g_per_100g alternativeFood) in
    let carbsQuantity :=
      quotient (carbs targetMacros * 100) (carbs_g_per_100g alternativeFood) in
    let fatQuantity :=
      quotient (fat targetMacros * 100) (fat_g_per_100g alternativeFood) in
    alignedQuantity ←
      match alignmentType with
      | ByCalories => calorieQuantity
      | ByProtein => proteinQuantity
      | ByCarbs => carbsQuantity
      | ByFat => fatQuantity
      | General =>
          c ← calorieQuantity; p ← proteinQuantity; k ← carbsQuantity; f ← fatQuantity;
          Some (c * (4 # 10) + p * (3 # 10) + k * (15 # 100) + f * (15 # 100))
      end;
    Some (Math_round (alignedQuantity / 5) * 5)%Z.

Record Differences : Type := {
  d_calories : Z;
  d_protein : Q;
  d_carbs : Q;
  d_fat : Q
}.

Record Similarity : Type := {
  similarity : Z;
  differences : Differences
}.

(** [Math.max(0, 100 - Math.abs(difference / base * 100))] *)
Definition partSimilarity (difference base : Q) : Q :=
  Qmax 0 (100 - Qabs (difference / base * 100)).

(** The calorie part divides by [macros1.calories] itself.  When that is
    zero a non-zero difference gives an infinite quotient and the part is
    0; a zero difference gives NaN ([None]). *)
Definition caloriesSimilarityOf (difference base : Z) : option Q :=
  if (base =? 0)%Z then
    if (difference =? 0)%Z then None else Some 0
  else Some (partSimilarity (inject_Z difference) (inject_Z base)).

(** [None] is the result whose [similarity] is NaN: a NaN calorie part
    makes the weighted sum and its [Math.round] NaN. *)
Definition calculateMacroSimilarity (food1 : FoodItem) (quantity1 : Q)
    (food2 : FoodItem) (quantity2 : Q) : option Similarity :=
  let macros1 := calculateFoodMacros food1 quantity1 in
  let macros2 := calculateFoodMacros food2 quantity2 in
  let differences :=
    {| d_calories := (calories macros2 - calories macros1)%Z;
       d_protein := round1 (protein macros2 - protein macros1);
       d_carbs := round1 (carbs macros2 - carbs macros1);
       d_fat := round1 (fat macros2 - fat macros1) |} in
  caloriesSimilarity ← caloriesSimilarityOf (d_calories differences) (calories macros1);
  let proteinSimilarity :=
    partSimilarity (d_protein differences) (Qmax (protein macros1) (1 # 10)) in
  let carbsSimilarity :=
    partSimilarity (d_carbs differences) (Qmax (carbs macros1) (1 # 10)) in
  let fatSimilarity :=
    partSimilarity (d_fat differences) (Qmax (fat macros1) (1 # 10)) in
  let total :=
    caloriesSimilarity * (4 # 10) + proteinSimilarity * (3 # 10)
    + carbsSimilarity * (15 # 100) + fatSimilarity * (15 # 100) in
  Some {| similarity := Math_round total; differences := differences |}.

(** [calculateCaloriesFromMacros] *)
Definition calculateCaloriesFromMacros (proteinGrams carbsGrams fatGrams : Q) : Z :=
  Math_round (proteinGrams * 4 + carbsGrams * 4 + fatGrams * 9).

End Alignment.

(** ** Unit conversion ([convertToGrams]) *)

Module Units.
Local Open Scope Q_scope.
Local Open Scope string_scope.

Inductive Category : Type := Weight | Volume | Piece.

Record UnitConversion : Type := {
  c_unit : string;
  gramsPerUnit : Q;
  category : Category
}.

Definition conv (u : string) (g : Q) (c : Category) : UnitConversion :=
  {| c_unit := u; gramsPerUnit := g; category := c |}.

Definition unitConversions : list UnitConversion :=
  [ conv "g" 1 Weight; conv "gram" 1 Weight; conv "grams" 1 Weight;
    conv "kg" 1000 Weight; conv "kilogram" 1000 Weight;
    conv "oz" (2835 # 100) Weight; conv "ounce" (2835 # 100) Weight;
    conv "ounces" (2835 # 100) Weight;
    conv "lb" (45359 # 100) Weight; conv "lbs" (45359 # 100) Weight;
    conv "pound" (45359 # 100) Weight; conv "pounds" (45359 # 100) Weight;
    conv "cup" 240 Volume; conv "cups" 240 Volume;
    conv "tbsp" 15 Volume; conv "tablespoon" 15 Volume; conv "tablespoons" 15 Volume;
    conv "tsp" 5 Volume; conv "teaspoon" 5 Volume; conv "teaspoons" 5 Volume;
    conv "ml" 1 Volume; conv "milliliter" 1 Volume; conv "milliliters" 1 Volume;
    conv "l" 1000 Volume; conv "liter" 1000 Volume; conv "liters" 1000 Volume;
    conv "fl oz" 30 Volume; conv "fluid ounce" 30 Volume; conv "fluid ounces" 30 Volume;
    conv "pint" 473 Volume; conv "pints" 473 Volume;
    conv "quart" 946 Volume; conv "quarts" 946 Volume;
    conv "gallon" 3785 Volume; conv "gallons" 3785 Volume;
    conv "piece" 0 Piece; conv "pieces" 0 Piece;
    conv "slice" 0 Piece; conv "slices" 0 Piece;
    conv "serving" 0 Piece; conv "servings" 0 Piece;
    conv "item" 0 Piece; conv "items" 0 Piece;
    conv "medium" 0 Piece; conv "large" 0 Piece; conv "small" 0 Piece;
    conv "whole" 0 Piece; conv "half" 0 Piece; conv "quarter" 0 Piece;
    conv "meatball" 0 Piece; conv "meatballs" 0 Piece;
    conv "nugget" 0 Piece; conv "nuggets" 0 Piece;
    conv "strip" 0 Piece; conv "strips" 0 Piece;
    conv "patty" 0 Piece; conv "patties" 0 Piece;
    conv "fillet" 0 Piece; conv "fillets" 0 Piece;
    conv "breast" 0 Piece; conv "thigh" 0 Piece;
    conv "wing" 0 Piece; conv "wings" 0 Piece;
    conv "drumstick" 0 Piece; conv "drumsticks" 0 Piece ].

(** A number that may be absent is truthy when it is there and not zero;
    a string, when it is there and not empty. *)
Definition truthyNumber (q : option Q) : bool :=
  match q with Some v => negb (falsy v) | None => false end.

Definition truthyString (s : option string) : bool :=
  match s with Some v => negb (Str.isEmpty v) | None => false end.

(** [name.toLowerCase() === normalizedUnit ||
     normalizedUnit.includes(name.toLowerCase())] *)
Definition unitMatches (normalizedUnit name : string) : bool :=
  String.eqb (Str.toLowerCase name) normalizedUnit
  || Text.includes (Str.toLowerCase name) normalizedUnit.

Definition isPiece (c : Category) : bool :=
  match c with Piece => true | _ => false end.

(** [None] where the source divides by a zero [qty] of an alternative
    measure. *)
Definition convertToGrams (quantity : Q) (unit : string)
    (servingWeightGrams servingQty : option Q) (servingUnit : option string)
    (altMeasures : option (list AltMeasure)) : option Q :=
  if falsy quantity || Qle_bool quantity 0 then Some 0
  else
    let normalizedUnit := Str.trim (Str.toLowerCase unit) in
    let perServing := default 0 servingWeightGrams / default 0 servingQty in
    match List.find (fun m => unitMatches normalizedUnit (measure m))
                    (default [] altMeasures) with
    | Some matchingMeasure =>
        if falsy (qty matchingMeasure) then None
        else Some (quantity * (serving_weight matchingMeasure / qty matchingMeasure))
    | None =>
        if truthyString servingUnit
           && String.eqb normalizedUnit (Str.toLowerCase (default EmptyString servingUnit))
           && truthyNumber servingWeightGrams && truthyNumber servingQty
        then Some (quantity * perServing)
        else
          match List.find (fun c => unitMatches normalizedUnit (c_unit c)) unitConversions with
          | None => Some quantity
          | Some conversion =>
              if isPiece (category conversion)
                 && truthyNumber servingWeightGrams && truthyNumber servingQty
              then Some (quantity * perServing)
              else if Qltb 0 (gramsPerUnit conversion)
              then Some (quantity * gramsPerUnit conversion)
              else Some quantity
          end
    end.

End Units.

(** ** Editing meals ([MealBuilder]) *)

Module MealBuilder.
Local Open Scope Q_scope.

(** [meals.map(meal => meal.id === mealId ? change(meal) : meal)] *)
Definition onMeal (mealId : string) (change : Meal -> Meal) (meals : list Meal) : list Meal :=
  map (fun meal => if String.eqb (meal_id meal) mealId then change meal else meal) meals.

Definition withFoods (meal : Meal) (newFoods : list FoodEntry) : Meal :=
  {| meal_id := meal_id meal; name := name meal; foods := newFoods |}.

(** [addFood]; [newId] is [`food-${Date.now()}`]. *)
Definition addFood (newId : string) (mealId : string) (meals : list Meal) : list Meal :=
  let newFood := {| id := newId; quantity := 0; unit := Some "g"%string;
                    isAlternative := false; parentId := None |} in
  onMeal mealId (fun meal => withFoods meal (foods meal ++ [newFood])) meals.

(** [meal.foods.findIndex(f => f.id === parentFoodId)] *)
Fixpoint findIndex (parentFoodId : string) (fs : list FoodEntry) : option nat :=
  match fs with
  | [] => None
  | f :: rest =>
      if String.eqb (id f) parentFoodId then Some 0%nat
      else S <$> findIndex parentFoodId rest
  end.

Definition isAlternativeOf (parentFoodId : string) (f : FoodEntry) : bool :=
  match parentId f with
  | Some p => String.eqb p parentFoodId
  | None => false
  end.

(** [while (i < foods.length && foods[i].parentId === parentFoodId) i++],
    over the foods from index [i] on. *)
Fixpoint skipAlternatives (parentFoodId : string) (fromI : list FoodEntry) (i : nat) : nat :=
  match fromI with
  | f :: rest =>
      if isAlternativeOf parentFoodId f then skipAlternatives parentFoodId rest (S i) else i
  | [] => i
  end.

(** [addFoodAlternative] *)
Definition addFoodAlternative (newId : string) (mealId parentFoodId : string)
    (meals : list Meal) : list Meal :=
  let newFood := {| id := newId; quantity := 0; unit := Some "g"%string;
                    isAlternative := true; parentId := Some parentFoodId |} in
  onMeal mealId
    (fun meal =>
       match findIndex parentFoodId (foods meal) with
       | None => meal
       | Some parentIndex =>
           let insertIndex :=
             skipAlternatives parentFoodId (drop (S parentIndex) (foods meal))
               (S parentIndex) in
           withFoods meal
             (take insertIndex (foods meal) ++ [newFood] ++ drop insertIndex (foods meal))
       end)
    meals.

(** [updateFood] *)
Definition updateFood (mealId : string) (foodEntry : FoodEntry) (meals : list Meal)
    : list Meal :=
  onMeal mealId
    (fun meal =>
       withFoods meal
         (map (fun f => if String.eqb (id f) (id foodEntry) then foodEntry else f)
              (foods meal)))
    meals.

(** [deleteFood]: the food goes, and its alternatives with it. *)
Definition deleteFood (mealId foodId : string) (meals : list Meal) : list Meal :=
  onMeal mealId
    (fun meal =>
       withFoods meal
         (List.filter
            (fun f => negb (String.eqb (id f) foodId) && negb (isAlternativeOf foodId f))
            (foods meal)))
    meals.

End MealBuilder.

(** ** Plans compared portion by portion *)

Module Shape.

(** Two plans with the same meals (identifier and name) and, in each
    meal, portions that correspond one to one and are related by [R]. *)
Definition portionwise (R : FoodEntry -> FoodEntry -> Prop) (before after : list Meal) : Prop :=
  Forall2 (fun m m' =>
             meal_id m' = meal_id m /\ name m' = name m
             /\ Forall2 R (foods m) (foods m'))
          before after.

(** The same portion but for its quantity. *)
Definition sameButQuantity (f f' : FoodEntry) : Prop :=
  id f' = id f /\ unit f' = unit f
  /\ isAlternative f' = isAlternative f /\ parentId f' = parentId f.

(** A whole number of grams, at least 1. *)
Definition wholeGrams (q : Q) : Prop :=
  exists z : Z, (1 <= z)%Z /\ q == inject_Z z.

(** Correction foods of at least 1 g each. *)
Definition positiveGrams (cfs : list Correction.CorrectionFood) : Prop :=
  Forall (fun cf => (1 <= Correction.grams cf)%Z) cfs.


(** A portion that kept everything but its quantity, which either is
    what it was or a whole number of grams. *)
Definition requantified (f f' : FoodEntry) : Prop :=
  sameButQuantity f f' /\ (quantity f' = quantity f \/ wholeGrams (quantity f')).

End Shape.

(** ** Sample data *)

Module Samples.
Local Open Scope Q_scope.
Local Open Scope string_scope.

Definition settings (pp cp fp : Q) : Orchestrator.DietSettings :=
  {| Orchestrator.proteinPercent := pp;
     Orchestrator.carbsPercent := cp;
     Orchestrator.fatPercent := fp;
     Orchestrator.calorieAdjustment := 0;
     Orchestrator.mealCount := 4;
     Orchestrator.dietType := "balanced";
     Orchestrator.restrictions := EmptyString;
     Orchestrator.preferences := EmptyString;
     Orchestrator.goals := "maintenance" |}.

Definition foodItem (n : string) (c p k f : Q) : FoodItem :=
  {| name_en := n; calories_per_100g := c; protein_g_per_100g := p;
     carbs_g_per_100g := k; fat_g_per_100g := f;
     servingInfo := None; altMeasures := None |}.

(** The two foods of [macroCorrection.test.ts], and egg white with the
    values of [FALLBACK_PROFILES]. *)
Definition pantry : SelectedFoods :=
  <["f-chicken" := foodItem "chicken breast, skinless" 165 31 0 (36 # 10)]>
    (<["f-rice" := foodItem "brown rice, cooked" 123 (27 # 10) (256 # 10) 1]>
       (<["f-eggwhite" := foodItem "egg, white, raw" 52 11 (7 # 10) (2 # 10)]> ∅)).

Definition portion (i : string) (q : Q) : FoodEntry :=
  {| id := i; quantity := q; unit := Some "g"; isAlternative := false; parentId := None |}.

Definition alternative (i parent : string) (q : Q) : FoodEntry :=
  {| id := i; quantity := q; unit := Some "g"; isAlternative := true;
     parentId := Some parent |}.

Definition mealOf (foods : list FoodEntry) : Meal :=
  {| meal_id := "m1"; name := "Lunch"; foods := foods |}.

(** 100 g of chicken and 200 g of rice: 411 kcal, 36.4 g protein,
    51.2 g carbohydrate, 5.6 g fat. *)
Definition lunch : list Meal :=
  [mealOf [portion "f-chicken" 100; portion "f-rice" 200]].

(** 200 g of rice, with 100 g of chicken as its alternative. *)
Definition lunchWithAlternative : list Meal :=
  [mealOf [portion "f-rice" 200; alternative "f-chicken" "f-rice" 100]].

Definition riceOnly : list Meal :=
  [mealOf [portion "f-rice" 200]].

(** 0.9 g of egg white: 0 kcal after rounding, 0.1 g protein. *)
Definition crumb : list Meal :=
  [mealOf [portion "f-eggwhite" (9 # 10)]].

(** A food made so that 100 g of it hit the targets of 2000 kcal at
    30/40/30 percent (150 g, 200 g and 66.7 g) in everything but protein,
    which is 16 g short. *)
Definition shortOfProtein : Orchestrator.PlanResult :=
  {| Orchestrator.meals := [mealOf [portion "f-mix" 100]];
     Orchestrator.selectedFoods :=
       {["f-mix" := foodItem "mix" 2000 134 200 (667 # 10)]};
     Orchestrator.notes := EmptyString;
     Orchestrator.reasoning := EmptyString |}.

(** A proposer that always hands back that plan, and the body of a
    proposer whose call to the service fails on the quota: it throws the
    [QuotaError] inside the [try] of the proposer. *)
Definition alwaysShort : Orchestrator.ComputedTargets -> Orchestrator.ProposerOutcome :=
  fun _ => Orchestrator.Proposed shortOfProtein.

Definition alwaysShortAgain :
    nat -> Orchestrator.ComputedTargets -> list Meal ->
    list Orchestrator.AttemptRecord -> Orchestrator.ProposerOutcome :=
  fun _ _ _ _ => Orchestrator.Proposed shortOfProtein.

Definition quotaInBody : Orchestrator.ComputedTargets -> Orchestrator.ProposerOutcome :=
  fun _ => Orchestrator.Raised true.

End Samples.

(** ** More sample data *)

Module MoreSamples.
Local Open Scope Q_scope.
Local Open Scope string_scope.

Definition targets (c p k f : Q) : Portions.Targets :=
  {| Portions.calories := c; Portions.protein := p;
     Portions.carbs := k; Portions.fat := f |}.

(** The lunch with both portions 10 percent up. *)
Definition lunchUp : list Meal :=
  [Samples.mealOf [Samples.portion "f-chicken" 110; Samples.portion "f-rice" 220]].

(** The lunch with both portions 10 percent down. *)
Definition lunchDown : list Meal :=
  [Samples.mealOf [Samples.portion "f-chicken" 90; Samples.portion "f-rice" 180]].

Definition scaleDefault : Scaling.Options :=
  {| Scaling.maxScalePercentPerAttempt := None |}.

(** A food of which 100 g hit the targets of 2000 kcal at 30/40/30
    percent exactly, and a proposer that is short of protein twice and
    exact on the third attempt. *)
Definition exactPlan : Orchestrator.PlanResult :=
  {| Orchestrator.meals := [Samples.mealOf [Samples.portion "f-mix" 100]];
     Orchestrator.selectedFoods :=
       {["f-mix" := Samples.foodItem "mix" 2000 150 200 (667 # 10)]};
     Orchestrator.notes := EmptyString;
     Orchestrator.reasoning := EmptyString |}.

Definition exactOnThird :
    nat -> Orchestrator.ComputedTargets -> list Meal ->
    list Orchestrator.AttemptRecord -> Orchestrator.ProposerOutcome :=
  fun k _ _ _ =>
    if (k <? 3)%nat then Orchestrator.Proposed Samples.shortOfProtein
    else Orchestrator.Proposed exactPlan.

(** The lunch after five rounds of redistribution towards 60 g of
    protein. *)
Definition lunchMoreChicken : list Meal :=
  [Samples.mealOf [Samples.portion "f-chicken" 134; Samples.portion "f-rice" 200]].

(** 300 g of rice: the targets of 8.1 g, 76.8 g and 3 g exactly. *)
Definition riceUp : list Meal :=
  [Samples.mealOf [Samples.portion "f-rice" 300]].

End MoreSamples.

(** * Properties *)

(** ** Rounding lemmas *)

(** [lra] does not divide: turn [x / c] into [x * (1 # c)] first. *)
Ltac qconst :=
  unfold Qdiv in *;
  repeat match goal with
  | |- context [Qinv (Qmake ?n ?d)] =>
      let v := eval cbv in (Qinv (Qmake n d)) in
      change (Qinv (Qmake n d)) with v in *
  | H : context [Qinv (Qmake ?n ?d)] |- _ =>
      let v := eval cbv in (Qinv (Qmake n d)) in
      change (Qinv (Qmake n d)) with v in *
  end.

Section Rounding.
Local Open Scope Q_scope.

Lemma Math_round_spec (x : Q) :
  inject_Z (Math_round x) <= x + (1 # 2) /\ x + (1 # 2) < inject_Z (Math_round x) + 1.
Proof.
  unfold Math_round. split.
  - apply Qfloor_le.
  - pose proof (Qlt_floor (x + (1 # 2))) as H.
    rewrite inject_Z_plus in H. exact H.
Qed.

Lemma Math_round_unique (x : Q) (z : Z) :
  inject_Z z <= x + (1 # 2) -> x + (1 # 2) < inject_Z z + 1 -> Math_round x = z.
Proof.
  intros Hlo Hhi. destruct (Math_round_spec x) as [Rlo Rhi].
  assert (Math_round x < z + 1)%Z as H1.
  { rewrite Zlt_Qlt, inject_Z_plus. change (inject_Z 1) with 1. lra. }
  assert (z < Math_round x + 1)%Z as H2.
  { rewrite Zlt_Qlt, inject_Z_plus. change (inject_Z 1) with 1. lra. }
  lia.
Qed.

Lemma Math_round_inject (z : Z) : Math_round (inject_Z z) = z.
Proof. apply Math_round_unique; lra. Qed.

Lemma Math_round_le (x y : Q) : x <= y -> (Math_round x <= Math_round y)%Z.
Proof.
  intros H. unfold Math_round. apply Qfloor_resp_le. lra.
Qed.

(** Grams rounded to one decimal give back the calories they came from:
    the step is 0.1 g, so at most 0.2 kcal at 4 kcal/g. *)
Lemma round_trip_4 (c : Z) :
  Math_round (round1 (inject_Z c / 4) * 4) = c.
Proof.
  unfold round1.
  destruct (Math_round_spec (inject_Z c / 4 * 10)) as [Rlo Rhi].
  apply Math_round_unique; qconst; lra.
Qed.


Lemma Qgtb_true (a b : Q) : Qgtb a b = true <-> b < a.
Proof.
  unfold Qgtb. rewrite negb_true_iff, <- not_true_iff_false, Qle_bool_iff.
  split; intros H; lra.
Qed.

Lemma Qgtb_false (a b : Q) : Qgtb a b = false <-> a <= b.
Proof. unfold Qgtb. rewrite negb_false_iff. apply Qle_bool_iff. Qed.

Lemma Qltb_true (a b : Q) : Qltb a b = true <-> a < b.
Proof. unfold Qltb. apply (Qgtb_true b a). Qed.

Lemma Qltb_false (a b : Q) : Qltb a b = false <-> b <= a.
Proof. unfold Qltb. apply (Qgtb_false b a). Qed.

End Rounding.

(** ** Target calculator *)

Section TargetExactness.
Local Open Scope Q_scope.



(** For any target, integer or not, the recomputed fat calories are
    within 0.95 kcal of what was left for fat. *)
Lemma final_fat_close (x : Q) :
  Qabs (inject_Z (Math_round (round1 (x / 9) * 9)) - x) <= 95 # 100.
Proof.
  unfold round1.
  destruct (Math_round_spec (x / 9 * 10)) as [Rlo Rhi].
  destruct (Math_round_spec (inject_Z (Math_round (x / 9 * 10)) / 10 * 9)) as [Slo Shi].
  apply Qabs_Qle_condition. qconst. split; lra.
Qed.

(** So for a fractional target the total is a whole number less than
    1 kcal away from it. *)
Lemma final_calories_close (tc : Q) (P C F : Z) :
  Qabs (inject_Z
          (Math_round (round1 (inject_Z P / 4) * 4)
           + Math_round (round1 (inject_Z C / 4) * 4)
           + Math_round (round1 ((inject_Z F + (tc - inject_Z (P + C + F))) / 9) * 9))
        - tc) <= 95 # 100.
Proof.
  rewrite !round_trip_4.
  pose proof (final_fat_close (inject_Z F + (tc - inject_Z (P + C + F)))) as H.
  apply Qabs_Qle_condition in H. apply Qabs_Qle_condition.
  rewrite !inject_Z_plus in *. split; lra.
Qed.

Lemma percent_guard_fails (pp cp fp : Q) :
  1 # 10 < Qabs (pp + cp + fp - 100) ->
  Qgtb (Qabs (pp + cp + fp - 100)) (1 # 10) = true.
Proof. intros H. apply Qgtb_true. exact H. Qed.




(** C7.  When the three percentages differ from 100 by more than 0.1 in
    sum, [calculateExactMacros], [calculateMacroGrams] and the prologue of
    [generateDietPlan] throw the "must add up to 100%" error, so there are
    no targets; and [generateDietPlan], once past its availability check,
    throws that error without a single call to a proposer. *)
Theorem invalid_macro_spec_fails_fast
    (targetCalories deficitSurplus : Q) (settings : Orchestrator.DietSettings)
    (initial : Orchestrator.ComputedTargets -> Orchestrator.ProposerOutcome)
    (adjust : nat -> Orchestrator.ComputedTargets -> list Meal ->
              list Orchestrator.AttemptRecord -> Orchestrator.ProposerOutcome)
    (currentMeals : list Meal) :
  let pp := Orchestrator.proteinPercent settings in
  let cp := Orchestrator.carbsPercent settings in
  let fp := Orchestrator.fatPercent settings in
  1 # 10 < Qabs (pp + cp + fp - 100) ->
  Calc.calculateExactMacros targetCalories pp cp fp
    = Throw (MacroPercentError (pp + cp + fp))
  /\ Calc.calculateMacroGrams targetCalories pp cp fp
    = Throw (MacroPercentError (pp + cp + fp))
  /\ Orchestrator.computeTargets targetCalories deficitSurplus settings
    = Throw (MacroPercentError (pp + cp + fp))
  /\ Orchestrator.generateDietPlan true initial adjust
       targetCalories (inl settings) currentMeals deficitSurplus
    = {| Orchestrator.outcome := Orchestrator.Throws (MacroPercentError (pp + cp + fp));
         Orchestrator.attemptsMade := 0;
         Orchestrator.previousAttempts := [] |}.
Proof.
  intros pp cp fp H.
  assert (Orchestrator.computeTargets targetCalories deficitSurplus settings
          = Throw (MacroPercentError (pp + cp + fp))) as Hprologue.
  { unfold Orchestrator.computeTargets. fold pp cp fp.
    rewrite (percent_guard_fails pp cp fp H). reflexivity. }
  repeat split.
  - unfold Calc.calculateExactMacros.
    rewrite (percent_guard_fails pp cp fp H). reflexivity.
  - unfold Calc.calculateMacroGrams, Calc.validateMacroPercentages.
    replace (Qle_bool (Qabs (pp + cp + fp - 100)) (1 # 10)) with false; [reflexivity |].
    symmetry. apply (Qgtb_true (Qabs (pp + cp + fp - 100)) (1 # 10)) in H.
    unfold Qgtb in H. apply negb_true_iff in H. exact H.
  - exact Hprologue.
  - unfold Orchestrator.generateDietPlan. cbn [negb Orchestrator.normalize].
    rewrite Hprologue. reflexivity.
Qed.

(** 40 + 35 + 30 = 105. *)
Lemma invalid_macro_spec_fails_fast_witness :
  Calc.calculateExactMacros 2600 40 35 30 = Throw (MacroPercentError (40 + 35 + 30))
  /\ Calc.calculateMacroGrams 2600 40 35 30 = Throw (MacroPercentError (40 + 35 + 30))
  /\ Orchestrator.computeTargets 2600 0 (Samples.settings 40 35 30)
    = Throw (MacroPercentError (40 + 35 + 30))
  /\ Orchestrator.generateDietPlan true
       (fun _ => Orchestrator.NoResult) (fun _ _ _ _ => Orchestrator.NoResult)
       2600 (inl (Samples.settings 40 35 30)) [] 0
    = {| Orchestrator.outcome := Orchestrator.Throws (MacroPercentError (40 + 35 + 30));
         Orchestrator.attemptsMade := 0;
         Orchestrator.previousAttempts := [] |}.
Proof.
  apply (invalid_macro_spec_fails_fast 2600 0 (Samples.settings 40 35 30)
           (fun _ => Orchestrator.NoResult) (fun _ _ _ _ => Orchestrator.NoResult) []).
  vm_compute. reflexivity.
Defined.

End TargetExactness.

(** ** Validation engine *)

Section ValidationProperties.
Local Open Scope Q_scope.
Import Validation.

Lemma deviation_within (x t c : Q) :
  Qabs (x - t) <= c -> Qgtb (Qabs (x - t)) c = false.
Proof. intros H. apply Qgtb_false. exact H. Qed.

Lemma deviation_zero (x t c : Q) :
  x == t -> 0 <= c -> Qgtb (Qabs (x - t)) c = false.
Proof.
  intros H Hc. apply Qgtb_false. apply Qabs_Qle_condition. split; lra.
Qed.

Lemma percent_same (actual : jsnum) (target : Q) :
  sameNumber actual target -> percentOff actual target = false.
Proof.
  destruct actual as [q | | |]; unfold percentOff;
    cbn [sameNumber js_gt js_abs js_sub]; try contradiction.
  intros H. apply Qgtb_false. apply Qabs_Qle_condition. split; lra.
Qed.

Lemma In_pushIf (c : bool) (e x : ValidationError) (l : list ValidationError) :
  In x (pushIf c e l) <-> In x l \/ (c = true /\ x = e).
Proof.
  unfold pushIf. destruct c.
  - rewrite in_app_iff. cbn. intuition.
  - intuition. discriminate.
Qed.

Lemma isValid_true_iff (meals : list Meal) (sf : SelectedFoods)
    (tCal tP tC tF pp cp fp : Q) :
  let v := validateDietPlanSpecifications meals sf tCal tP tC tF pp cp fp in
  isValid v = true <-> errors v = [].
Proof.
  cbn zeta. unfold validateDietPlanSpecifications. cbn [isValid errors].
  match goal with |- Nat.eqb (length ?l) 0 = true <-> _ => destruct l end; cbn.
  - tauto.
  - split; discriminate.
Qed.

(** C3.  With zero deviation of the actual totals from the targets in
    every dimension (calories, the three gram totals and the three
    percentages), the plan validates; with a calorie deviation of exactly
    151 kcal and all other dimensions matching, it does not, and [errors]
    is the one calorie message; and [isValid] is true exactly when
    [errors] is empty. *)
Theorem validation_monotonicity (meals : list Meal) (sf : SelectedFoods)
    (tCal tP tC tF pp cp fp : Q) :
  let v := validateDietPlanSpecifications meals sf tCal tP tC tF pp cp fp in
  let a := actualTotals v in
  (inject_Z (calories a) == tCal ->
   protein a == tP -> carbs a == tC -> fat a == tF ->
   sameNumber (proteinPercent a) pp ->
   sameNumber (carbsPercent a) cp ->
   sameNumber (fatPercent a) fp ->
   isValid v = true)
  /\ (Qabs (inject_Z (calories a) - tCal) == 151 ->
      protein a == tP -> carbs a == tC -> fat a == tF ->
      sameNumber (proteinPercent a) pp ->
      sameNumber (carbsPercent a) cp ->
      sameNumber (fatPercent a) fp ->
      isValid v = false
      /\ errors v
         = [CalorieDeviationTooHigh tCal (calories a) (Qabs (inject_Z (calories a) - tCal))]
      /\ exists e, In e (errors v) /\ isCalorieError e = true)
  /\ (isValid v = true <-> errors v = []).
Proof.
  intros v a. split; [| split].
  - subst a v. unfold validateDietPlanSpecifications.
    cbn [isValid errors actualTotals calories protein carbs fat
         proteinPercent carbsPercent fatPercent].
    intros Hc Hp Hk Hf Hpp Hcp Hfp.
    rewrite (deviation_zero _ _ 150 Hc) by lra.
    rewrite (deviation_zero _ _ 15 Hp) by lra.
    rewrite (deviation_zero _ _ 15 Hk) by lra.
    rewrite (deviation_zero _ _ 15 Hf) by lra.
    rewrite (percent_same _ _ Hpp), (percent_same _ _ Hcp), (percent_same _ _ Hfp).
    reflexivity.
  - subst a v. unfold validateDietPlanSpecifications.
    cbn [isValid errors actualTotals calories protein carbs fat
         proteinPercent carbsPercent fatPercent].
    intros Hc Hp Hk Hf Hpp Hcp Hfp.
    assert (Qgtb (Qabs (inject_Z (totalCalories (sumMeals meals sf)) - tCal)) 150 = true)
      as Hcal by (apply Qgtb_true; lra).
    rewrite Hcal.
    rewrite (deviation_zero _ _ 15 Hp) by lra.
    rewrite (deviation_zero _ _ 15 Hk) by lra.
    rewrite (deviation_zero _ _ 15 Hf) by lra.
    rewrite (percent_same _ _ Hpp), (percent_same _ _ Hcp), (percent_same _ _ Hfp).
    cbn [pushIf app length Nat.eqb].
    split; [reflexivity |]. split; [reflexivity |].
    eexists. split; [left; reflexivity | reflexivity].
  - apply isValid_true_iff.
Qed.

End ValidationProperties.

Section ValidationWitnesses.
Local Open Scope Q_scope.
Import Validation.

(** The lunch against targets equal to its own totals, and against a
    calorie target 151 kcal higher. *)
Lemma validation_monotonicity_witness :
  isValid (validateDietPlanSpecifications Samples.lunch Samples.pantry
             411 (364 # 10) (512 # 10) (56 # 10) 35 50 12) = true
  /\ isValid (validateDietPlanSpecifications Samples.lunch Samples.pantry
                562 (364 # 10) (512 # 10) (56 # 10) 35 50 12) = false.
Proof.
  split.
  - apply (proj1 (validation_monotonicity Samples.lunch Samples.pantry
                    411 (364 # 10) (512 # 10) (56 # 10) 35 50 12));
      vm_compute; reflexivity.
  - apply (proj1 (proj2 (validation_monotonicity Samples.lunch Samples.pantry
                           562 (364 # 10) (512 # 10) (56 # 10) 35 50 12)));
      vm_compute; reflexivity.
Defined.

(** The percentages are dimensions of their own: the same lunch with
    matching calories and grams, checked against 40/35/25 percent, fails
    on the three percentages (35, 50 and 12 percent of its calories). *)
Remark grams_match_percentages_off :
  let v := validateDietPlanSpecifications Samples.lunch Samples.pantry
             411 (364 # 10) (512 # 10) (56 # 10) 40 35 25 in
  isValid v = false
  /\ errors v = [ProteinPercentageOff 40 (JFin 35);
                 CarbsPercentageOff 35 (JFin 50);
                 FatPercentageOff 25 (JFin 12)].
Proof.
  cbn zeta. split; vm_compute; reflexivity.
Qed.

End ValidationWitnesses.

(** ** Percentages over a zero calorie total *)

Section ZeroCalories.
Local Open Scope Q_scope.
Import Validation.

(** The sign of the macro total decides what the division by zero gives. *)
Lemma actualPercent_zero_total (grams k : Q) :
  0 < k ->
  actualPercent grams k 0
  = if Qltb 0 grams then JPosInf else if Qltb grams 0 then JNegInf else JNaN.
Proof.
  intros Hk. unfold actualPercent, js_div.
  change (Qeqb (inject_Z 0) 0) with true. cbn iota.
  assert (Qltb 0 (grams * k) = Qltb 0 grams) as ->.
  { destruct (Qltb 0 grams) eqn:E.
    - apply Qltb_true. apply Qltb_true in E. nra.
    - apply Qltb_false. apply Qltb_false in E. nra. }
  assert (Qltb (grams * k) 0 = Qltb grams 0) as ->.
  { destruct (Qltb grams 0) eqn:E.
    - apply Qltb_true. apply Qltb_true in E. nra.
    - apply Qltb_false. apply Qltb_false in E. nra. }
  destruct (Qltb 0 grams); [reflexivity |].
  destruct (Qltb grams 0); reflexivity.
Qed.

Lemma zero_total_percent_NaN (grams k target : Q) :
  0 < k -> grams == 0 ->
  actualPercent grams k 0 = JNaN /\ percentOff (actualPercent grams k 0) target = false.
Proof.
  intros Hk Hz. rewrite (actualPercent_zero_total grams k Hk).
  assert (Qltb 0 grams = false) as -> by (apply Qltb_false; lra).
  assert (Qltb grams 0 = false) as -> by (apply Qltb_false; lra).
  split; reflexivity.
Qed.

Lemma zero_total_percent_infinite (grams k target : Q) :
  0 < k -> ~ grams == 0 ->
  (actualPercent grams k 0 = JPosInf \/ actualPercent grams k 0 = JNegInf)
  /\ percentOff (actualPercent grams k 0) target = true.
Proof.
  intros Hk Hnz. rewrite (actualPercent_zero_total grams k Hk).
  destruct (Qltb 0 grams) eqn:Epos.
  - split; [left |]; reflexivity.
  - destruct (Qltb grams 0) eqn:Eneg.
    + split; [right |]; reflexivity.
    + exfalso. apply Hnz. apply Qltb_false in Epos, Eneg. lra.
Qed.

(** C10 (as amended).  When the accumulated total calories are 0, each
    actual percentage is a division by zero.  A macro whose accumulated
    grams are 0 gets NaN and no percentage error; a macro whose grams are
    not 0 gets an infinity, and its percentage error is added.  When all
    three macro totals are 0, [errors] holds no percentage error at all,
    so the plan can be reported invalid only by the calorie and gram
    checks. *)
Theorem zero_calories_percentages (meals : list Meal) (sf : SelectedFoods)
    (tCal tP tC tF pp cp fp : Q) :
  let v := validateDietPlanSpecifications meals sf tCal tP tC tF pp cp fp in
  let a := actualTotals v in
  calories a = 0%Z ->
  (protein a == 0 ->
     proteinPercent a = JNaN /\ forall t x, ~ In (ProteinPercentageOff t x) (errors v))
  /\ (carbs a == 0 ->
     carbsPercent a = JNaN /\ forall t x, ~ In (CarbsPercentageOff t x) (errors v))
  /\ (fat a == 0 ->
     fatPercent a = JNaN /\ forall t x, ~ In (FatPercentageOff t x) (errors v))
  /\ (~ protein a == 0 ->
     (proteinPercent a = JPosInf \/ proteinPercent a = JNegInf)
     /\ In (ProteinPercentageOff pp (proteinPercent a)) (errors v))
  /\ (~ carbs a == 0 ->
     (carbsPercent a = JPosInf \/ carbsPercent a = JNegInf)
     /\ In (CarbsPercentageOff cp (carbsPercent a)) (errors v))
  /\ (~ fat a == 0 ->
     (fatPercent a = JPosInf \/ fatPercent a = JNegInf)
     /\ In (FatPercentageOff fp (fatPercent a)) (errors v))
  /\ (protein a == 0 -> carbs a == 0 -> fat a == 0 ->
     Forall (fun e => isPercentageError e = false) (errors v)).
Proof.
  intros v a. subst a v. unfold validateDietPlanSpecifications.
  cbn [isValid errors actualTotals calories protein carbs fat
       proteinPercent carbsPercent fatPercent].
  set (t := sumMeals meals sf). intros H0. rewrite H0.
  assert (0 < 4) as H4 by reflexivity. assert (0 < 9) as H9 by reflexivity.
  split; [intros H; split |].
  { apply (zero_total_percent_NaN _ 4 pp H4 H). }
  { intros tt x. destruct (zero_total_percent_NaN _ 4 pp H4 H) as [_ Hoff].
    rewrite Hoff. rewrite !In_pushIf. cbn [In].
    intuition (discriminate || congruence). }
  split; [intros H; split |].
  { apply (zero_total_percent_NaN _ 4 cp H4 H). }
  { intros tt x. destruct (zero_total_percent_NaN _ 4 cp H4 H) as [_ Hoff].
    rewrite Hoff. rewrite !In_pushIf. cbn [In].
    intuition (discriminate || congruence). }
  split; [intros H; split |].
  { apply (zero_total_percent_NaN _ 9 fp H9 H). }
  { intros tt x. destruct (zero_total_percent_NaN _ 9 fp H9 H) as [_ Hoff].
    rewrite Hoff. rewrite !In_pushIf. cbn [In].
    intuition (discriminate || congruence). }
  split; [intros H; split |].
  { apply (zero_total_percent_infinite _ 4 pp H4 H). }
  { destruct (zero_total_percent_infinite _ 4 pp H4 H) as [_ Hoff].
    rewrite !In_pushIf. rewrite Hoff. tauto. }
  split; [intros H; split |].
  { apply (zero_total_percent_infinite _ 4 cp H4 H). }
  { destruct (zero_total_percent_infinite _ 4 cp H4 H) as [_ Hoff].
    rewrite !In_pushIf. rewrite Hoff. tauto. }
  split; [intros H; split |].
  { apply (zero_total_percent_infinite _ 9 fp H9 H). }
  { destruct (zero_total_percent_infinite _ 9 fp H9 H) as [_ Hoff].
    rewrite !In_pushIf. rewrite Hoff. tauto. }
  intros Hp Hc Hf.
  destruct (zero_total_percent_NaN _ 4 pp H4 Hp) as [_ ->].
  destruct (zero_total_percent_NaN _ 4 cp H4 Hc) as [_ ->].
  destruct (zero_total_percent_NaN _ 9 fp H9 Hf) as [_ ->].
  cbn [pushIf].
  repeat match goal with
         | |- context [pushIf ?c _ _] => destruct c; cbn [pushIf app]
         end;
    repeat constructor.
Qed.

(** No food resolves: every total is 0, every percentage is NaN, and the
    plan even validates against zero targets.  And 0.9 g of egg white: the
    protein percentage is an infinity and is reported. *)
Lemma zero_calories_percentages_witness :
  (proteinPercent (actualTotals
     (validateDietPlanSpecifications Samples.lunch ∅ 0 0 0 0 40 35 25)) = JNaN
   /\ forall t x,
        ~ In (ProteinPercentageOff t x)
             (errors (validateDietPlanSpecifications Samples.lunch ∅ 0 0 0 0 40 35 25)))
  /\ In (ProteinPercentageOff 40 JPosInf)
        (errors (validateDietPlanSpecifications Samples.crumb Samples.pantry
                   0 0 0 0 40 35 25)).
Proof.
  split.
  - assert (calories (actualTotals
              (validateDietPlanSpecifications Samples.lunch ∅ 0 0 0 0 40 35 25)) = 0%Z)
      as H0 by (vm_compute; reflexivity).
    apply (proj1 (zero_calories_percentages Samples.lunch ∅ 0 0 0 0 40 35 25 H0)).
    vm_compute. reflexivity.
  - assert (calories (actualTotals
              (validateDietPlanSpecifications Samples.crumb Samples.pantry
                 0 0 0 0 40 35 25)) = 0%Z)
      as H0 by (vm_compute; reflexivity).
    apply (proj1 (proj2 (proj2 (proj2
             (zero_calories_percentages Samples.crumb Samples.pantry 0 0 0 0 40 35 25
                H0))))).
    vm_compute. discriminate.
Defined.

(** C10 as stated fails when a macro total is not 0.  0.9 g of egg white
    round to 0 kcal and 0.1 g of protein: the total calories are 0, the
    protein percentage is +Infinity, not NaN, and a percentage error is
    added. *)
Lemma zero_calories_protein_infinite :
  let v := validateDietPlanSpecifications Samples.crumb Samples.pantry
             0 0 0 0 40 35 25 in
  calories (actualTotals v) = 0%Z
  /\ protein (actualTotals v) == 1 # 10
  /\ proteinPercent (actualTotals v) = JPosInf
  /\ proteinPercent (actualTotals v) <> JNaN
  /\ errors v = [ProteinPercentageOff 40 JPosInf]
  /\ In (ProteinPercentageOff 40 JPosInf) (errors v).
Proof.
  cbn zeta. split; [vm_compute; reflexivity |].
  split; [vm_compute; reflexivity |].
  split; [vm_compute; reflexivity |].
  split; [vm_compute; discriminate |].
  split; [vm_compute; reflexivity |].
  vm_compute. left. reflexivity.
Qed.

End ZeroCalories.

(** ** Alternative portions *)

Section Alternatives.
Local Open Scope Q_scope.

Variable convertToGrams :
  Q -> string -> option Q -> option Q -> option string -> option (list AltMeasure) -> Q.

(** The planner view leaves the alternatives out: its totals are those of
    the meal without them. *)
Lemma calculateMealTotals_skips_alternatives (sf : SelectedFoods) (meal : Meal) :
  MealView.calculateMealTotals convertToGrams sf meal
  = MealView.calculateMealTotals convertToGrams sf (mainFoods meal).
Proof.
  unfold MealView.calculateMealTotals, mainFoods. cbn [foods].
  generalize ({| MealView.calories := 0; MealView.protein := 0;
                 MealView.carbs := 0; MealView.fat := 0 |}).
  induction (foods meal) as [| f fs IH]; intros acc; [reflexivity |].
  cbn [List.filter fold_left].
  destruct (isAlternative f) eqn:E; cbn [negb].
  - unfold MealView.addEntry at 2. rewrite E. apply IH.
  - cbn [fold_left]. apply IH.
Qed.

(** The validation engine does not look at the flag: a plan and the same
    plan with every portion turned into a main food have the same
    validation result. *)
Lemma validation_ignores_flag (meals : list Meal) (sf : SelectedFoods)
    (tCal tP tC tF pp cp fp : Q) :
  Validation.validateDietPlanSpecifications (map allMain meals) sf tCal tP tC tF pp cp fp
  = Validation.validateDietPlanSpecifications meals sf tCal tP tC tF pp cp fp.
Proof.
  unfold Validation.validateDietPlanSpecifications.
  assert (Validation.sumMeals (map allMain meals) sf = Validation.sumMeals meals sf) as ->;
    [| reflexivity].
  unfold Validation.sumMeals. generalize Validation.zeroTotals.
  induction meals as [| meal rest IH]; intros acc; [reflexivity |].
  cbn [map fold_left]. rewrite IH. f_equal.
  unfold Validation.addMeal, allMain. cbn [foods].
  generalize acc. induction (foods meal) as [| f fs IHf]; intros acc'; [reflexivity |].
  cbn [map fold_left]. rewrite IHf. reflexivity.
Qed.

(** C2 (as amended).  The totals of the planner view are those of the
    main foods alone, so no alternative portion, whatever its quantity,
    changes them.  The totals of [validateDietPlanSpecifications] do not
    depend on the flag at all: a plan validates like the same plan with
    every portion turned into a main food. *)
Theorem alternatives_excluded_by_planner_only :
  (forall (sf : SelectedFoods) (meal : Meal),
      MealView.calculateMealTotals convertToGrams sf meal
      = MealView.calculateMealTotals convertToGrams sf (mainFoods meal))
  /\ (forall (meals : list Meal) (sf : SelectedFoods) (tCal tP tC tF pp cp fp : Q),
        Validation.validateDietPlanSpecifications (map allMain meals) sf
          tCal tP tC tF pp cp fp
        = Validation.validateDietPlanSpecifications meals sf tCal tP tC tF pp cp fp).
Proof.
  split.
  - apply calculateMealTotals_skips_alternatives.
  - apply validation_ignores_flag.
Qed.

(** C2 as stated fails for [validateDietPlanSpecifications].  200 g of
    rice validate with 246 kcal and 5.4 g protein; with 100 g of chicken
    added as an alternative of the rice the totals are 411 kcal, 36.4 g
    protein, 51.2 g carbohydrate and 5.6 g fat, those of the plan with
    both as main foods. *)
Lemma validation_counts_alternative :
  let withAlternative :=
    Validation.actualTotals
      (Validation.validateDietPlanSpecifications Samples.lunchWithAlternative
         Samples.pantry 2000 150 200 67 30 40 30) in
  let riceOnly :=
    Validation.actualTotals
      (Validation.validateDietPlanSpecifications Samples.riceOnly
         Samples.pantry 2000 150 200 67 30 40 30) in
  Validation.calories riceOnly = 246%Z
  /\ Validation.calories withAlternative = 411%Z
  /\ Validation.protein riceOnly == 54 # 10
  /\ Validation.protein withAlternative == 364 # 10
  /\ Validation.carbs withAlternative == 512 # 10
  /\ Validation.fat withAlternative == 56 # 10
  /\ Validation.calories withAlternative <> Validation.calories riceOnly.
Proof.
  cbn zeta.
  repeat (split; [vm_compute; reflexivity |]).
  vm_compute. discriminate.
Qed.

End Alternatives.

(** ** NNLS solver *)

Section NNLSProperties.
Local Open Scope Q_scope.
Import NNLS.

Lemma update_nonneg (A : list (list Q)) (b : list Q) (st : list Q * Q) (i : nat) :
  nonneg (fst st) -> nonneg (fst (update A b st i)).
Proof.
  destruct st as [x maxChange]. unfold update. cbn [fst]. intros Hx.
  apply Forall_insert; [exact Hx |].
  match goal with |- 0 <= (if ?c then _ else _) => destruct c eqn:E end.
  - lra.
  - apply Qltb_false in E. exact E.
Qed.

Lemma sweep_nonneg (A : list (list Q)) (b : list Q) (x : list Q) :
  nonneg x -> nonneg (fst (sweep A b x)).
Proof.
  unfold sweep. generalize (0 : Q). generalize (List.seq 0 (n A)).
  intros idxs. revert x. induction idxs as [| i idxs IH]; intros x c Hx; [exact Hx |].
  cbn [fold_left].
  destruct (update A b (x, c) i) as [x' c'] eqn:E.
  apply IH. change x' with (fst (x', c')). rewrite <- E.
  apply update_nonneg. exact Hx.
Qed.

Lemma descend_nonneg (A : list (list Q)) (b : list Q) (maxIter : nat) (x : list Q) :
  nonneg x -> nonneg (descend A b maxIter x).
Proof.
  revert x. induction maxIter as [| k IH]; intros x Hx; [exact Hx |].
  cbn [descend]. pose proof (sweep_nonneg A b x Hx) as Hs.
  destruct (sweep A b x) as [x' maxChange]. cbn [fst] in Hs.
  destruct (Qltb maxChange (1 # 10000)); [exact Hs | apply IH; exact Hs].
Qed.

Lemma iterate_nonneg (A : list (list Q)) (b : list Q) (maxIter : nat) :
  nonneg (iterate A b maxIter).
Proof.
  unfold iterate. apply descend_nonneg. apply Forall_replicate. lra.
Qed.

Lemma total_from (x : list Q) (init : Q) :
  fold_left Qplus x init == init + total x.
Proof.
  unfold total. revert init. induction x as [| v x IH]; intros init; cbn [fold_left].
  - lra.
  - rewrite (IH (init + v)), (IH (0 + v)). lra.
Qed.

Lemma total_zero (x : list Q) :
  Forall (fun v => v == 0) x -> total x == 0.
Proof.
  induction 1 as [| v x Hv _ IH]; [reflexivity |].
  unfold total. cbn [fold_left]. rewrite total_from. lra.
Qed.

Lemma total_nonneg (x : list Q) : nonneg x -> 0 <= total x.
Proof.
  induction 1 as [| v x Hv _ IH]; [unfold total; cbn; lra |].
  unfold total. cbn [fold_left]. rewrite total_from. lra.
Qed.

(** Among vectors without negative components, a component sum of at
    most 0 is the mark of the all-zero vector. *)
Lemma total_nonpos_all_zero (x : list Q) :
  nonneg x -> total x <= 0 -> Forall (fun v => v == 0) x.
Proof.
  induction 1 as [| v x Hv Hx IH]; intros Ht; [constructor |].
  unfold total in Ht. cbn [fold_left] in Ht. rewrite total_from in Ht.
  pose proof (total_nonneg x Hx) as Hpos.
  constructor; [lra | apply IH; lra].
Qed.


(** C4.  For a matrix [A], a right-hand side [b] with an entry for each
    row, and any iteration cap, every component of a vector returned by
    [nnlsSolve] is non-negative; and when the iterate the loop ends with
    has a component sum of at most 0, as the all-zero vector has,
    [nnlsSolve] returns [null].  (Outside rectangular inputs the source
    reads [undefined]; the model has no value for that.) *)
Theorem nnls_nonnegative (A : list (list Q)) (b : list Q) (maxIter : nat) :
  rectangular A b ->
  (forall x, nnlsSolve A b maxIter = Some x -> Forall (fun v => 0 <= v) x)
  /\ ((0 < n A)%nat -> total (iterate A b maxIter) <= 0 -> nnlsSolve A b maxIter = None)
  /\ ((0 < n A)%nat -> Forall (fun v => v == 0) (iterate A b maxIter) ->
      nnlsSolve A b maxIter = None).
Proof.
  intros _.
  assert ((0 < n A)%nat -> total (iterate A b maxIter) <= 0 ->
          nnlsSolve A b maxIter = None) as Hnull.
  { intros Hn Ht. unfold nnlsSolve.
    destruct (Nat.eqb_spec (n A) 0) as [E | _]; [lia |].
    apply Qle_bool_iff in Ht. cbn zeta. rewrite Ht. reflexivity. }
  split; [| split].
  - intros x. unfold nnlsSolve.
    destruct (Nat.eqb (n A) 0).
    + intros [= <-]. constructor.
    + cbn zeta. destruct (Qle_bool (total (iterate A b maxIter)) 0); [discriminate |].
      intros [= <-]. apply iterate_nonneg.
  - exact Hnull.
  - intros Hn Hz. apply Hnull; [exact Hn |].
    rewrite (total_zero _ Hz). lra.
Qed.

(** Two foods, one all protein and one all carbohydrate, and deficits of
    3 g and 4 g: the solver returns 3 g and 4 g.  With deficits that are
    surpluses the iterate stays at zero and the solver returns [null]. *)
Lemma nnls_nonnegative_witness :
  (forall x, nnlsSolve [[1; 0]; [0; 1]; [0; 0]] [3; 4; 0] 500 = Some x ->
             Forall (fun v => 0 <= v) x)
  /\ nnlsSolve [[1; 0]; [0; 1]; [0; 0]] [-3; -4; 0] 500 = None.
Proof.
  assert (rectangular [[1; 0]; [0; 1]; [0; 0]] [3; 4; 0]) as R1.
  { split; [repeat constructor | reflexivity]. }
  assert (rectangular [[1; 0]; [0; 1]; [0; 0]] [-3; -4; 0]) as R2.
  { split; [repeat constructor | reflexivity]. }
  split.
  - apply (proj1 (nnls_nonnegative [[1; 0]; [0; 1]; [0; 0]] [3; 4; 0] 500 R1)).
  - apply (proj1 (proj2 (nnls_nonnegative [[1; 0]; [0; 1]; [0; 0]] [-3; -4; 0] 500 R2))).
    + vm_compute. lia.
    + vm_compute. discriminate.
Defined.

(** C5 (as amended).  When the matrix has no columns, [nnlsSolve] returns
    at once, before any division, and what it returns is the empty
    array. *)
Theorem nnls_no_candidates (A : list (list Q)) (b : list Q) (maxIter : nat) :
  n A = 0%nat -> nnlsSolve A b maxIter = Some [].
Proof.
  intros H. unfold nnlsSolve. rewrite H. reflexivity.
Qed.

Lemma nnls_no_candidates_witness :
  nnlsSolve [[]; []; []] [3; 4; 0] 500 = Some [].
Proof.
  apply (nnls_no_candidates [[]; []; []] [3; 4; 0] 500). reflexivity.
Defined.

(** C5 as stated fails: with no candidate the result is the empty array,
    not [null]. *)
Lemma nnls_no_candidates_not_null :
  n [[]; []; []] = 0%nat
  /\ nnlsSolve [[]; []; []] [3; 4; 0] 500 = Some []
  /\ nnlsSolve [[]; []; []] [3; 4; 0] 500 <> None.
Proof.
  split; [reflexivity |]. split; [reflexivity | discriminate].
Qed.

End NNLSProperties.

(** ** Macro correction loop *)

Section CorrectionProperties.
Local Open Scope Q_scope.
Import Portions Correction.

(** Rounding to one decimal does not lift a deficit of at most 1 above 1. *)
Lemma round1_le_one (d : Q) : d <= 1 -> round1 d <= 1.
Proof.
  intros H. unfold round1.
  assert (Math_round (d * 10) <= Math_round 10)%Z as Hr
    by (apply Math_round_le; lra).
  change (Math_round 10) with 10%Z in Hr.
  rewrite Zle_Qle in Hr. change (inject_Z 10) with 10 in Hr.
  qconst. lra.
Qed.

Lemma no_need (d : Q) : d <= 1 -> Qgtb (round1 d) 1 = false.
Proof. intros H. apply Qgtb_false. apply round1_le_one. exact H. Qed.

(** C8.  When each macro deficit (target minus the plan's actual total)
    is at most 1 g and the calorie deviation is at most 50 kcal,
    [macroCorrectionLoop] returns the meals and the selected foods it was
    given, with [correctionMealAdded = false]; it does not touch the
    profile cache either. *)
Theorem correction_noop_within_tolerance
    (externalProfile : string -> option Profile.t)
    (correctionMealId : string) (pseudoId : nat -> string)
    (cache : gmap string Profile.t)
    (meals : list Meal) (selectedFoods : SelectedFoods)
    (targets : Targets) (options : Options) :
  let t := rawTotals meals selectedFoods in
  protein targets - prot t <= 1 ->
  carbs targets - carb t <= 1 ->
  fat targets - fats t <= 1 ->
  Qabs (calories targets - inject_Z (cals t)) <= 50 ->
  macroCorrectionLoop externalProfile correctionMealId pseudoId cache
    meals selectedFoods targets options
  = Some ({| Correction.meals := meals;
             Correction.selectedFoods := selectedFoods;
             correctionMealAdded := false;
             details := WithinTolerance |}, cache).
Proof.
  intros t Hp Hc Hf Hcal. unfold macroCorrectionLoop. fold t. cbn zeta.
  rewrite (no_need _ Hp), (no_need _ Hc), (no_need _ Hf).
  apply Qle_bool_iff in Hcal. rewrite Hcal. reflexivity.
Qed.

End CorrectionProperties.

Section CorrectionWitness.
Local Open Scope Q_scope.
Import Portions Correction.

(** The lunch against targets of 420 kcal, 37 g, 52 g and 6 g: deficits
    of 0.6 g, 0.8 g and 0.4 g, and 9 kcal. *)
Lemma correction_noop_within_tolerance_witness :
  macroCorrectionLoop (fun _ => None) "correction-meal-1" (fun _ => "correction-food-1")
    ∅ Samples.lunch Samples.pantry
    {| calories := 420; protein := 37; carbs := 52; fat := 6 |}
    {| maxCandidates := Some 3%nat; maxCorrectionCalories := Some 800 |}
  = Some ({| Correction.meals := Samples.lunch;
             Correction.selectedFoods := Samples.pantry;
             correctionMealAdded := false;
             details := WithinTolerance |}, ∅).
Proof.
  apply (correction_noop_within_tolerance
           (fun _ => None) "correction-meal-1" (fun _ => "correction-food-1")
           ∅ Samples.lunch Samples.pantry
           {| calories := 420; protein := 37; carbs := 52; fat := 6 |}
           {| maxCandidates := Some 3%nat; maxCorrectionCalories := Some 800 |});
    vm_compute; discriminate.
Defined.

(** The test of [macroCorrection.test.ts]: the lunch against targets of
    1500 kcal, 120 g, 150 g and 50 g is short of every macro, and a
    correction meal is appended as the last meal. *)
Lemma correction_test_adds_meal :
  exists r cache',
    macroCorrectionLoop (fun _ => None) "correction-meal-1" (fun _ => "correction-food-1")
      ∅ Samples.lunch Samples.pantry
      {| calories := 1500; protein := 120; carbs := 150; fat := 50 |}
      {| maxCandidates := Some 3%nat; maxCorrectionCalories := Some 800 |}
    = Some (r, cache')
    /\ correctionMealAdded r = true
    /\ name <$> last (Correction.meals r) = Some "Macro correction"%string
    /\ (0 < length (default [] (foods <$> last (Correction.meals r))))%nat.
Proof.
  do 2 eexists. split; [vm_compute; reflexivity |].
  split; [reflexivity |]. split; [reflexivity |]. cbn. lia.
Qed.

End CorrectionWitness.

(** ** Greedy redistribution *)

Section RedistributeProperties.
Local Open Scope Q_scope.
Import Portions Redistribute.

(** C9.  [redistributePortionsForMacros] returns [null] when the plan's
    total calories are more than 200 kcal from the target on entry, and
    when they are so after the adjustment rounds; a plan it does return
    was within 200 kcal of the target on entry and is so on return. *)
Theorem redistribute_calorie_guards
    (selectedFoods : SelectedFoods) (targets : Targets)
    (meals : list Meal) (options : Options) :
  let deviation (ms : list Meal) :=
    Qabs (inject_Z (cals (rawTotals ms selectedFoods)) - calories targets) in
  let adjusted :=
    rounds selectedFoods targets
      (default 20 (maxPercentChangePerFood options))
      (default 5%nat (iterations options)) meals in
  (200 < deviation meals ->
   redistributePortionsForMacros selectedFoods targets meals options = None)
  /\ (200 < deviation adjusted ->
      redistributePortionsForMacros selectedFoods targets meals options = None)
  /\ (forall newMeals,
        redistributePortionsForMacros selectedFoods targets meals options = Some newMeals ->
        newMeals = adjusted /\ deviation meals <= 200 /\ deviation newMeals <= 200).
Proof.
  intros deviation adjusted.
  unfold redistributePortionsForMacros, finalCalories, computeTotals.
  cbn [t_calories]. fold adjusted. fold (deviation meals). fold (deviation adjusted).
  destruct (Qgtb (deviation meals) 200) eqn:Eentry.
  - apply Qgtb_true in Eentry.
    split; [reflexivity |]. split; [reflexivity |]. intros ? [=].
  - apply Qgtb_false in Eentry.
    destruct (Qgtb (deviation adjusted) 200) eqn:Efinal.
    + apply Qgtb_true in Efinal.
      split; [intros; exfalso; lra |]. split; [reflexivity |]. intros ? [=].
    + apply Qgtb_false in Efinal.
      split; [intros; exfalso; lra |]. split; [intros; exfalso; lra |].
      intros newMeals [= <-]. repeat split; assumption.
Qed.

(** The lunch (411 kcal) against a target of 900 kcal is refused on
    entry; against 420 kcal it is within the tolerances and returned as
    it is. *)
Lemma redistribute_calorie_guards_witness :
  redistributePortionsForMacros Samples.pantry
    {| calories := 900; protein := 37; carbs := 52; fat := 6 |}
    Samples.lunch {| maxPercentChangePerFood := None; iterations := None |} = None
  /\ Qabs (inject_Z (cals (rawTotals Samples.lunch Samples.pantry)) - 420) <= 200.
Proof.
  split.
  - apply (proj1 (redistribute_calorie_guards Samples.pantry
                    {| calories := 900; protein := 37; carbs := 52; fat := 6 |}
                    Samples.lunch
                    {| maxPercentChangePerFood := None; iterations := None |})).
    vm_compute. reflexivity.
  - apply (proj2 (proj2 (redistribute_calorie_guards Samples.pantry
                    {| calories := 420; protein := 37; carbs := 52; fat := 6 |}
                    Samples.lunch
                    {| maxPercentChangePerFood := None; iterations := None |}))
             Samples.lunch).
    vm_compute. reflexivity.
Defined.

End RedistributeProperties.

(** ** Generation and retry orchestrator *)

Section OrchestratorProperties.
Local Open Scope Q_scope.
Import Validation Orchestrator.

Variable initial : ComputedTargets -> ProposerOutcome.
Variable adjust :
  nat -> ComputedTargets -> list Meal -> list AttemptRecord -> ProposerOutcome.

(** The loop from attempt [k] on, with [remaining] turns left: it makes
    at most [remaining] calls; a plan it returns passed the validation;
    and when no recorded attempt passed, it ends in the quota error or,
    after exactly [remaining] more calls, in the exhaustion error. *)
Lemma attempts_spec (settings : DietSettings) (targets : ComputedTargets)
    (currentMeals : list Meal) (remaining : nat) :
  forall (k made : nat) (previous : list AttemptRecord),
    (k + remaining = S maxAttempts)%nat ->
    let run := attempts initial adjust settings targets currentMeals
                 remaining k made previous in
    (attemptsMade run <= made + remaining)%nat
    /\ (forall p, outcome run = ReturnsPlan p ->
                  isValid (validatePlan settings targets p) = true)
    /\ (noneValid (previousAttempts run) ->
        outcome run = Throws QuotaError
        \/ (outcome run = Throws (AttemptsExhausted maxAttempts)
            /\ attemptsMade run = (made + remaining)%nat)).
Proof.
  induction remaining as [| rest IH]; intros k made previous Hk; cbn zeta.
  - cbn [attempts outcome attemptsMade previousAttempts].
    split; [lia |]. split; [discriminate |].
    intros _. right. split; [reflexivity | lia].
  - cbn [attempts].
    assert (S k + rest = S maxAttempts)%nat as Hk' by lia.
    specialize (IH (S k) (S made)).
    destruct (if Nat.eqb k 1 then initial targets
              else adjust k targets currentMeals previous) as [| [|] | r].
    + specialize (IH previous Hk'). cbn zeta in IH.
      destruct IH as (Hle & Hplan & Hnone).
      split; [lia |]. split; [exact Hplan |].
      intros Hv. destruct (Hnone Hv) as [Hq | [He Hm]]; [left; exact Hq |].
      right. split; [exact He | lia].
    + cbn [outcome attemptsMade previousAttempts].
      split; [lia |]. split; [discriminate |]. intros _. left. reflexivity.
    + specialize (IH previous Hk'). cbn zeta in IH.
      destruct IH as (Hle & Hplan & Hnone).
      split; [lia |]. split; [exact Hplan |].
      intros Hv. destruct (Hnone Hv) as [Hq | [He Hm]]; [left; exact Hq |].
      right. split; [exact He | lia].
    + destruct (isValid (validatePlan settings targets r)) eqn:Evalid.
      * cbn [outcome attemptsMade previousAttempts].
        split; [lia |]. split.
        -- intros p [= <-]. destruct r. exact Evalid.
        -- intros Hv. exfalso. unfold noneValid in Hv.
           apply Forall_app in Hv. destruct Hv as [_ Hlast].
           apply Forall_inv in Hlast. cbn [validation] in Hlast. congruence.
      * destruct (Nat.eqb_spec k maxAttempts) as [Elast | Hmore].
        -- cbn [outcome attemptsMade previousAttempts].
           split; [lia |]. split; [discriminate |].
           intros _. right. split; [reflexivity |]. unfold maxAttempts in *. lia.
        -- specialize
             (IH (previous ++ [{| attempt := k; result := r;
                                  validation := validatePlan settings targets r |}])
                 Hk').
           cbn zeta in IH. destruct IH as (Hle & Hplan & Hnone).
           split; [lia |]. split; [exact Hplan |].
           intros Hv. destruct (Hnone Hv) as [Hq | [He Hm]]; [left; exact Hq |].
           right. split; [exact He | lia].
Qed.

(** A quota error leaves the loop only when a call throws one. *)
Lemma attempts_quota_free (settings : DietSettings) (targets : ComputedTargets)
    (currentMeals : list Meal) (remaining : nat) :
  (forall t, initial t <> Raised true) ->
  (forall k t m h, adjust k t m h <> Raised true) ->
  forall (k made : nat) (previous : list AttemptRecord),
    outcome (attempts initial adjust settings targets currentMeals
               remaining k made previous) <> Throws QuotaError.
Proof.
  intros Hinitial Hadjust.
  induction remaining as [| rest IH]; intros k made previous.
  - cbn [attempts outcome]. discriminate.
  - cbn [attempts].
    destruct (if Nat.eqb k 1 then initial targets
              else adjust k targets currentMeals previous) as [| [|] | r] eqn:Ecall.
    + apply IH.
    + exfalso. destruct (Nat.eqb k 1).
      * exact (Hinitial _ Ecall).
      * exact (Hadjust _ _ _ _ Ecall).
    + apply IH.
    + destruct (isValid (validatePlan settings targets r)).
      * cbn [outcome]. discriminate.
      * destruct (Nat.eqb k maxAttempts); [cbn [outcome]; discriminate | apply IH].
Qed.

End OrchestratorProperties.

Section CaughtProposers.
Local Open Scope Q_scope.
Import Validation Orchestrator.

(** The bodies of the two proposers, free to return, to return [null]
    or to throw, a quota error included. *)
Variable initialBody : ComputedTargets -> ProposerOutcome.
Variable adjustBody :
  nat -> ComputedTargets -> list Meal -> list AttemptRecord -> ProposerOutcome.

Lemma caught_never_raises (body : ProposerOutcome) (isQuota : bool) :
  caught body <> Raised isQuota.
Proof. destruct body; discriminate. Qed.

(** C6.  [generateDietPlan], with its proposers as the source has them
    (every throw of a body caught and turned into [null]), calls a
    proposer at most 10 times, and a plan it returns has passed the
    strict validation.  Once the attempts have started (the AI client is
    available and the percentages are accepted) and no attempt produces
    a plan that passes, it throws the error that the attempts are
    exhausted, after exactly 10 attempts.  It never returns a best-effort
    plan, and it never ends in a quota error. *)
Theorem generation_attempts_bounded
    (aiAvailable : bool)
    (targetCalories : Q) (dietSettings : DietSettings + string)
    (currentMeals : list Meal) (deficitSurplus : Q) :
  let run := generateDietPlan aiAvailable
               (fun t => caught (initialBody t))
               (fun k t m h => caught (adjustBody k t m h))
               targetCalories dietSettings currentMeals deficitSurplus in
  (attemptsMade run <= 10)%nat
  /\ (forall p targets,
        outcome run = ReturnsPlan p ->
        computeTargets targetCalories deficitSurplus (normalize dietSettings) = Ok targets ->
        isValid (validatePlan (normalize dietSettings) targets p) = true)
  /\ (forall targets,
        aiAvailable = true ->
        computeTargets targetCalories deficitSurplus (normalize dietSettings) = Ok targets ->
        noneValid (previousAttempts run) ->
        outcome run = Throws (AttemptsExhausted 10) /\ attemptsMade run = 10%nat)
  /\ outcome run <> Throws QuotaError.
Proof.
  cbn zeta. unfold generateDietPlan.
  destruct aiAvailable; cbn [negb].
  - destruct (computeTargets targetCalories deficitSurplus (normalize dietSettings))
      as [targets | e] eqn:Etargets.
    + pose proof (attempts_spec (fun t => caught (initialBody t))
                    (fun k t m h => caught (adjustBody k t m h))
                    (normalize dietSettings) targets currentMeals
                    maxAttempts 1 0 [] eq_refl) as H.
      pose proof (attempts_quota_free (fun t => caught (initialBody t))
                    (fun k t m h => caught (adjustBody k t m h))
                    (normalize dietSettings) targets currentMeals maxAttempts
                    (fun t => caught_never_raises _ _)
                    (fun k t m h => caught_never_raises _ _) 1%nat 0%nat []) as Hquota.
      cbn zeta in H. destruct H as (Hle & Hplan & Hnone).
      split; [exact Hle |]. split; [| split; [| exact Hquota]].
      * intros p targets' Hp [= <-]. apply Hplan. exact Hp.
      * intros targets' _ [= <-] Hv.
        destruct (Hnone Hv) as [Hq | Hexhausted]; [contradiction | exact Hexhausted].
    + cbn [outcome attemptsMade previousAttempts].
      split; [lia |]. split; [discriminate |]. split; [intros targets' _ [=] |].
      unfold computeTargets in Etargets.
      destruct (Qgtb _ _); [| discriminate]. injection Etargets as <-. discriminate.
  - cbn [outcome attemptsMade previousAttempts].
    split; [lia |]. split; [discriminate |]. split; [intros targets' [=] | discriminate].
Qed.

End CaughtProposers.

Section OrchestratorWitnesses.
Local Open Scope Q_scope.
Import Validation Orchestrator.

(** The example of the specification: a proposer that always returns a
    plan 16 g short of protein.  The loop runs ten attempts, records ten
    failed validations and throws the exhaustion error. *)
Lemma always_short_exhausts :
  let run := generateDietPlan true Samples.alwaysShort Samples.alwaysShortAgain
               2000 (inl (Samples.settings 30 40 30)) [] 0 in
  outcome run = Throws (AttemptsExhausted 10)
  /\ attemptsMade run = 10%nat
  /\ length (previousAttempts run) = 10%nat
  /\ Forall (fun a => exists t x d, errors (validation a) = [ProteinDeviationTooHigh t x d]
                                    /\ d == 16)
            (previousAttempts run).
Proof.
  cbn zeta. split; [vm_compute; reflexivity |].
  split; [vm_compute; reflexivity |].
  split; [vm_compute; reflexivity |].
  vm_compute. repeat constructor; do 3 eexists; (split; [reflexivity | reflexivity]).
Qed.

(** A first proposer whose body fails on the quota, then plans that are
    always short: the quota error is caught in the proposer, the loop
    goes on, and after ten attempts, nine of them recorded, it throws
    the exhaustion error. *)
Lemma generation_attempts_bounded_witness :
  let run := generateDietPlan true
               (fun t => caught (Samples.quotaInBody t))
               (fun k t m h => caught (Samples.alwaysShortAgain k t m h))
               2000 (inl (Samples.settings 30 40 30)) [] 0 in
  length (previousAttempts run) = 9%nat
  /\ outcome run = Throws (AttemptsExhausted 10)
  /\ attemptsMade run = 10%nat.
Proof.
  cbn zeta. split; [vm_compute; reflexivity |].
  destruct (generation_attempts_bounded Samples.quotaInBody Samples.alwaysShortAgain
              true 2000 (inl (Samples.settings 30 40 30)) [] 0) as (_ & _ & Hnone & _).
  eapply Hnone.
  - reflexivity.
  - vm_compute. reflexivity.
  - vm_compute. repeat constructor.
Defined.

End OrchestratorWitnesses.

(** * Further properties of the code *)

(** ** Uniform scaling *)

Section ScalingProperties.
Local Open Scope Q_scope.
Import Portions Scaling Shape.

Lemma portionwise_map (R : FoodEntry -> FoodEntry -> Prop) (g : FoodEntry -> FoodEntry)
    (meals : list Meal) :
  (forall f, R f (g f)) ->
  portionwise R meals
    (map (fun meal => {| meal_id := meal_id meal; name := name meal;
                         foods := map g (foods meal) |}) meals).
Proof.
  intros Hg. unfold portionwise.
  induction meals as [| meal rest IH]; cbn [map]; constructor; [| exact IH].
  cbn [meal_id name foods]. split; [reflexivity |]. split; [reflexivity |].
  induction (foods meal) as [| f fs IHf]; cbn [map]; constructor; [apply Hg | exact IHf].
Qed.

End ScalingProperties.

(** ** Uniform scaling *)

Section ScalingBounds.
Local Open Scope Q_scope.
Import Portions Scaling Shape.

(** The clamped correction is at most [maxScale] percent either way. *)
Lemma scaleFactor_bounds (maxScale calorieDiff : Q) (totalCalories : Z) :
  Qabs (scaleFactorOf maxScale calorieDiff totalCalories - 1) <= Qabs maxScale / 100.
Proof.
  unfold scaleFactorOf.
  set (x := calorieDiff / Qmax 1 (inject_Z totalCalories)).
  pose proof (Qabs_nonneg maxScale) as Hn.
  pose proof (Qle_Qabs maxScale) as Hle.
  pose proof (Qle_Qabs (- maxScale)) as Hle'. rewrite Qabs_opp in Hle'.
  apply Qabs_Qle_condition.
  destruct (Q.max_spec (- maxScale / 100) (Qmin (maxScale / 100) x)) as [[H0 E] | [H0 E]];
    destruct (Q.min_spec (maxScale / 100) x) as [[H1 E1] | [H1 E1]];
    rewrite E; try rewrite E1 in *; qconst; split; lra.
Qed.

(** With a positive cap the factor is on the side of the calorie gap. *)
Lemma scaleFactor_side (maxScale calorieDiff : Q) (totalCalories : Z) :
  0 < maxScale ->
  (0 < calorieDiff -> 1 <= scaleFactorOf maxScale calorieDiff totalCalories)
  /\ (calorieDiff < 0 -> scaleFactorOf maxScale calorieDiff totalCalories <= 1).
Proof.
  intros Hs. unfold scaleFactorOf.
  set (d := Qmax 1 (inject_Z totalCalories)).
  assert (1 <= d) as Hd by apply Q.le_max_l.
  assert (calorieDiff == calorieDiff / d * d) as Hx
    by (field; intros Hz; rewrite Hz in Hd; lra).
  set (x := calorieDiff / d) in *.
  destruct (Q.max_spec (- maxScale / 100) (Qmin (maxScale / 100) x)) as [[H0 E] | [H0 E]];
    destruct (Q.min_spec (maxScale / 100) x) as [[H1 E1] | [H1 E1]];
    rewrite E; try rewrite E1 in *; qconst; split; intros Hc; nra.
Qed.

Lemma scaled_quantity_close (q factor s : Q) :
  1 <= q -> Qabs (factor - 1) <= s ->
  Qabs (Qmax 1 (inject_Z (Math_round (q * factor))) - q) <= q * s + (1 # 2).
Proof.
  intros Hq Hf. apply Qabs_Qle_condition in Hf.
  destruct (Math_round_spec (q * factor)) as [Rlo Rhi].
  assert (0 <= q * (s - (factor - 1))) as H1 by (apply Qmult_le_0_compat; lra).
  assert (0 <= q * ((factor - 1) + s)) as H2 by (apply Qmult_le_0_compat; lra).
  apply Qabs_Qle_condition.
  destruct (Q.max_spec 1 (inject_Z (Math_round (q * factor)))) as [[Hm E] | [Hm E]];
    rewrite E; split; lra.
Qed.

(** X1.  A plan returned by [programmaticAdjustPortions] has the meals
    and portions of the plan it was given, one to one; a portion without
    quantity is left as it is, and every other portion keeps all but its
    quantity, which becomes a whole number of grams, at least 1. *)
Theorem scaling_keeps_shape (meals : list Meal) (selectedFoods : SelectedFoods)
    (targets : Targets) (options : Options) (newMeals : list Meal) :
  programmaticAdjustPortions meals selectedFoods targets options = Some newMeals ->
  portionwise
    (fun f f' =>
       sameButQuantity f f'
       /\ (quantity f == 0 -> f' = f)
       /\ (~ quantity f == 0 -> wholeGrams (quantity f')))
    meals newMeals.
Proof.
  unfold programmaticAdjustPortions. cbn zeta.
  destruct (Qltb _ 30); [discriminate |]. intros [= <-].
  apply portionwise_map. intros f. unfold scaleFood, falsy, Qeqb.
  destruct (Qeq_bool (quantity f) 0) eqn:E.
  - apply Qeq_bool_iff in E.
    split; [repeat split |]. split; [reflexivity | contradiction].
  - split; [repeat split |]. split.
    + intros Hz. apply Qeq_bool_iff in Hz. congruence.
    + intros _. unfold Redistribute.setFoodQuantity. cbn [quantity].
      set (r := Math_round _).
      exists (Z.max 1 r). split; [lia |].
      destruct (Q.max_spec 1 (inject_Z r)) as [[Hlt ->] | [Hle ->]].
      * change 1 with (inject_Z 1) in Hlt. rewrite <- Zlt_Qlt in Hlt.
        rewrite Z.max_r by lia. reflexivity.
      * change 1 with (inject_Z 1) in Hle. rewrite <- Zle_Qle in Hle.
        rewrite Z.max_l by lia. reflexivity.
Qed.

(** X2.  No portion of at least 1 g is changed by more than the cap in
    percent of its quantity, plus the half gram of the rounding; the cap
    is [maxScalePercentPerAttempt], 10 when that is absent or 0. *)
Theorem scaling_change_is_capped (meals : list Meal) (selectedFoods : SelectedFoods)
    (targets : Targets) (options : Options) (newMeals : list Meal) :
  programmaticAdjustPortions meals selectedFoods targets options = Some newMeals ->
  portionwise
    (fun f f' =>
       1 <= quantity f ->
       Qabs (quantity f' - quantity f)
       <= quantity f * (Qabs (maxScaleOf options) / 100) + (1 # 2))
    meals newMeals.
Proof.
  unfold programmaticAdjustPortions. cbn zeta.
  destruct (Qltb _ 30); [discriminate |]. intros [= <-].
  apply portionwise_map. intros f Hq. unfold scaleFood, falsy, Qeqb.
  destruct (Qeq_bool (quantity f) 0) eqn:E.
  - apply Qeq_bool_iff in E. lra.
  - unfold Redistribute.setFoodQuantity. cbn [quantity].
    apply scaled_quantity_close; [exact Hq | apply scaleFactor_bounds].
Qed.

(** X3.  With a positive cap the scaling goes towards the calorie
    target: when the plan is below it, no portion of a whole number of
    grams gets smaller, and when the plan is above it, none gets
    larger. *)
Theorem scaling_moves_towards_target (meals : list Meal) (selectedFoods : SelectedFoods)
    (targets : Targets) (options : Options) (newMeals : list Meal) :
  0 < maxScaleOf options ->
  programmaticAdjustPortions meals selectedFoods targets options = Some newMeals ->
  let totalCalories := inject_Z (cals (rawTotals meals selectedFoods)) in
  (totalCalories < calories targets ->
   portionwise (fun f f' => wholeGrams (quantity f) -> quantity f <= quantity f')
     meals newMeals)
  /\ (calories targets < totalCalories ->
      portionwise (fun f f' => wholeGrams (quantity f) -> quantity f' <= quantity f)
        meals newMeals).
Proof.
  intros Hs. unfold programmaticAdjustPortions. cbn zeta.
  destruct (Qltb _ 30); [discriminate |]. intros [= <-].
  set (diff := calories targets - inject_Z (cals (rawTotals meals selectedFoods))).
  destruct (scaleFactor_side (maxScaleOf options) diff
              (cals (rawTotals meals selectedFoods)) Hs) as [Hup Hdown].
  set (factor := scaleFactorOf _ _ _) in *.
  split; intros Hgap; apply portionwise_map; intros f [z [Hz Hq]];
    unfold scaleFood, falsy, Qeqb;
    (destruct (Qeq_bool (quantity f) 0) eqn:E; [lra |]);
    unfold Redistribute.setFoodQuantity; cbn [quantity].
  - assert (1 <= factor) as Hf by (apply Hup; unfold diff; lra).
    assert (z <= Math_round (quantity f * factor))%Z as Hr.
    { rewrite <- (Math_round_inject z). apply Math_round_le.
      rewrite Zle_Qle in Hz. change (inject_Z 1) with 1 in Hz. nra. }
    rewrite Zle_Qle in Hr.
    pose proof (Q.le_max_r 1 (inject_Z (Math_round (quantity f * factor)))). lra.
  - assert (factor <= 1) as Hf by (apply Hdown; unfold diff; lra).
    assert (Math_round (quantity f * factor) <= z)%Z as Hr.
    { apply (Z.le_trans _ (Math_round (inject_Z z)));
        [| rewrite Math_round_inject; lia].
      apply Math_round_le.
      rewrite Zle_Qle in Hz. change (inject_Z 1) with 1 in Hz. nra. }
    rewrite Zle_Qle in Hr, Hz. change (inject_Z 1) with 1 in Hz.
    apply Q.max_lub; lra.
Qed.

End ScalingBounds.

Section ScalingWitnesses.
Local Open Scope Q_scope.
Import Portions Scaling Shape.

(** The lunch (411 kcal) against 900 kcal is scaled up by the full
    10 percent, against 200 kcal down by the full 10 percent. *)
Lemma scaling_keeps_shape_witness :
  portionwise
    (fun f f' =>
       sameButQuantity f f'
       /\ (quantity f == 0 -> f' = f)
       /\ (~ quantity f == 0 -> wholeGrams (quantity f')))
    Samples.lunch MoreSamples.lunchUp.
Proof.
  apply (scaling_keeps_shape Samples.lunch Samples.pantry
           (MoreSamples.targets 900 37 52 6) MoreSamples.scaleDefault).
  vm_compute. reflexivity.
Defined.

Lemma scaling_change_is_capped_witness :
  portionwise
    (fun f f' =>
       1 <= quantity f ->
       Qabs (quantity f' - quantity f)
       <= quantity f * (Qabs (maxScaleOf MoreSamples.scaleDefault) / 100) + (1 # 2))
    Samples.lunch MoreSamples.lunchDown.
Proof.
  apply (scaling_change_is_capped Samples.lunch Samples.pantry
           (MoreSamples.targets 200 37 52 6) MoreSamples.scaleDefault).
  vm_compute. reflexivity.
Defined.

Lemma scaling_moves_towards_target_witness :
  portionwise (fun f f' => wholeGrams (quantity f) -> quantity f <= quantity f')
    Samples.lunch MoreSamples.lunchUp
  /\ portionwise (fun f f' => wholeGrams (quantity f) -> quantity f' <= quantity f)
       Samples.lunch MoreSamples.lunchDown.
Proof.
  split.
  - apply (proj1 (scaling_moves_towards_target Samples.lunch Samples.pantry
                    (MoreSamples.targets 900 37 52 6) MoreSamples.scaleDefault
                    MoreSamples.lunchUp eq_refl eq_refl)).
    vm_compute. reflexivity.
  - apply (proj2 (scaling_moves_towards_target Samples.lunch Samples.pantry
                    (MoreSamples.targets 200 37 52 6) MoreSamples.scaleDefault
                    MoreSamples.lunchDown eq_refl eq_refl)).
    vm_compute. reflexivity.
Defined.

End ScalingWitnesses.

(** ** Relaxed acceptance *)

Section RelaxedProperties.
Local Open Scope Q_scope.
Import Portions Relaxed.

Lemma progress_le (a1 a2 maxAttempts : Q) :
  0 < maxAttempts -> a1 <= a2 -> a1 / maxAttempts <= a2 / maxAttempts.
Proof.
  intros Hm Ha. unfold Qdiv. apply Qmult_le_compat_r; [exact Ha |].
  apply Qinv_le_0_compat. lra.
Qed.

Lemma tolerances_antitone (p1 p2 : Q) :
  p1 <= p2 ->
  calorieTolerance p2 <= calorieTolerance p1 /\ macroTolerance p2 <= macroTolerance p1.
Proof.
  intros H. unfold calorieTolerance, macroTolerance.
  assert (Math_round (p1 * 150) <= Math_round (p2 * 150))%Z as Hc
    by (apply Math_round_le; lra).
  assert (Math_round (p1 * 30) <= Math_round (p2 * 30))%Z as Hm
    by (apply Math_round_le; lra).
  rewrite Zle_Qle in Hc, Hm. split; lra.
Qed.

Lemma positive_not_falsy (q : Q) : 0 < q -> falsy q = false.
Proof.
  intros H. unfold falsy, Qeqb. apply not_true_iff_false. intros E.
  apply Qeq_bool_iff in E. lra.
Qed.

(** X4.  The relaxed tolerances only tighten as the attempts go on: with
    a positive attempt budget, totals accepted at one attempt are
    accepted at every earlier attempt too. *)
Theorem relaxed_acceptance_tightens (actualTotals targets : Targets)
    (earlier later maxAttempts : Q) :
  0 < maxAttempts ->
  earlier <= later ->
  checkRelaxedAcceptance actualTotals targets later maxAttempts = Some true ->
  checkRelaxedAcceptance actualTotals targets earlier maxAttempts = Some true.
Proof.
  intros Hm Hle. unfold checkRelaxedAcceptance.
  rewrite (positive_not_falsy _ Hm). cbn zeta.
  destruct (tolerances_antitone _ _ (progress_le earlier later maxAttempts Hm Hle))
    as [Hc Hmacro].
  intros H. apply (inj Some) in H. f_equal.
  rewrite !andb_true_iff in *. rewrite !Qle_bool_iff in *.
  destruct H as [[[H1 H2] H3] H4]. repeat split; lra.
Qed.

Lemma relaxed_acceptance_tightens_witness :
  checkRelaxedAcceptance (MoreSamples.targets 411 (364 # 10) (512 # 10) (56 # 10))
    (MoreSamples.targets 600 50 60 10) 2 10 = Some true.
Proof.
  apply (relaxed_acceptance_tightens
           (MoreSamples.targets 411 (364 # 10) (512 # 10) (56 # 10))
           (MoreSamples.targets 600 50 60 10) 2 7 10);
    [lra | lra | reflexivity].
Defined.

Lemma pushIf_nil (c : bool) (e : Validation.ValidationError)
    (l : list Validation.ValidationError) :
  Validation.pushIf c e l = [] -> c = false /\ l = [].
Proof.
  unfold Validation.pushIf. destruct c; [| tauto].
  destruct l; discriminate.
Qed.

(** A plan that validates is within the four absolute thresholds. *)
Lemma valid_within_thresholds (meals : list Meal) (sf : SelectedFoods)
    (tCal tP tC tF pp cp fp : Q) :
  let v := Validation.validateDietPlanSpecifications meals sf tCal tP tC tF pp cp fp in
  let a := Validation.actualTotals v in
  Validation.isValid v = true ->
  Qabs (inject_Z (Validation.calories a) - tCal) <= 150
  /\ Qabs (Validation.protein a - tP) <= 15
  /\ Qabs (Validation.carbs a - tC) <= 15
  /\ Qabs (Validation.fat a - tF) <= 15.
Proof.
  intros v a Hv. apply isValid_true_iff in Hv. subst a v.
  unfold Validation.validateDietPlanSpecifications in *.
  cbn [Validation.errors Validation.actualTotals Validation.calories Validation.protein
       Validation.carbs Validation.fat] in *.
  repeat match type of Hv with
         | Validation.pushIf _ _ _ = [] =>
             apply pushIf_nil in Hv; let H := fresh "Hc" in destruct Hv as [H Hv]
         end.
  repeat match goal with
         | H : Qgtb _ _ = false |- _ => apply Qgtb_false in H
         end.
  repeat split; assumption.
Qed.

(** X5.  The relaxed tolerances are never tighter than the absolute
    thresholds of the strict validation: the totals of a plan that
    validates are accepted by [checkRelaxedAcceptance] at every attempt
    up to the last of a positive attempt budget. *)
Theorem valid_plan_is_relaxed_accepted (meals : list Meal) (sf : SelectedFoods)
    (tCal tP tC tF pp cp fp : Q) (attempt maxAttempts : Q) :
  let v := Validation.validateDietPlanSpecifications meals sf tCal tP tC tF pp cp fp in
  let a := Validation.actualTotals v in
  Validation.isValid v = true ->
  0 < maxAttempts ->
  attempt <= maxAttempts ->
  checkRelaxedAcceptance
    {| calories := inject_Z (Validation.calories a); protein := Validation.protein a;
       carbs := Validation.carbs a; fat := Validation.fat a |}
    {| calories := tCal; protein := tP; carbs := tC; fat := tF |}
    attempt maxAttempts = Some true.
Proof.
  intros v a Hv Hm Ha.
  destruct (valid_within_thresholds meals sf tCal tP tC tF pp cp fp Hv)
    as (H1 & H2 & H3 & H4). fold v in H1, H2, H3, H4. fold a in H1, H2, H3, H4.
  unfold checkRelaxedAcceptance. rewrite (positive_not_falsy _ Hm).
  cbn [calories protein carbs fat].
  assert (attempt / maxAttempts <= 1) as Hp.
  { apply Qle_shift_div_r; [exact Hm | lra]. }
  destruct (tolerances_antitone _ _ Hp) as [Hc Hmacro].
  change (calorieTolerance 1) with 150 in Hc.
  change (macroTolerance 1) with 15 in Hmacro.
  f_equal. rewrite !andb_true_iff, !Qle_bool_iff. repeat split; lra.
Qed.

Lemma valid_plan_is_relaxed_accepted_witness :
  checkRelaxedAcceptance
    (MoreSamples.targets 411 (364 # 10) (512 # 10) (56 # 10))
    (MoreSamples.targets 411 (364 # 10) (512 # 10) (56 # 10)) 10 10 = Some true.
Proof.
  apply (valid_plan_is_relaxed_accepted Samples.lunch Samples.pantry
           411 (364 # 10) (512 # 10) (56 # 10) 35 50 12 10 10);
    [reflexivity | lra | lra].
Defined.

End RelaxedProperties.

(** ** Food names and the profile cache *)

Section NameProperties.
Import Correction.

Lemma standardize_lookup (s v : string) :
  (list_to_map standardizeTable : gmap string string) !! s = Some v ->
  Str.isEmpty v = false /\ standardizeFoodName v = Text v.
Proof.
  intros H. apply elem_of_list_to_map_2 in H. apply list_elem_of_In in H.
  unfold standardizeTable in H. cbn [In] in H.
  repeat (destruct H as [[= <- <-] | H]; [split; vm_compute; reflexivity |]).
  contradiction.
Qed.

(** What [standardizeFoodName] gives, by the case of the source it
    takes: the name as it is, the entry of the table, or what the table
    inherits. *)
Lemma standardize_cases (name : string) :
  (standardizeFoodName name = Text name)
  \/ (exists v,
        (list_to_map standardizeTable : gmap string string)
          !! Str.toLowerCase (Str.trim name) = Some v
        /\ standardizeFoodName name = Text v)
  \/ (Str.isEmpty name = false
      /\ inheritedKey (Str.toLowerCase (Str.trim name)) = true
      /\ standardizeFoodName name = Inherited (Str.toLowerCase (Str.trim name))).
Proof.
  unfold standardizeFoodName.
  destruct (Str.isEmpty name); [left; reflexivity |]. cbn zeta.
  destruct (_ !! _) as [v |] eqn:Elookup.
  - right. left. exists v. split; reflexivity.
  - destruct (inheritedKey _) eqn:Einherited.
    + right. right. repeat split. 
    + left. reflexivity.
Qed.

Lemma standardize_again (name v : string) :
  standardizeFoodName name = Text v -> standardizeFoodName v = Text v.
Proof.
  intros H.
  destruct (standardize_cases name) as [E | [(w & Elookup & E) | (_ & _ & E)]].
  - rewrite E in H. injection H as <-. exact E.
  - rewrite E in H. injection H as <-. apply (standardize_lookup _ _ Elookup).
  - rewrite E in H. discriminate.
Qed.


(** The two sides of it: a name of the table, and the name of a
    property every object has. *)
Remark standardize_examples :
  standardizeFoodName " Chicken " = Text "chicken breast, skinless"
  /\ standardizeFoodName "chicken breast, skinless" = Text "chicken breast, skinless"
  /\ standardizeFoodName "Constructor" = Inherited "constructor".
Proof. repeat split; vm_compute; reflexivity. Qed.

Lemma standardize_nonempty (name v : string) :
  Str.isEmpty name = false -> standardizeFoodName name = Text v -> Str.isEmpty v = false.
Proof.
  intros Hname H.
  destruct (standardize_cases name) as [E | [(w & Elookup & E) | (_ & _ & E)]];
    rewrite E in H; try discriminate; injection H as <-.
  - exact Hname.
  - apply (standardize_lookup _ _ Elookup).
Qed.

Lemma lowerAscii_space (c : ascii) : Str.isSpace (Str.lowerAscii c) = Str.isSpace c.
Proof. destruct c as [[] [] [] [] [] [] [] []]; reflexivity. Qed.

Lemma trimEnd_no_space (s : string) :
  Forall (fun c => Str.isSpace c = false) (list_ascii_of_string s) -> Str.trimEnd s = s.
Proof.
  induction s as [| c rest IH]; [reflexivity |].
  cbn [list_ascii_of_string Str.trimEnd]. intros H.
  apply Forall_cons in H as [Hc Hrest]. rewrite (IH Hrest).
  destruct rest; [rewrite Hc |]; reflexivity.
Qed.

Lemma trim_no_space (s : string) :
  Forall (fun c => Str.isSpace c = false) (list_ascii_of_string s) -> Str.trim s = s.
Proof.
  intros H. unfold Str.trim.
  assert (Str.trimStart s = s) as ->.
  { destruct s as [| c rest]; [reflexivity |].
    cbn [list_ascii_of_string] in H. apply Forall_cons in H as [Hc _].
    cbn [Str.trimStart]. rewrite Hc. reflexivity. }
  apply trimEnd_no_space. exact H.
Qed.

Lemma lower_no_space (s : string) :
  Forall (fun c => Str.isSpace c = false) (list_ascii_of_string (Str.toLowerCase s)) ->
  Forall (fun c => Str.isSpace c = false) (list_ascii_of_string s).
Proof.
  induction s as [| c rest IH]; [constructor |].
  cbn [Str.toLowerCase list_ascii_of_string]. intros H.
  apply Forall_cons in H as [Hc Hrest]. rewrite lowerAscii_space in Hc.
  constructor; [exact Hc | apply IH; exact Hrest].
Qed.

Lemma table_values_are_own (s v : string) :
  (list_to_map standardizeTable : gmap string string) !! s = Some v ->
  inheritedKey (Str.toLowerCase v) = false.
Proof.
  intros H. apply elem_of_list_to_map_2 in H. apply list_elem_of_In in H.
  unfold standardizeTable in H. cbn [In] in H.
  repeat (destruct H as [[= <- <-] | H]; [vm_compute; reflexivity |]).
  contradiction.
Qed.

(** [FALLBACK_PROFILES] is an object literal too, read with the lower-case
    form of the standardized name.  That read never meets an inherited
    name: a name in whose lower-case form there is no blank is its own
    trimmed form, so [standardizeFoodName] has met the inherited name
    before. *)
Lemma fallback_key_is_own (name v : string) :
  standardizeFoodName name = Text v -> inheritedKey (Str.toLowerCase v) = false.
Proof.
  intros H.
  destruct (standardize_cases name) as [E | [(w & Elookup & E) | (_ & _ & E)]];
    rewrite E in H; try discriminate; injection H as <-.
  - destruct (inheritedKey (Str.toLowerCase name)) eqn:Ekey; [| reflexivity].
    assert (Str.trim name = name) as Htrim.
    { apply trim_no_space, lower_no_space.
      unfold inheritedKey in Ekey. apply orb_true_iff in Ekey as [Ek | Ek];
        apply String.eqb_eq in Ek; rewrite Ek; repeat constructor. }
    unfold standardizeFoodName in E. destruct (Str.isEmpty name) eqn:Eempty.
    + unfold Str.isEmpty in Eempty. apply String.eqb_eq in Eempty. subst name.
      discriminate Ekey.
    + cbn zeta in E. rewrite Htrim in E.
      destruct (_ !! _) as [w |] eqn:Elookup.
      * injection E as ->. rewrite (table_values_are_own _ _ Elookup) in Ekey.
        discriminate Ekey.
      * rewrite Ekey in E. discriminate E.
  - apply (table_values_are_own _ _ Elookup).
Qed.

(** X7.  The profile cache is keyed without regard to case: a profile
    cached under a non-empty key is found again under any key with the
    same lower-case form, and the entries of keys with another
    lower-case form are left as they were. *)
Theorem cache_round_trip (cache : gmap string Profile.t) (key key' : string)
    (p : Profile.t) :
  Str.isEmpty key = false ->
  Str.isEmpty key' = false ->
  (Str.toLowerCase key = Str.toLowerCase key' ->
   getCachedProfile (cacheMacroProfile cache key p) key' = Some p)
  /\ (Str.toLowerCase key <> Str.toLowerCase key' ->
      getCachedProfile (cacheMacroProfile cache key p) key' = getCachedProfile cache key').
Proof.
  intros Hk Hk'. unfold getCachedProfile, cacheMacroProfile. rewrite Hk, Hk'. split.
  - intros <-. apply lookup_insert_eq.
  - intros Hne. apply lookup_insert_ne. exact Hne.
Qed.

Lemma cache_round_trip_witness :
  getCachedProfile (cacheMacroProfile ∅ "Olive Oil" (profile 884 0 0 100)) "olive oil"
  = Some (profile 884 0 0 100)
  /\ getCachedProfile (cacheMacroProfile ∅ "Olive Oil" (profile 884 0 0 100)) "butter"
     = getCachedProfile ∅ "butter".
Proof.
  split.
  - apply (proj1 (cache_round_trip ∅ "Olive Oil" "olive oil" (profile 884 0 0 100)
                    eq_refl eq_refl)).
    reflexivity.
  - apply (proj2 (cache_round_trip ∅ "Olive Oil" "butter" (profile 884 0 0 100)
                    eq_refl eq_refl)).
    vm_compute. discriminate.
Defined.

(** X8.  A fetch that has found a profile is repeatable: fetching the
    same name again, from the cache the first fetch left, gives the same
    profile and leaves the cache as it is. *)
Theorem fetch_is_repeatable (externalProfile : string -> option Profile.t)
    (cache cache' : gmap string Profile.t) (foodName : string) (p : Profile.t) :
  fetchAndCacheProfile externalProfile cache foodName = Some (Some p, cache') ->
  fetchAndCacheProfile externalProfile cache' foodName = Some (Some p, cache').
Proof.
  unfold fetchAndCacheProfile.
  destruct (standardizeFoodName foodName) as [standardized | key]; [| discriminate].
  intros H. apply (inj Some) in H. f_equal. revert H.
  destruct (getCachedProfile cache standardized) as [cached |] eqn:Ecached.
  - intros [= <- <-]. rewrite Ecached. reflexivity.
  - assert (forall q, getCachedProfile (cacheMacroProfile cache standardized q) standardized
                      = if Str.isEmpty standardized then None else Some q) as Hhit.
    { intros q. unfold getCachedProfile, cacheMacroProfile.
      destruct (Str.isEmpty standardized); [reflexivity | apply lookup_insert_eq]. }
    assert (Str.isEmpty standardized = true ->
            forall q, cacheMacroProfile cache standardized q = cache) as Hsame.
    { intros E q. unfold cacheMacroProfile. rewrite E. reflexivity. }
    destruct (FALLBACK_PROFILES !! Str.toLowerCase standardized) as [fb |] eqn:Efb.
    + intros [= <- <-]. rewrite Hhit.
      destruct (Str.isEmpty standardized) eqn:E; [| reflexivity].
      rewrite !(Hsame eq_refl). reflexivity.
    + destruct (externalProfile standardized) as [q |] eqn:Eext; [| discriminate].
      intros [= <- <-]. rewrite Hhit.
      destruct (Str.isEmpty standardized) eqn:E; [| reflexivity].
      rewrite !(Hsame eq_refl). reflexivity.
Qed.

Lemma fetch_is_repeatable_witness :
  fetchAndCacheProfile (fun _ => None)
    (cacheMacroProfile ∅ "butter" (profile 717 (9 # 10) (1 # 10) 81)) "Butter"
  = Some (Some (profile 717 (9 # 10) (1 # 10) 81),
          cacheMacroProfile ∅ "butter" (profile 717 (9 # 10) (1 # 10) 81)).
Proof.
  apply (fetch_is_repeatable (fun _ => None) ∅). vm_compute. reflexivity.
Defined.

(** The names of [PURE_MACRO_CANDIDATES] are strings to
    [standardizeFoodName], which leaves them as they are. *)
Lemma candidate_names_are_text (c : string * Portions.MacroName) :
  In c PURE_MACRO_CANDIDATES -> standardizeFoodName (fst c) = Text (fst c).
Proof.
  intros H. unfold PURE_MACRO_CANDIDATES in H. cbn [In] in H.
  repeat (destruct H as [<- | H]; [vm_compute; reflexivity |]).
  contradiction.
Qed.

(** Every candidate of [PURE_MACRO_CANDIDATES] is served from the cache
    or from [FALLBACK_PROFILES], and its fetch returns. *)
Lemma candidate_fetch_is_local (ext1 ext2 : string -> option Profile.t)
    (cache : gmap string Profile.t) (c : string * Portions.MacroName) :
  In c PURE_MACRO_CANDIDATES ->
  fetchAndCacheProfile ext1 cache (fst c) = fetchAndCacheProfile ext2 cache (fst c)
  /\ exists prof cache', fetchAndCacheProfile ext1 cache (fst c) = Some (Some prof, cache').
Proof.
  intros H. unfold fetchAndCacheProfile.
  rewrite (candidate_names_are_text c H).
  destruct (getCachedProfile cache (fst c)) as [cached |];
    [split; [reflexivity | do 2 eexists; reflexivity] |].
  assert (exists fb, FALLBACK_PROFILES !! Str.toLowerCase (fst c) = Some fb) as [fb ->].
  { unfold PURE_MACRO_CANDIDATES in H. cbn [In] in H.
    repeat (destruct H as [<- | H]; [eexists; vm_compute; reflexivity |]).
    contradiction. }
  split; [reflexivity | do 2 eexists; reflexivity].
Qed.

Lemma fetchProfiles_local (ext1 ext2 : string -> option Profile.t)
    (picked : list (string * Portions.MacroName)) :
  (forall c, In c picked -> In c PURE_MACRO_CANDIDATES) ->
  forall acc,
    fold_left (fetchOne ext1) picked (Some acc)
    = fold_left (fetchOne ext2) picked (Some acc)
    /\ exists r, fold_left (fetchOne ext1) picked (Some acc) = Some r.
Proof.
  induction picked as [| c rest IH]; intros Hin acc;
    [split; [reflexivity | eexists; reflexivity] |].
  cbn [fold_left]. destruct acc as [profiles cache].
  destruct (candidate_fetch_is_local ext1 ext2 cache c (Hin _ (or_introl eq_refl)))
    as (Hsame & prof & cache' & Hfetch).
  assert (fetchOne ext2 (Some (profiles, cache)) c = fetchOne ext1 (Some (profiles, cache)) c)
    as -> by (unfold fetchOne; cbn [mbind option_bind]; rewrite Hsame; reflexivity).
  assert (fetchOne ext1 (Some (profiles, cache)) c = Some (profiles ++ [(fst c, prof)], cache'))
    as -> by (unfold fetchOne; cbn [mbind option_bind]; rewrite Hfetch; reflexivity).
  apply IH. intros c' Hc'. apply Hin. right. exact Hc'.
Qed.

Lemma picked_are_candidates (needProtein needCarbs needFat : bool) (limit : nat)
    (c : string * Portions.MacroName) :
  In c (take limit (List.filter (wanted needProtein needCarbs needFat)
                                PURE_MACRO_CANDIDATES)) ->
  In c PURE_MACRO_CANDIDATES.
Proof.
  intros Hc. apply list_elem_of_In in Hc. apply subseteq_take in Hc.
  apply list_elem_of_In in Hc. apply filter_In in Hc. tauto.
Qed.

(** X9.  [macroCorrectionLoop] never depends on the external food
    databases: whatever they would answer, its result is the same, since
    every candidate it fetches has a built-in fallback profile. *)
Theorem correction_needs_no_lookup (ext1 ext2 : string -> option Profile.t)
    (correctionMealId : string) (pseudoId : nat -> string)
    (cache : gmap string Profile.t)
    (meals : list Meal) (selectedFoods : SelectedFoods)
    (targets : Portions.Targets) (options : Options) :
  macroCorrectionLoop ext1 correctionMealId pseudoId cache meals selectedFoods targets options
  = macroCorrectionLoop ext2 correctionMealId pseudoId cache meals selectedFoods targets
      options.
Proof.
  unfold macroCorrectionLoop, fetchProfiles. cbn zeta.
  destruct (_ && _); [reflexivity |].
  rewrite (proj1 (fetchProfiles_local ext1 ext2 _ (picked_are_candidates _ _ _ _) _)).
  reflexivity.
Qed.

End NameProperties.

(** ** What the correction loop adds *)

Section CorrectionAppends.
Local Open Scope Q_scope.
Import Portions Correction Shape.

Lemma fromSolution_from (pairs : list (Q * (string * Profile.t)))
    (acc : list CorrectionFood) :
  positiveGrams acc ->
  positiveGrams
    (fold_left
       (fun acc '(v, (pname, prof)) =>
          let g := Z.max 0 (Math_round v) in
          if (0 <? g)%Z
          then acc ++ [{| cf_name := pname; grams := g; cf_profile := prof |}]
          else acc)
       pairs acc).
Proof.
  revert acc. induction pairs as [| [v [pname prof]] rest IH]; intros acc Hacc;
    [exact Hacc |].
  cbn [fold_left]. apply IH. cbn zeta.
  destruct (Z.ltb_spec 0 (Z.max 0 (Math_round v))); [| exact Hacc].
  apply Forall_app. split; [exact Hacc |]. constructor; [cbn [grams]; lia | constructor].
Qed.

Lemma fromSolution_positive (solution : list Q) (profiles : list (string * Profile.t)) :
  positiveGrams (fromSolution solution profiles).
Proof. apply fromSolution_from. constructor. Qed.

Lemma greedyStep_positive (need : bool) (deficit : Q) (metric : Profile.t -> Q)
    (profiles : list (string * Profile.t)) (acc acc' : list CorrectionFood) :
  positiveGrams acc ->
  greedyStep need deficit metric profiles acc = Some acc' ->
  positiveGrams acc'.
Proof.
  intros Hacc. unfold greedyStep.
  destruct need; [| intros [= <-]; exact Hacc].
  destruct (best metric profiles) as [[bname bprof] |]; [| discriminate].
  destruct (Qeqb _ 0); [discriminate |].
  destruct (Z.ltb_spec 0 (Z.max 0 (Math_round (deficit / (metric bprof / 100)))));
    intros [= <-]; [| exact Hacc].
  apply Forall_app. split; [exact Hacc |]. constructor; [cbn [grams]; lia | constructor].
Qed.

Lemma appendFoods_entries (pseudoId : nat -> string) (cfs : list CorrectionFood)
    (sf : SelectedFoods) :
  positiveGrams cfs ->
  let entries := snd (appendFoods pseudoId cfs sf) in
  length entries = length cfs
  /\ Forall (fun f => wholeGrams (quantity f) /\ isAlternative f = false) entries.
Proof.
  intros Hpos. unfold appendFoods. cbn zeta.
  match goal with |- context [fold_left ?f _ _] => set (step := f) end.
  assert (forall i sf0 entries0,
            Forall (fun f => wholeGrams (quantity f) /\ isAlternative f = false) entries0 ->
            length (snd (snd (fold_left step cfs (i, (sf0, entries0)))))
            = (length entries0 + length cfs)%nat
            /\ Forall (fun f => wholeGrams (quantity f) /\ isAlternative f = false)
                 (snd (snd (fold_left step cfs (i, (sf0, entries0)))))) as H.
  { induction Hpos as [| cf rest Hcf _ IH]; intros i sf0 entries0 H0.
    - cbn [fold_left snd length]. split; [lia | exact H0].
    - cbn [fold_left]. unfold step at 2 4. 
      edestruct IH as [Hlen Hall]; [| split; [| exact Hall]].
      + apply Forall_app. split; [exact H0 |]. constructor; [| constructor].
        cbn [quantity isAlternative]. split; [| reflexivity].
        exists (grams cf). split; [exact Hcf | reflexivity].
      + rewrite Hlen, length_app. cbn [length]. lia. }
  exact (H 0%nat sf [] (Forall_nil_2 _)).
Qed.

(** X10.  [macroCorrectionLoop] only ever appends.  Either it reports
    [correctionMealAdded = false] and returns the meals and the selected
    foods it was given, or it reports [true] and returns the given meals
    followed by one meal named "Macro correction", which is not empty and
    whose portions are main foods of a whole number of grams, at least
    1. *)
Theorem correction_only_appends
    (externalProfile : string -> option Profile.t)
    (correctionMealId : string) (pseudoId : nat -> string)
    (cache cache' : gmap string Profile.t)
    (meals : list Meal) (selectedFoods : SelectedFoods)
    (targets : Targets) (options : Options) (r : CorrectionResult) :
  macroCorrectionLoop externalProfile correctionMealId pseudoId cache
    meals selectedFoods targets options = Some (r, cache') ->
  (correctionMealAdded r = false
   /\ Correction.meals r = meals /\ Correction.selectedFoods r = selectedFoods)
  \/ (correctionMealAdded r = true
      /\ exists correctionMeal,
           Correction.meals r = meals ++ [correctionMeal]
           /\ name correctionMeal = "Macro correction"%string
           /\ foods correctionMeal <> []
           /\ Forall (fun f => wholeGrams (quantity f) /\ isAlternative f = false)
                (foods correctionMeal)).
Proof.
  unfold macroCorrectionLoop. cbn zeta.
  destruct (_ && _); [intros [= <- <-]; left; repeat split |].
  destruct (fetchProfiles _ _ _) as [[profiles cache1] |]; [| discriminate].
  cbn [mbind option_bind].
  destruct (Nat.eqb (length profiles) 0); [intros [= <- <-]; left; repeat split |].
  set (fromNNLS := match NNLS.nnlsSolve _ _ 500 with
                   | Some sol => _
                   | None => []
                   end).
  assert (positiveGrams fromNNLS) as HNNLS.
  { subst fromNNLS. destruct (NNLS.nnlsSolve _ _ 500) as [sol |]; [| constructor].
    destruct (Nat.eqb _ _); [apply fromSolution_positive | constructor]. }
  set (chosen := if Nat.eqb (length fromNNLS) 0 then _ else Some fromNNLS).
  assert (forall cfs, chosen = Some cfs -> positiveGrams cfs) as Hchosen.
  { subst chosen. intros cfs. destruct (Nat.eqb (length fromNNLS) 0).
    - destruct (greedyStep _ _ Profile.protein_g_per_100g _ _) as [a1 |] eqn:E1;
        [| discriminate]. cbn.
      destruct (greedyStep _ _ Profile.carbs_g_per_100g _ _) as [a2 |] eqn:E2;
        [| discriminate]. cbn.
      intros E3.
      pose proof (greedyStep_positive _ _ _ _ _ _ (Forall_nil_2 _) E1) as P1.
      pose proof (greedyStep_positive _ _ _ _ _ _ P1 E2) as P2.
      exact (greedyStep_positive _ _ _ _ _ _ P2 E3).
    - intros [= <-]. exact HNNLS. }
  destruct chosen as [cfs |]; [| discriminate]. cbn [mbind option_bind].
  specialize (Hchosen cfs eq_refl).
  destruct (Nat.eqb (length cfs) 0) eqn:Elen;
    [intros [= <- <-]; left; repeat split |].
  set (capped := if Qgtb _ _ then _ else Some cfs).
  assert (forall cfs', capped = Some cfs' ->
                       positiveGrams cfs' /\ length cfs' = length cfs) as Hcapped.
  { subst capped. intros cfs'. destruct (Qgtb _ _).
    - destruct (Z.eqb _ 0); [discriminate |]. intros [= <-].
      split; [| apply length_map].
      apply Forall_map. apply Forall_forall. intros cf _. cbn [grams]. lia.
    - intros [= <-]. split; [exact Hchosen | reflexivity]. }
  destruct capped as [cfs' |]; [| discriminate]. cbn [mbind option_bind].
  destruct (Hcapped cfs' eq_refl) as [Hpos Hlen'].
  pose proof (appendFoods_entries pseudoId cfs' selectedFoods Hpos) as Happ.
  cbn zeta in Happ. destruct (appendFoods pseudoId cfs' selectedFoods) as [sf' entries].
  cbn [snd] in Happ. destruct Happ as [Hlen Hall].
  intros [= <- <-]. right. split; [reflexivity |].
  eexists. split; [reflexivity |]. cbn [name foods].
  split; [reflexivity |]. split; [| exact Hall].
  intros ->. cbn [length] in Hlen. apply Nat.eqb_neq in Elen. lia.
Qed.

Lemma correction_only_appends_witness :
  exists r cache',
    macroCorrectionLoop (fun _ => None) "correction-meal-1" (fun _ => "correction-food-1")
      ∅ Samples.lunch Samples.pantry
      (MoreSamples.targets 1500 120 150 50)
      {| maxCandidates := Some 3%nat; maxCorrectionCalories := Some 800 |}
    = Some (r, cache')
    /\ ((correctionMealAdded r = false
         /\ Correction.meals r = Samples.lunch
         /\ Correction.selectedFoods r = Samples.pantry)
        \/ (correctionMealAdded r = true
            /\ exists correctionMeal,
                 Correction.meals r = Samples.lunch ++ [correctionMeal]
                 /\ name correctionMeal = "Macro correction"%string
                 /\ foods correctionMeal <> []
                 /\ Forall (fun f => wholeGrams (quantity f) /\ isAlternative f = false)
                      (foods correctionMeal))).
Proof.
  assert (exists r cache',
            macroCorrectionLoop (fun _ => None) "correction-meal-1"
              (fun _ => "correction-food-1") ∅ Samples.lunch Samples.pantry
              (MoreSamples.targets 1500 120 150 50)
              {| maxCandidates := Some 3%nat; maxCorrectionCalories := Some 800 |}
            = Some (r, cache')) as (r & cache' & E)
    by (do 2 eexists; vm_compute; reflexivity).
  exists r, cache'. split; [exact E |].
  exact (correction_only_appends (fun _ => None) "correction-meal-1"
           (fun _ => "correction-food-1") ∅ cache' Samples.lunch Samples.pantry
           (MoreSamples.targets 1500 120 150 50)
           {| maxCandidates := Some 3%nat; maxCorrectionCalories := Some 800 |} r E).
Defined.

End CorrectionAppends.

(** ** Preference lists *)

Section PreferenceProperties.
Import Correction Preferences.

(** X11.  A preference list that [parsePreferences] returns is not
    empty, and each of its entries is a non-empty, already standardized
    name, or, for a part that reads [constructor] or [__proto__], the
    inherited property of that name instead of a string. *)
Theorem parsed_preferences_are_standard (prefString : option string)
    (names : list Name) :
  parsePreferences prefString = Some names ->
  names <> [] /\ Forall standardEntry names.
Proof.
  unfold parsePreferences. destruct prefString as [text |]; [| discriminate].
  destruct (Str.isEmpty text); [discriminate |]. cbn zeta.
  set (parts := List.filter _ _).
  destruct (Nat.eqb_spec (length parts) 0) as [| Hlen]; [discriminate |].
  intros [= <-]. split.
  - destruct parts; [contradiction | discriminate].
  - apply Forall_map. apply Forall_forall. intros p Hp.
    apply list_elem_of_In in Hp. apply filter_In in Hp. destruct Hp as [_ Hp].
    apply negb_true_iff in Hp. unfold standardEntry.
    pose proof (standardize_again p) as Hagain.
    pose proof (standardize_nonempty p) as Hnonempty.
    destruct (standardize_cases p) as [E | [(w & _ & E) | (_ & Hkey & E)]];
      rewrite E in *.
    + split; [exact Hp | exact E].
    + split; [apply Hnonempty; [exact Hp | reflexivity] | apply Hagain; reflexivity].
    + exact Hkey.
Qed.

(** Commas, semicolons and line feeds separate, blanks are trimmed and
    empty parts dropped; the part [Constructor] does not come out as a
    string. *)
Lemma parsed_preferences_are_standard_witness :
  parsePreferences (Some "Chicken , brown rice;;
 whey ,Constructor")
  = Some [Text "chicken breast, skinless"; Text "brown rice, cooked";
          Text "whey protein, isolate"; Inherited "constructor"]
  /\ Forall standardEntry
       [Text "chicken breast, skinless"; Text "brown rice, cooked";
        Text "whey protein, isolate"; Inherited "constructor"].
Proof.
  split; [vm_compute; reflexivity |].
  apply (parsed_preferences_are_standard (Some "Chicken , brown rice;;
 whey ,Constructor")).
  vm_compute. reflexivity.
Defined.

End PreferenceProperties.

(** ** More on the NNLS solver *)

Section NNLSMore.
Local Open Scope Q_scope.
Import NNLS Shape.

Lemma update_length (A : list (list Q)) (b : list Q) (st : list Q * Q) (i : nat) :
  length (fst (update A b st i)) = length (fst st).
Proof. destruct st as [x c]. unfold update. cbn [fst]. apply length_insert. Qed.

Lemma sweep_length (A : list (list Q)) (b : list Q) (x : list Q) :
  length (fst (sweep A b x)) = length x.
Proof.
  unfold sweep. generalize (0 : Q). generalize (List.seq 0 (n A)).
  intros idxs. revert x. induction idxs as [| i idxs IH]; intros x c; [reflexivity |].
  cbn [fold_left]. destruct (update A b (x, c) i) as [x' c'] eqn:E.
  rewrite IH. change x' with (fst (x', c')). rewrite <- E. apply (update_length A b (x, c)).
Qed.

Lemma descend_length (A : list (list Q)) (b : list Q) (maxIter : nat) (x : list Q) :
  length (descend A b maxIter x) = length x.
Proof.
  revert x. induction maxIter as [| k IH]; intros x; [reflexivity |].
  cbn [descend]. pose proof (sweep_length A b x) as Hs.
  destruct (sweep A b x) as [x' maxChange]. cbn [fst] in Hs.
  destruct (Qltb maxChange (1 # 10000)); [exact Hs | rewrite IH; exact Hs].
Qed.

(** X12.  A vector returned by [nnlsSolve] has one component for each
    column of the matrix. *)
Theorem nnls_solution_length (A : list (list Q)) (b : list Q) (maxIter : nat)
    (x : list Q) :
  nnlsSolve A b maxIter = Some x -> length x = columns A.
Proof.
  unfold nnlsSolve. fold (n A).
  destruct (Nat.eqb_spec (n A) 0) as [E | _].
  - intros [= <-]. symmetry. exact E.
  - cbn zeta. destruct (Qle_bool _ 0); [discriminate |]. intros [= <-].
    unfold iterate. rewrite descend_length. apply length_replicate.
Qed.

Lemma nnls_solution_length_witness :
  length [3; 4] = columns [[1; 0]; [0; 1]; [0; 0]].
Proof.
  apply (nnls_solution_length [[1; 0]; [0; 1]; [0; 0]] [3; 4; 0] 500).
  vm_compute. reflexivity.
Defined.











End NNLSMore.

(** ** What the redistribution changes *)

Section RedistributeShape.
Local Open Scope Q_scope.
Import Portions Redistribute Shape.

Lemma portionwise_refl (R : FoodEntry -> FoodEntry -> Prop) (meals : list Meal) :
  (forall f, R f f) -> portionwise R meals meals.
Proof.
  intros HR. unfold portionwise. apply Forall_Forall2_diag. apply Forall_forall.
  intros meal _. split; [reflexivity |]. split; [reflexivity |].
  apply Forall_Forall2_diag. apply Forall_forall. intros f _. apply HR.
Qed.

Lemma max_one_whole (z : Z) : wholeGrams (Qmax 1 (inject_Z z)).
Proof.
  exists (Z.max 1 z). split; [lia |].
  destruct (Q.max_spec 1 (inject_Z z)) as [[Hlt ->] | [Hle ->]].
  - change 1 with (inject_Z 1) in Hlt. rewrite <- Zlt_Qlt in Hlt.
    rewrite Z.max_r by lia. reflexivity.
  - change 1 with (inject_Z 1) in Hle. rewrite <- Zle_Qle in Hle.
    rewrite Z.max_l by lia. reflexivity.
Qed.

Lemma setQuantity_portionwise (R : FoodEntry -> FoodEntry -> Prop) (q : Q)
    (before after : list Meal) (mi fi : nat) :
  (forall f0 f, R f0 f -> R f0 (setFoodQuantity q f)) ->
  portionwise R before after ->
  portionwise R before (setQuantity after mi fi q).
Proof.
  intros HR H. unfold setQuantity. revert mi.
  induction H as [| m m' ms ms' (Hid & Hname & Hfoods) Hms IH]; intros mi; [constructor |].
  destruct mi as [| mi].
  - apply Forall2_cons. split; [| assumption]. cbn [meal_id name foods].
    split; [exact Hid |]. split; [exact Hname |].
    clear -HR Hfoods. revert fi.
    induction Hfoods as [| f f' fs fs' Hf Hrest IHf]; intros fi; [constructor |].
    destruct fi as [| fi]; apply Forall2_cons; split.
    + apply HR. exact Hf.
    + exact Hrest.
    + exact Hf.
    + apply IHf.
  - apply Forall2_cons. split; [repeat split; assumption | apply IH].
Qed.

Lemma foods_put_back (a : Q) (fs : list FoodEntry) (fi : nat) :
  alter (setFoodQuantity (default 0 (quantity <$> fs !! fi))) fi
    (alter (setFoodQuantity a) fi fs) = fs.
Proof.
  revert fi. induction fs as [| f fs IH]; intros fi; [reflexivity |].
  destruct fi as [| fi].
  - destruct f. reflexivity.
  - cbn. f_equal. apply IH.
Qed.

(** Writing a quantity and then the quantity that was there restores the
    plan: this is the "revert" of [adjustFor]. *)
Lemma setQuantity_put_back (meals : list Meal) (mi fi : nat) (a : Q) :
  setQuantity (setQuantity meals mi fi a) mi fi (getQuantity meals mi fi) = meals.
Proof.
  unfold setQuantity, getQuantity. revert mi.
  induction meals as [| meal rest IH]; intros mi; [reflexivity |].
  destruct mi as [| mi].
  - cbn. f_equal. destruct meal as [mid mname fs]. cbn [meal_id name foods]. f_equal.
    pose proof (foods_put_back a fs fi) as H.
    destruct (fs !! fi) as [f |] eqn:E; exact H.
  - cbn. f_equal. apply IH.
Qed.

Lemma tryCandidates_cases (selectedFoods : SelectedFoods) (targets : Targets)
    (macro : MacroName) (maxPercent diff : Q) (candidates : list Candidate)
    (newMeals : list Meal) :
  tryCandidates selectedFoods targets macro maxPercent diff candidates newMeals = newMeals
  \/ exists mi fi z,
       tryCandidates selectedFoods targets macro maxPercent diff candidates newMeals
       = setQuantity newMeals mi fi (Qmax 1 (inject_Z z)).
Proof.
  induction candidates as [| c rest IH]; [left; reflexivity |].
  cbn [tryCandidates]. cbn zeta.
  destruct (Qltb _ (Qabs diff)).
  - right. do 3 eexists. reflexivity.
  - rewrite setQuantity_put_back. exact IH.
Qed.

Lemma rounds_portionwise (selectedFoods : SelectedFoods) (targets : Targets)
    (maxPercent : Q) (iterations : nat) (meals newMeals : list Meal) :
  portionwise requantified meals newMeals ->
  portionwise requantified meals (rounds selectedFoods targets maxPercent iterations newMeals).
Proof.
  revert newMeals. induction iterations as [| k IH]; intros newMeals H; [exact H |].
  cbn [rounds]. cbn zeta.
  destruct (_ && _); [exact H |].
  destruct (Nat.eqb _ 0); [exact H |].
  apply IH.
  assert (forall macro diff,
            portionwise requantified meals
              (adjustFor selectedFoods targets macro maxPercent diff
                 (buildCandidates selectedFoods newMeals) newMeals)) as Hadjust.
  { intros macro diff. unfold adjustFor. destruct (Qltb (Qabs diff) 5); [exact H |].
    destruct (tryCandidates_cases selectedFoods targets macro maxPercent diff
                (sortDesc macro (buildCandidates selectedFoods newMeals)) newMeals)
      as [-> | (mi & fi & z & ->)]; [exact H |].
    apply setQuantity_portionwise; [| exact H].
    intros f0 f [(Hid & Hunit & Halt & Hparent) _]. split.
    - repeat split; assumption.
    - right. apply max_one_whole. }
  destruct (_ && _); [apply Hadjust |]. destruct (_ && _); apply Hadjust.
Qed.

(** X14.  A plan returned by [redistributePortionsForMacros] has the
    meals and portions of the plan it was given, one to one; every
    portion keeps everything but its quantity, and a quantity is either
    what it was or a whole number of grams, at least 1. *)
Theorem redistribution_keeps_shape (selectedFoods : SelectedFoods) (targets : Targets)
    (meals : list Meal) (options : Options) (newMeals : list Meal) :
  redistributePortionsForMacros selectedFoods targets meals options = Some newMeals ->
  portionwise requantified meals newMeals.
Proof.
  unfold redistributePortionsForMacros. cbn zeta.
  destruct (Qgtb _ 200); [discriminate |].
  destruct (Qgtb _ 200); [discriminate |]. intros [= <-].
  apply rounds_portionwise. apply portionwise_refl.
  intros f. split; [repeat split | left; reflexivity].
Qed.

Lemma redistribution_keeps_shape_witness :
  portionwise requantified Samples.lunch MoreSamples.lunchMoreChicken.
Proof.
  apply (redistribution_keeps_shape Samples.pantry (MoreSamples.targets 420 60 52 6)
           Samples.lunch {| maxPercentChangePerFood := None; iterations := None |}).
  vm_compute. reflexivity.
Defined.

End RedistributeShape.

(** ** Which plan the orchestrator returns *)

Section FirstValid.
Local Open Scope Q_scope.
Import Validation Orchestrator.

Variable initial : ComputedTargets -> ProposerOutcome.
Variable adjust :
  nat -> ComputedTargets -> list Meal -> list AttemptRecord -> ProposerOutcome.

Lemma attempts_history (settings : DietSettings) (targets : ComputedTargets)
    (currentMeals : list Meal) (remaining : nat) :
  forall (k made : nat) (previous : list AttemptRecord),
    noneValid previous ->
    let run := attempts initial adjust settings targets currentMeals
                 remaining k made previous in
    (forall p, outcome run = ReturnsPlan p ->
       exists earlier accepted,
         previousAttempts run = earlier ++ [accepted]
         /\ noneValid earlier
         /\ isValid (validation accepted) = true
         /\ result accepted = p)
    /\ (forall e, outcome run = Throws e -> noneValid (previousAttempts run))
    /\ outcome run <> ReturnsNull.
Proof.
  induction remaining as [| rest IH]; intros k made previous Hprev; cbn zeta.
  - cbn [attempts outcome previousAttempts].
    split; [discriminate |]. split; [intros; exact Hprev | discriminate].
  - cbn [attempts].
    destruct (if Nat.eqb k 1 then initial targets
              else adjust k targets currentMeals previous) as [| [|] | r].
    + apply IH. exact Hprev.
    + cbn [outcome previousAttempts].
      split; [discriminate |]. split; [intros; exact Hprev | discriminate].
    + apply IH. exact Hprev.
    + destruct (isValid (validatePlan settings targets r)) eqn:Evalid.
      * cbn [outcome previousAttempts].
        split; [| split; discriminate].
        intros p [= <-]. do 2 eexists. split; [reflexivity |].
        split; [exact Hprev |]. split; [exact Evalid |].
        cbn [result]. destruct r. reflexivity.
      * assert (noneValid
                  (previous ++ [{| attempt := k; result := r;
                                   validation := validatePlan settings targets r |}]))
          as Hnext.
        { apply Forall_app. split; [exact Hprev |]. constructor; [exact Evalid | constructor]. }
        destruct (Nat.eqb k maxAttempts).
        -- cbn [outcome previousAttempts].
           split; [discriminate |]. split; [intros; exact Hnext | discriminate].
        -- apply IH. exact Hnext.
Qed.

(** X15.  The plan [generateDietPlan] returns is the first that passed
    the strict validation: it is the last record of the attempt history,
    and every earlier record failed the validation.  When
    [generateDietPlan] throws, no record of the history passed. *)
Theorem returned_plan_is_first_valid
    (aiAvailable : bool)
    (targetCalories : Q) (dietSettings : DietSettings + string)
    (currentMeals : list Meal) (deficitSurplus : Q) :
  let run := generateDietPlan aiAvailable initial adjust
               targetCalories dietSettings currentMeals deficitSurplus in
  (forall p, outcome run = ReturnsPlan p ->
     exists earlier accepted,
       previousAttempts run = earlier ++ [accepted]
       /\ noneValid earlier
       /\ isValid (validation accepted) = true
       /\ result accepted = p)
  /\ (forall e, outcome run = Throws e -> noneValid (previousAttempts run)).
Proof.
  cbn zeta. unfold generateDietPlan.
  destruct aiAvailable; cbn [negb].
  - destruct (computeTargets targetCalories deficitSurplus (normalize dietSettings))
      as [targets | e].
    + pose proof (attempts_history (normalize dietSettings) targets currentMeals
                    maxAttempts 1 0 [] (Forall_nil_2 _)) as H.
      cbn zeta in H. destruct H as (Hplan & Hthrow & _). split; assumption.
    + cbn [outcome previousAttempts]. split; [discriminate | intros; constructor].
  - cbn [outcome previousAttempts]. split; [discriminate | intros; constructor].
Qed.

End FirstValid.

Section FirstValidWitness.
Local Open Scope Q_scope.
Import Validation Orchestrator.

(** Short of protein twice, exact on the third attempt: the third plan
    is returned, after two failed records. *)
Lemma returned_plan_is_first_valid_witness :
  let run := generateDietPlan true Samples.alwaysShort MoreSamples.exactOnThird
               2000 (inl (Samples.settings 30 40 30)) [] 0 in
  outcome run = ReturnsPlan MoreSamples.exactPlan
  /\ attemptsMade run = 3%nat
  /\ exists earlier accepted,
       previousAttempts run = earlier ++ [accepted]
       /\ noneValid earlier
       /\ isValid (validation accepted) = true
       /\ result accepted = MoreSamples.exactPlan.
Proof.
  cbn zeta. split; [vm_compute; reflexivity |]. split; [vm_compute; reflexivity |].
  apply (proj1 (returned_plan_is_first_valid Samples.alwaysShort MoreSamples.exactOnThird
                  true 2000 (inl (Samples.settings 30 40 30)) [] 0)).
  vm_compute. reflexivity.
Defined.

End FirstValidWitness.

(** ** Editing the meals of a plan *)

Section MealBuilderProperties.
Local Open Scope Q_scope.
Import MealBuilder.

Variable convertToGrams :
  Q -> string -> option Q -> option Q -> option string -> option (list AltMeasure) -> Q.
Variable selectedFoods : SelectedFoods.

Lemma onMeal_map {B : Type} (view : Meal -> B) (mealId : string) (change : Meal -> Meal)
    (meals : list Meal) :
  (forall meal, view (change meal) = view meal) ->
  map view (onMeal mealId change meals) = map view meals.
Proof.
  intros H. unfold onMeal. rewrite map_map. apply map_ext.
  intros meal. destruct (String.eqb _ _); [apply H | reflexivity].
Qed.

Lemma filter_spliced (keep : FoodEntry -> bool) (fs : list FoodEntry) (i : nat)
    (extra : FoodEntry) :
  keep extra = false ->
  List.filter keep (take i fs ++ [extra] ++ drop i fs) = List.filter keep fs.
Proof.
  intros H. rewrite !List.filter_app. cbn [List.filter]. rewrite H.
  cbn [app]. rewrite <- List.filter_app, take_drop. reflexivity.
Qed.

(** X16.  Adding an entry changes no total of the planner view: a new
    alternative is skipped by [calculateMealTotals], and a new food has
    the quantity 0. *)
Theorem new_entries_change_no_total (newId mealId parentFoodId : string)
    (meals : list Meal) :
  map (MealView.calculateMealTotals convertToGrams selectedFoods)
      (addFoodAlternative newId mealId parentFoodId meals)
  = map (MealView.calculateMealTotals convertToGrams selectedFoods) meals
  /\ map (MealView.calculateMealTotals convertToGrams selectedFoods)
         (addFood newId mealId meals)
     = map (MealView.calculateMealTotals convertToGrams selectedFoods) meals.
Proof.
  split.
  - unfold addFoodAlternative. cbn zeta. apply onMeal_map. intros meal.
    destruct (findIndex parentFoodId (foods meal)) as [parentIndex |]; [| reflexivity].
    rewrite calculateMealTotals_skips_alternatives.
    rewrite (calculateMealTotals_skips_alternatives convertToGrams selectedFoods meal).
    unfold mainFoods, withFoods. cbn [meal_id name foods].
    rewrite filter_spliced by reflexivity. reflexivity.
  - unfold addFood. cbn zeta. apply onMeal_map. intros meal.
    unfold MealView.calculateMealTotals, withFoods. cbn [foods].
    rewrite fold_left_app. cbn [fold_left].
    unfold MealView.addEntry at 1. cbn [isAlternative id quantity].
    destruct (selectedFoods !! newId); reflexivity.
Qed.

(** X17.  After [deleteFood] the meal holds neither the food nor any
    alternative of it. *)
Theorem deleted_food_takes_alternatives (mealId foodId : string) (meals : list Meal) :
  Forall (fun meal =>
            meal_id meal = mealId ->
            Forall (fun f => id f <> foodId /\ parentId f <> Some foodId) (foods meal))
         (deleteFood mealId foodId meals).
Proof.
  unfold deleteFood, onMeal. apply List.Forall_forall. intros meal Hin Hid.
  apply in_map_iff in Hin as (meal0 & <- & _).
  destruct (String.eqb (meal_id meal0) mealId) eqn:E.
  - cbn [withFoods foods]. apply List.Forall_forall. intros f Hf.
    apply List.filter_In in Hf as [_ Hkeep].
    apply andb_true_iff in Hkeep as [Hfood Halt].
    apply negb_true_iff in Hfood, Halt. split.
    + intros Heq. apply String.eqb_neq in Hfood. contradiction.
    + intros Heq. unfold isAlternativeOf in Halt. rewrite Heq in Halt.
      rewrite String.eqb_refl in Halt. discriminate.
  - apply String.eqb_neq in E. contradiction.
Qed.

(** X18.  An alternative goes with its parent: adding an alternative to
    a food and then deleting the food gives what deleting the food
    gives. *)
Theorem alternative_goes_with_parent (newId mealId parentFoodId : string)
    (meals : list Meal) :
  deleteFood mealId parentFoodId (addFoodAlternative newId mealId parentFoodId meals)
  = deleteFood mealId parentFoodId meals.
Proof.
  unfold deleteFood, addFoodAlternative. cbn zeta. unfold onMeal.
  rewrite map_map. apply map_ext. intros meal.
  destruct (String.eqb (meal_id meal) mealId) eqn:E.
  - destruct (findIndex parentFoodId (foods meal)) as [parentIndex |].
    + cbn [withFoods meal_id]. rewrite E. cbn [foods name meal_id]. f_equal.
      apply filter_spliced. cbn [id parentId]. unfold isAlternativeOf. cbn [parentId].
      rewrite String.eqb_refl. apply andb_false_r.
    + rewrite E. reflexivity.
  - rewrite E. reflexivity.
Qed.

(** X19.  [updateFood] changes no identifier: every meal holds the
    entries it held, in the same order, under the same ids. *)
Theorem updateFood_keeps_ids (mealId : string) (foodEntry : FoodEntry)
    (meals : list Meal) :
  map (fun meal => (meal_id meal, map id (foods meal))) (updateFood mealId foodEntry meals)
  = map (fun meal => (meal_id meal, map id (foods meal))) meals.
Proof.
  unfold updateFood. apply onMeal_map. intros meal.
  cbn [withFoods meal_id foods]. f_equal.
  rewrite map_map. apply map_ext. intros f.
  destruct (String.eqb (id f) (id foodEntry)) eqn:E; [| reflexivity].
  apply String.eqb_eq in E. symmetry. exact E.
Qed.

End MealBuilderProperties.

(** ** The quota backoff *)

Section QuotaProperties.
Import Quota.

Lemma backoff_deadline (now later : Z) (text : ErrorText) (st : State) :
  (now <= later)%Z ->
  (now + 10000 <= quotaBackoffUntil (setBackoffFromError now later text st))%Z.
Proof.
  intros Hclock. unfold setBackoffFromError. cbn zeta.
  destruct text as [| seconds |]; cbn [quotaBackoffUntil]; [lia | |];
    match goal with
    | |- context [if ?c then _ else _] => destruct c
    end; cbn [quotaBackoffUntil]; lia.
Qed.

(** X20.  A quota error holds the service back for at least ten seconds
    from the time it is handled, whatever delay the error names and
    whichever branch sets the deadline, the [try] or the [catch] that
    takes over when the error cannot be read or the deadline is not a
    date; setting credentials in between does not lift it.  The clock is
    taken not to run backwards between the two reads. *)
Theorem backoff_lasts_ten_seconds (now later t : Z) (text : ErrorText) (apiKey : string)
    (st : State) :
  (now <= later)%Z ->
  (t < now + 10000)%Z ->
  isAIAvailable t (setBackoffFromError now later text st) = false
  /\ isAIAvailable t (setGoogleAICredentials apiKey (setBackoffFromError now later text st))
     = false.
Proof.
  intros Hclock Ht.
  pose proof (backoff_deadline now later text st Hclock) as Hdeadline.
  assert (isQuotaBlocked t (setBackoffFromError now later text st) = true) as Hblocked.
  { unfold isQuotaBlocked. apply Z.ltb_lt. lia. }
  unfold isAIAvailable. split.
  - rewrite Hblocked. reflexivity.
  - unfold isQuotaBlocked in *. cbn [setGoogleAICredentials quotaBackoffUntil] in *.
    rewrite Hblocked. reflexivity.
Qed.

(** A delay of two seconds is raised to ten; a delay too long for a date
    ends in the [catch], one minute from then. *)
Lemma backoff_lasts_ten_seconds_witness :
  let st := {| API_KEY := "key"; genAI := true; quotaBackoffUntil := 0 |} in
  isAIAvailable 5000 st = true
  /\ quotaBackoffUntil (setBackoffFromError 5000 5001 (Delay 2) st) = 15000%Z
  /\ quotaBackoffUntil (setBackoffFromError 5000 5001 (Delay 9000000000000) st) = 65001%Z
  /\ isAIAvailable 14999 (setBackoffFromError 5000 5001 (Delay 9000000000000) st) = false
  /\ isAIAvailable 14999
       (setGoogleAICredentials "other"
          (setBackoffFromError 5000 5001 (Delay 9000000000000) st)) = false.
Proof.
  cbn zeta. split; [vm_compute; reflexivity |].
  split; [vm_compute; reflexivity |]. split; [vm_compute; reflexivity |].
  apply (backoff_lasts_ten_seconds 5000 5001 14999 (Delay 9000000000000) "other"
           {| API_KEY := "key"; genAI := true; quotaBackoffUntil := 0 |}); lia.
Defined.

End QuotaProperties.

(** ** Unit conversion *)

Section UnitProperties.
Local Open Scope Q_scope.
Import Units.

Lemma falsy_false (q : Q) : 0 < q -> falsy q = false.
Proof.
  intros H. unfold falsy, Qeqb. apply not_true_iff_false. intros E.
  apply Qeq_bool_iff in E. lra.
Qed.

Lemma positive_passes (q : Q) : 0 < q -> falsy q || Qle_bool q 0 = false.
Proof.
  intros H. rewrite (falsy_false q H). cbn [orb].
  apply not_true_iff_false. intros E. apply Qle_bool_iff in E. lra.
Qed.

(** X21.  The table of units is searched with [includes], and its first
    row is the gram: when neither an alternative measure nor the serving
    unit takes the unit, every unit whose name holds the letter g is
    read as grams, kilograms among them. *)
Theorem unit_with_g_is_grams (quantity : Q) (unit : string)
    (servingWeightGrams servingQty : option Q) (altMeasures : option (list AltMeasure)) :
  0 < quantity ->
  Text.includes "g" (Str.trim (Str.toLowerCase unit)) = true ->
  List.find (fun m => unitMatches (Str.trim (Str.toLowerCase unit)) (measure m))
            (default [] altMeasures) = None ->
  convertToGrams quantity unit servingWeightGrams servingQty None altMeasures
  = Some (quantity * 1).
Proof.
  intros Hq Hg Halt. unfold convertToGrams. rewrite (positive_passes quantity Hq).
  cbn zeta. rewrite Halt. cbn [truthyString andb].
  unfold unitConversions. cbn [List.find].
  assert (unitMatches (Str.trim (Str.toLowerCase unit)) (c_unit (conv "g" 1 Weight)) = true)
    as ->.
  { unfold unitMatches. cbn [c_unit conv]. change (Str.toLowerCase "g") with "g"%string.
    rewrite Hg. apply orb_true_r. }
  reflexivity.
Qed.

Lemma unit_with_g_is_grams_witness :
  convertToGrams 2 "kg" None None None None = Some (2 * 1)
  /\ convertToGrams 2 "Large egg" (Some 50) (Some 1) None None = Some (2 * 1).
Proof.
  split.
  - apply (unit_with_g_is_grams 2 "kg" None None None); [lra | reflexivity | reflexivity].
  - apply (unit_with_g_is_grams 2 "Large egg" (Some 50) (Some 1) None);
      [lra | reflexivity | reflexivity].
Defined.

(** X22.  The conversion is proportional to the quantity: which rule
    converts depends on the unit and the food alone, so [k] times a
    positive quantity gives [k] times the grams. *)
Theorem conversion_is_proportional (k quantity : Q) (unit : string)
    (servingWeightGrams servingQty : option Q) (servingUnit : option string)
    (altMeasures : option (list AltMeasure)) (grams : Q) :
  0 < k -> 0 < quantity ->
  convertToGrams quantity unit servingWeightGrams servingQty servingUnit altMeasures
  = Some grams ->
  exists scaled,
    convertToGrams (k * quantity) unit servingWeightGrams servingQty servingUnit altMeasures
    = Some scaled
    /\ scaled == k * grams.
Proof.
  intros Hk Hq. assert (0 < k * quantity) as Hkq by nra.
  unfold convertToGrams.
  rewrite (positive_passes quantity Hq), (positive_passes (k * quantity) Hkq).
  cbn zeta.
  destruct (List.find _ (default [] altMeasures)) as [matchingMeasure |].
  - destruct (falsy (qty matchingMeasure)); [discriminate |].
    intros [= <-]. eexists. split; [reflexivity |]. unfold Qdiv. ring.
  - destruct (_ && _ && _ && _).
    + intros [= <-]. eexists. split; [reflexivity |]. unfold Qdiv. ring.
    + destruct (List.find _ unitConversions) as [conversion |].
      * destruct (_ && _ && _).
        -- intros [= <-]. eexists. split; [reflexivity |]. unfold Qdiv. ring.
        -- destruct (Qltb 0 (gramsPerUnit conversion)).
           ++ intros [= <-]. eexists. split; [reflexivity |]. ring.
           ++ intros [= <-]. eexists. split; [reflexivity |]. ring.
      * intros [= <-]. eexists. split; [reflexivity |]. ring.
Qed.

Lemma conversion_is_proportional_witness :
  convertToGrams 2 "cup" None None None None = Some 480
  /\ exists scaled,
       convertToGrams (3 * 2) "cup" None None None None = Some scaled
       /\ scaled == 3 * 480.
Proof.
  split; [vm_compute; reflexivity |].
  apply (conversion_is_proportional 3 2 "cup" None None None None 480);
    [lra | lra | vm_compute; reflexivity].
Defined.

End UnitProperties.

(** ** Alternatives by alignment *)

Section AlignmentProperties.
Local Open Scope Q_scope.
Import MealView Alignment.

Lemma Math_round_comp (x y : Q) : x == y -> Math_round x = Math_round y.
Proof. intros H. unfold Math_round. apply Qfloor_comp. rewrite H. reflexivity. Qed.

Lemma Math_round_close (x : Q) : Qabs (inject_Z (Math_round x) - x) <= 1 # 2.
Proof.
  destruct (Math_round_spec x) as [Hlo Hhi]. apply Qabs_Qle_condition. split; lra.
Qed.

Lemma falsy_true (q : Q) : falsy q = true -> q == 0.
Proof. unfold falsy, Qeqb. apply Qeq_bool_iff. Qed.

Lemma falsy_nonzero (q : Q) : falsy q = false -> ~ q == 0.
Proof.
  unfold falsy, Qeqb. intros H E. apply Qeq_bool_iff in E. congruence.
Qed.

(** X23.  Aligned by calories, the quantity of the alternative is a
    multiple of 5 g, and at that quantity the alternative has the
    calories of the target portion to within those of 2.5 g of the
    alternative, plus the half calorie of the rounding. *)
Theorem calorie_alignment_is_close (targetFood : FoodItem) (targetQuantity : Q)
    (alternativeFood : FoodItem) (aligned : Z) :
  0 < calories_per_100g alternativeFood ->
  calculateAlignedQuantity targetFood targetQuantity alternativeFood ByCalories
  = Some aligned ->
  (aligned mod 5 = 0)%Z
  /\ Qabs (inject_Z (calories (calculateFoodMacros alternativeFood (inject_Z aligned)))
           - inject_Z (calories (calculateFoodMacros targetFood targetQuantity)))
     <= calories_per_100g alternativeFood / 40 + (1 # 2).
Proof.
  intros Hc. unfold calculateAlignedQuantity.
  destruct (falsy targetQuantity) eqn:Ezero.
  - intros [= <-]. split; [reflexivity |].
    apply falsy_true in Ezero. cbn [calculateFoodMacros calories].
    rewrite (Math_round_comp (calories_per_100g alternativeFood * (inject_Z 0 / 100)) 0)
      by (unfold Qdiv; change (inject_Z 0) with 0; ring).
    rewrite (Math_round_comp (calories_per_100g targetFood * (targetQuantity / 100)) 0)
      by (rewrite Ezero; unfold Qdiv; ring).
    change (Math_round 0) with 0%Z. change (inject_Z 0 - inject_Z 0) with (0 - 0).
    qconst. apply Qabs_Qle_condition. split; lra.
  - cbn zeta. unfold quotient. rewrite (falsy_false _ Hc). cbn [mbind option_bind].
    intros [= <-]. split; [apply Z.mod_mul; lia |].
    cbn [calculateFoodMacros calories].
    rewrite inject_Z_mult. change (inject_Z 5) with 5.
    set (T := Math_round (calories_per_100g targetFood * (targetQuantity / 100))).
    set (c := calories_per_100g alternativeFood) in *.
    set (x := inject_Z T * 100 / c).
    assert (c * x == inject_Z T * 100) as Hx.
    { unfold x. field. intros E. rewrite E in Hc. lra. }
    destruct (Math_round_spec (x / 5)) as [Rlo Rhi].
    set (r := Math_round (x / 5)) in *.
    pose proof (Math_round_close (c * (inject_Z r * 5 / 100))) as Hround.
    set (got := inject_Z (Math_round (c * (inject_Z r * 5 / 100)))) in *.
    apply Qabs_Qle_condition in Hround as [Hlo Hhi].
    assert (c * (inject_Z r * 5 - x) <= c * (5 # 2)) as Hup
      by (apply Qmult_le_l; [exact Hc | qconst; lra]).
    assert (c * - (5 # 2) <= c * (inject_Z r * 5 - x)) as Hdown
      by (apply Qmult_le_l; [exact Hc | qconst; lra]).
    clearbody got r x T c. qconst.
    apply Qabs_Qle_condition. split; lra.
Qed.

Lemma calorie_alignment_is_close_witness :
  calculateAlignedQuantity (Samples.foodItem "rice" 123 (27 # 10) (256 # 10) 1) 200
    (Samples.foodItem "chicken" 165 31 0 (36 # 10)) ByCalories = Some 150%Z
  /\ (150 mod 5 = 0)%Z
  /\ Qabs (inject_Z (calories (calculateFoodMacros
                                 (Samples.foodItem "chicken" 165 31 0 (36 # 10))
                                 (inject_Z 150)))
           - inject_Z (calories (calculateFoodMacros
                                   (Samples.foodItem "rice" 123 (27 # 10) (256 # 10) 1) 200)))
     <= 165 / 40 + (1 # 2).
Proof.
  split; [vm_compute; reflexivity |].
  apply (calorie_alignment_is_close (Samples.foodItem "rice" 123 (27 # 10) (256 # 10) 1) 200
           (Samples.foodItem "chicken" 165 31 0 (36 # 10)) 150).
  - cbn. lra.
  - vm_compute. reflexivity.
Defined.

Lemma partSimilarity_range (difference base : Q) :
  0 <= partSimilarity difference base <= 100.
Proof.
  unfold partSimilarity.
  pose proof (Qabs_nonneg (difference / base * 100)) as Habs.
  destruct (Q.max_spec 0 (100 - Qabs (difference / base * 100))) as [[H ->] | [H ->]];
    split; lra.
Qed.

(** X24.  When the two portions both round to 0 kcal, the calorie
    part of [calculateMacroSimilarity] is 0/0 and the score is NaN; for
    all other inputs the score is a whole number from 0 to 100. *)
Theorem similarity_in_range (food1 : FoodItem) (quantity1 : Q)
    (food2 : FoodItem) (quantity2 : Q) :
  if (calories (calculateFoodMacros food1 quantity1) =? 0)%Z
     && (calories (calculateFoodMacros food2 quantity2) =? 0)%Z
  then calculateMacroSimilarity food1 quantity1 food2 quantity2 = None
  else exists s,
         calculateMacroSimilarity food1 quantity1 food2 quantity2 = Some s
         /\ (0 <= similarity s <= 100)%Z.
Proof.
  unfold calculateMacroSimilarity. cbn zeta. cbn [d_calories d_protein d_carbs d_fat].
  unfold caloriesSimilarityOf.
  set (c1 := calories (calculateFoodMacros food1 quantity1)).
  set (c2 := calories (calculateFoodMacros food2 quantity2)).
  assert (forall caloriesSimilarity p k f : Q,
             0 <= caloriesSimilarity <= 100 -> 0 <= p <= 100 -> 0 <= k <= 100 ->
             0 <= f <= 100 ->
             (0 <= Math_round (caloriesSimilarity * (4 # 10) + p * (3 # 10)
                               + k * (15 # 100) + f * (15 # 100)) <= 100)%Z) as Hscore.
  { intros cs p k f Hcs Hp Hk Hf. split.
    - apply (Z.le_trans _ (Math_round (inject_Z 0))).
      + rewrite Math_round_inject. lia.
      + apply Math_round_le. change (inject_Z 0) with 0. lra.
    - apply (Z.le_trans _ (Math_round (inject_Z 100))).
      + apply Math_round_le. change (inject_Z 100) with 100. lra.
      + rewrite Math_round_inject. lia. }
  destruct (Z.eqb_spec c1 0) as [E1 | N1]; cbn [andb].
  - destruct (Z.eqb_spec c2 0) as [E2 | N2].
    + rewrite E1, E2. reflexivity.
    + destruct (Z.eqb_spec (c2 - c1) 0) as [E | N]; [lia |].
      cbn [mbind option_bind]. eexists. split; [reflexivity |]. cbn [similarity].
      apply Hscore; [lra | apply partSimilarity_range ..].
  - cbn [mbind option_bind]. eexists. split; [reflexivity |]. cbn [similarity].
    apply Hscore; apply partSimilarity_range.
Qed.

(** 200 g of rice against 150 g of chicken score 40; water against
    water has no score. *)
Remark similarity_examples :
  (exists s,
     calculateMacroSimilarity (Samples.foodItem "rice" 123 (27 # 10) (256 # 10) 1) 200
       (Samples.foodItem "chicken" 165 31 0 (36 # 10)) 150 = Some s
     /\ similarity s = 40%Z)
  /\ calculateMacroSimilarity (Samples.foodItem "water" 0 0 0 0) 200
       (Samples.foodItem "water" 0 0 0 0) 100 = None.
Proof.
  split; [eexists; split; vm_compute; reflexivity | vm_compute; reflexivity].
Qed.

Lemma round1_zero (x : Q) : x == 0 -> round1 x = inject_Z 0 / 10.
Proof.
  intros H. unfold round1.
  rewrite (Math_round_comp (x * 10) 0) by (rewrite H; ring). reflexivity.
Qed.

Lemma partSimilarity_same (x base : Q) : x == 0 -> partSimilarity x base == 100.
Proof.
  intros H. unfold partSimilarity.
  assert (Qabs (x / base * 100) == 0) as ->.
  { rewrite H. unfold Qdiv. rewrite Qmult_0_l, Qmult_0_l. reflexivity. }
  apply Q.max_r. lra.
Qed.

(** X25.  A portion that has calories, compared with itself, scores 100
    with no difference. *)
Theorem similarity_with_itself (food : FoodItem) (quantity : Q) :
  calories (calculateFoodMacros food quantity) <> 0%Z ->
  exists s,
    calculateMacroSimilarity food quantity food quantity = Some s
    /\ similarity s = 100%Z
    /\ d_calories (differences s) = 0%Z
    /\ d_protein (differences s) == 0
    /\ d_carbs (differences s) == 0
    /\ d_fat (differences s) == 0.
Proof.
  intros Hcal. unfold calculateMacroSimilarity. cbn zeta.
  rewrite Z.sub_diag. unfold caloriesSimilarityOf.
  destruct (calories (calculateFoodMacros food quantity) =? 0)%Z eqn:E;
    [apply Z.eqb_eq in E; contradiction |].
  cbn [mbind option_bind]. eexists. split; [reflexivity |].
  cbn [similarity differences d_calories d_protein d_carbs d_fat].
  rewrite !round1_zero by ring.
  split; [| repeat split; reflexivity].
  rewrite <- (Math_round_inject 100). apply Math_round_comp.
  rewrite !partSimilarity_same by reflexivity.
  reflexivity.
Qed.

Lemma similarity_with_itself_witness :
  calculateMacroSimilarity (Samples.foodItem "water" 0 0 0 0) 200
    (Samples.foodItem "water" 0 0 0 0) 200 = None
  /\ exists s,
       calculateMacroSimilarity (Samples.foodItem "rice" 123 (27 # 10) (256 # 10) 1) 200
         (Samples.foodItem "rice" 123 (27 # 10) (256 # 10) 1) 200 = Some s
       /\ similarity s = 100%Z
       /\ d_calories (differences s) = 0%Z
       /\ d_protein (differences s) == 0
       /\ d_carbs (differences s) == 0
       /\ d_fat (differences s) == 0.
Proof.
  split; [vm_compute; reflexivity |].
  apply (similarity_with_itself (Samples.foodItem "rice" 123 (27 # 10) (256 # 10) 1) 200).
  vm_compute. discriminate.
Defined.

End AlignmentProperties.

(** ** The exact scaling solver *)

Section ExactScalingProperties.
Local Open Scope Q_scope.
Import Portions ExactScaling Shape.

Lemma whole_requantified (grams : Z) (f0 f : FoodEntry) :
  (1 <= grams)%Z -> requantified f0 f ->
  requantified f0 (Redistribute.setFoodQuantity (inject_Z grams) f).
Proof.
  intros Hg [(Hid & Hunit & Halt & Hparent) _]. split.
  - repeat split; assumption.
  - right. exists grams. split; [exact Hg | reflexivity].
Qed.

Lemma applySolution_portionwise (maxFactor minFactor : Q) (meals : list Meal)
    (entries : list (Q * Flat)) :
  forall (current : option (list Meal)) (newMeals : list Meal),
    (forall m, current = Some m -> portionwise requantified meals m) ->
    fold_left (applyOne maxFactor minFactor) entries current = Some newMeals ->
    portionwise requantified meals newMeals.
Proof.
  induction entries as [| [value f] rest IH]; intros current newMeals Hcur.
  - cbn [fold_left]. intros E. apply Hcur. exact E.
  - cbn [fold_left]. apply IH. intros m.
    destruct current as [cur |]; [| discriminate].
    unfold applyOne. cbn [mbind option_bind]. cbn zeta.
    destruct (Z.max 0 (Math_round value) <=? 0)%Z eqn:Eg; [discriminate |].
    destruct (_ || _); [discriminate |]. intros [= <-].
    apply Z.leb_gt in Eg.
    apply setQuantity_portionwise; [| apply Hcur; reflexivity].
    intros f0 f1. apply whole_requantified. lia.
Qed.

(** X26.  A plan returned by [exactScalingSolver] has the meals and
    portions of the plan it was given; every quantity is what it was or a
    whole number of grams, at least 1; and the calories of the plan are
    within the band of 100 kcal or a tenth of the target around the
    target. *)
Theorem exact_scaling_result (meals : list Meal) (selectedFoods : SelectedFoods)
    (targets : Targets) (options : Options) (newMeals : list Meal) :
  exactScalingSolver meals selectedFoods targets options = Some newMeals ->
  portionwise requantified meals newMeals
  /\ Qabs (inject_Z (cals (rawTotals newMeals selectedFoods)) - calories targets)
     <= calorieBand targets.
Proof.
  unfold exactScalingSolver. cbn zeta.
  destruct (Nat.eqb _ 0); [discriminate |].
  destruct (NNLS.nnlsSolve _ _ _) as [solution |]; [| discriminate].
  destruct (negb _); [discriminate |].
  destruct (applySolution _ _ solution _ meals) as [scaled |] eqn:Eapply; [| discriminate].
  cbn [mbind option_bind].
  destruct (Qgtb _ _) eqn:Eband; [discriminate |]. intros [= <-]. split.
  - unfold applySolution in Eapply.
    eapply applySolution_portionwise; [| exact Eapply].
    intros m [= <-]. apply portionwise_refl.
    intros f. split; [repeat split | left; reflexivity].
  - apply Qgtb_false in Eband. exact Eband.
Qed.

Lemma exact_scaling_result_witness :
  exactScalingSolver Samples.riceOnly Samples.pantry
    (MoreSamples.targets 369 (81 # 10) (768 # 10) 3)
    {| maxScalePerFoodPercent := None |}
  = Some MoreSamples.riceUp
  /\ portionwise requantified Samples.riceOnly MoreSamples.riceUp
  /\ Qabs (inject_Z (cals (rawTotals MoreSamples.riceUp Samples.pantry)) - 369) <= 100.
Proof.
  split; [vm_compute; reflexivity |].
  apply (exact_scaling_result Samples.riceOnly Samples.pantry
           (MoreSamples.targets 369 (81 # 10) (768 # 10) 3)
           {| maxScalePerFoodPercent := None |}).
  vm_compute. reflexivity.
Defined.

End ExactScalingProperties.

(** ** Grams from percentages, and back *)

Section MacroGramsProperties.
Local Open Scope Q_scope.
Import Calc.

Lemma round1_close (x : Q) : Qabs (round1 x - x) <= 1 # 20.
Proof.
  unfold round1. destruct (Math_round_spec (x * 10)) as [Hlo Hhi].
  apply Qabs_Qle_condition. qconst. split; lra.
Qed.

(** X27.  The grams of [calculateMacroGrams] give back the calories they
    were computed from: at 4, 4 and 9 kcal per gram they are within
    0.85 kcal of the rounding plus the 0.1 percent the percentages may be
    off; [calculateCaloriesFromMacros] adds the half calorie of its own
    rounding. *)
Theorem macro_grams_give_back_calories
    (totalCalories proteinPercent carbsPercent fatPercent : Q) (grams : MacroGrams) :
  0 <= totalCalories ->
  calculateMacroGrams totalCalories proteinPercent carbsPercent fatPercent = Ok grams ->
  Qabs (protein grams * 4 + carbs grams * 4 + fat grams * 9 - totalCalories)
    <= (17 # 20) + totalCalories / 1000
  /\ Qabs (inject_Z (Alignment.calculateCaloriesFromMacros
                       (protein grams) (carbs grams) (fat grams))
           - totalCalories)
     <= (27 # 20) + totalCalories / 1000.
Proof.
  intros Hcal. unfold calculateMacroGrams.
  destruct (validateMacroPercentages proteinPercent carbsPercent fatPercent) eqn:Evalid;
    [| discriminate].
  cbn [negb]. intros [= <-]. cbn [protein carbs fat].
  unfold validateMacroPercentages in Evalid. cbn zeta in Evalid.
  apply Qle_bool_iff, Qabs_Qle_condition in Evalid as [Vlo Vhi].
  pose proof (round1_close (totalCalories * (proteinPercent / 100) / 4)) as Hp.
  pose proof (round1_close (totalCalories * (carbsPercent / 100) / 4)) as Hc.
  pose proof (round1_close (totalCalories * (fatPercent / 100) / 9)) as Hf.
  set (p := round1 (totalCalories * (proteinPercent / 100) / 4)) in *.
  set (c := round1 (totalCalories * (carbsPercent / 100) / 4)) in *.
  set (f := round1 (totalCalories * (fatPercent / 100) / 9)) in *.
  apply Qabs_Qle_condition in Hp as [Plo Phi], Hc as [Clo Chi], Hf as [Flo Fhi].
  assert ((proteinPercent + carbsPercent + fatPercent - 100) * totalCalories
          <= (1 # 10) * totalCalories) as Hup
    by (apply Qmult_le_compat_r; [exact Vhi | exact Hcal]).
  assert (- (1 # 10) * totalCalories
          <= (proteinPercent + carbsPercent + fatPercent - 100) * totalCalories) as Hdown
    by (apply Qmult_le_compat_r; [exact Vlo | exact Hcal]).
  pose proof (Math_round_close (p * 4 + c * 4 + f * 9)) as Hround.
  unfold Alignment.calculateCaloriesFromMacros.
  set (back := inject_Z (Math_round (p * 4 + c * 4 + f * 9))) in *.
  apply Qabs_Qle_condition in Hround as [Rlo Rhi].
  clearbody p c f back. qconst.
  split; apply Qabs_Qle_condition; split; lra.
Qed.

Lemma macro_grams_give_back_calories_witness :
  calculateMacroGrams 2000 30 40 30
  = Ok {| protein := round1 150; carbs := round1 200; fat := round1 (2000 * (30 / 100) / 9) |}
  /\ Qabs (round1 150 * 4 + round1 200 * 4 + round1 (2000 * (30 / 100) / 9) * 9 - 2000)
     <= (17 # 20) + 2000 / 1000
  /\ Qabs (inject_Z (Alignment.calculateCaloriesFromMacros
                       (round1 150) (round1 200) (round1 (2000 * (30 / 100) / 9)))
           - 2000)
     <= (27 # 20) + 2000 / 1000.
Proof.
  split; [vm_compute; reflexivity |].
  apply (macro_grams_give_back_calories 2000 30 40 30
           {| protein := round1 150; carbs := round1 200;
              fat := round1 (2000 * (30 / 100) / 9) |}).
  - lra.
  - vm_compute. reflexivity.
Defined.

End MacroGramsProperties.
